(** * FWA detection and incident lifecycle: a shallow embedding

    The development follows two source files of the compliance repository:

    - [src/models/FWAIncident.js]: the Sequelize model of an incident, its
      [beforeCreate] / [beforeUpdate] hooks, [calculateRiskScore] and the
      instance methods [escalate] and [referToOIG];
    - the [FWADetectionService] class: transcript, billing and enrollment
      analysis, confidence fusion, and [reportFWAIncident].
    - the request middleware that guards the routes ([extractToken],
      [authorize], [authorizeDataAccess]), the [SchedulerService] class, and
      the cache helper [getCached] of [src/config/redis.js].

    JavaScript numbers are IEEE 754 binary64 values and are modelled by the
    primitive floats of Rocq, which are the same format with the same
    rounding.  Integer columns are [Z].  Effects (the clock, the logger, the
    cache, the incident table, exceptions) are threaded through a small
    state-and-exception monad. *)

From Stdlib Require Import ZArith List String Ascii Bool Lia Floats.
From Stdlib Require Uint63.
Import ListNotations.

Local Open Scope string_scope.
Local Open Scope list_scope.
Local Open Scope Z_scope.

Set Implicit Arguments.
Set Warnings "-inexact-float".

(* ================================================================= *)
(** ** JavaScript numbers and strings *)

Module Js.

(** [Math.min(a, b)]: NaN if an argument is NaN, and -0 is below +0. *)
Definition Math_min (a b : float) : float :=
  if is_nan a || is_nan b then nan
  else if (a <? b)%float then a
  else if (b <? a)%float then b
  else if get_sign a then a else b.

(** [Math.max(a, b)]: NaN if an argument is NaN, and +0 is above -0. *)
Definition Math_max (a b : float) : float :=
  if is_nan a || is_nan b then nan
  else if (a <? b)%float then b
  else if (b <? a)%float then a
  else if get_sign a then b else a.

Definition Math_abs (a : float) : float := PrimFloat.abs a.
Definition Math_sqrt (a : float) : float := PrimFloat.sqrt a.

(** [Math.pow(x, 2)]: the engine's pow returns [x * x] for exponent 2. *)
Definition Math_pow2 (x : float) : float := (x * x)%float.

(** [a > b] and [a >= b] on numbers (false as soon as one side is NaN). *)
Definition gt (a b : float) : bool := (b <? a)%float.
Definition ge (a b : float) : bool := (b <=? a)%float.

(** A count or an array length as a number. *)
Definition of_nat (n : nat) : float := of_uint63 (Uint63.of_Z (Z.of_nat n)).
Definition of_Z (z : Z) : float :=
  if z <? 0 then (- of_uint63 (Uint63.of_Z (- z)))%float
  else of_uint63 (Uint63.of_Z z).

(** The exact value of a finite float as [m * 2^e], from its
    specification-level decomposition. *)
Definition to_mantissa_exponent (x : float) : option (Z * Z) :=
  match Prim2SF x with
  | S754_zero _ => Some (0, 0)
  | S754_finite s m e => Some (if s then Z.neg m else Z.pos m, e)
  | S754_infinity _ => None
  | S754_nan => None
  end.

(** [Math.round(x)]: the integer nearest to [x], ties towards +infinity,
    i.e. floor(x + 1/2) computed exactly.  [None] stands for NaN and the
    infinities, which are no integers. *)
Definition Math_round (x : float) : option Z :=
  match to_mantissa_exponent x with
  | None => None
  | Some (m, e) =>
      if 0 <=? e then Some (m * 2 ^ e)
      else Some ((2 * m + 2 ^ (- e)) / 2 ^ (- e + 1))
  end.

(** [x || 0] on a number: 0, -0 and NaN are falsy. *)
Definition or_zero (x : float) : float :=
  if is_nan x || is_zero x then 0%float else x.

(** *** Strings (ASCII) *)

Definition is_lower (c : ascii) : bool :=
  ((97 <=? nat_of_ascii c) && (nat_of_ascii c <=? 122))%nat.
Definition is_upper (c : ascii) : bool :=
  ((65 <=? nat_of_ascii c) && (nat_of_ascii c <=? 90))%nat.
Definition is_digit (c : ascii) : bool :=
  ((48 <=? nat_of_ascii c) && (nat_of_ascii c <=? 57))%nat.

Definition upper_char (c : ascii) : ascii :=
  if is_lower c then ascii_of_nat (nat_of_ascii c - 32) else c.
Definition lower_char (c : ascii) : ascii :=
  if is_upper c then ascii_of_nat (nat_of_ascii c + 32) else c.

Fixpoint map_string (f : ascii -> ascii) (s : string) : string :=
  match s with
  | EmptyString => EmptyString
  | String c r => String (f c) (map_string f r)
  end.

Definition toUpperCase : string -> string := map_string upper_char.
Definition toLowerCase : string -> string := map_string lower_char.

(** [s.substring(0, n)] *)
Definition substring0 (n : nat) (s : string) : string := String.substring 0 n s.

(** [s.includes(k)] *)
Fixpoint includes (s k : string) : bool :=
  if String.prefix k s then true
  else match s with
       | EmptyString => false
       | String _ r => includes r k
       end.

(** Digits of [Number.prototype.toString(36)]: 0-9 then a-z. *)
Definition digit36 (d : Z) : ascii :=
  if d <? 10 then ascii_of_nat (Z.to_nat (48 + d))
  else ascii_of_nat (Z.to_nat (87 + d)).

Fixpoint to_base36 (fuel : nat) (n : Z) (acc : string) : string :=
  match fuel with
  | O => acc
  | S fuel' =>
      let acc' := String (digit36 (n mod 36)) acc in
      if n / 36 =? 0 then acc' else to_base36 fuel' (n / 36) acc'
  end.

(** [n.toString(36)] for an integer [n]; the fuel exceeds the number of
    base-36 digits of [n]. *)
Definition toString36 (n : Z) : string :=
  if n <? 0 then String "-" (to_base36 (S (Z.to_nat (Z.log2 (- n)))) (- n) "")
  else to_base36 (S (Z.to_nat (Z.log2 n))) n "".

(** [String(idx)] for an array index: decimal digits. *)
Fixpoint to_base10 (fuel : nat) (n : Z) (acc : string) : string :=
  match fuel with
  | O => acc
  | S fuel' =>
      let acc' := String (digit36 (n mod 10)) acc in
      if n / 10 =? 0 then acc' else to_base10 fuel' (n / 10) acc'
  end.

Definition String_of_index (n : nat) : string :=
  to_base10 (S n) (Z.of_nat n) "".

End Js.


(* ================================================================= *)
(** ** Data model *)

(** The four values shared by [severity] and by the risk level of an
    analysis ([ENUM('LOW', 'MEDIUM', 'HIGH', 'CRITICAL')]). *)
Inductive Level := LOW | MEDIUM | HIGH | CRITICAL.

Inductive IncidentType :=
| FRAUD | WASTE | ABUSE | COMPLIANCE_VIOLATION | SUSPICIOUS_ACTIVITY
| IDENTITY_THEFT | BILLING_IRREGULARITY | ENROLLMENT_MANIPULATION
| BENEFIT_MISREPRESENTATION | UNAUTHORIZED_DISCLOSURE.

Inductive Status :=
| REPORTED | UNDER_INVESTIGATION | SUBSTANTIATED | UNSUBSTANTIATED
| REFERRED_TO_OIG | REFERRED_TO_CMS | RESOLVED | CLOSED.

Inductive DetectionMethod :=
| AI_DETECTION | MANUAL_REVIEW | EMPLOYEE_REPORT | BENEFICIARY_COMPLAINT
| AUDIT_FINDING | SYSTEM_ALERT | ANONYMOUS_TIP | REGULATORY_NOTICE.

Inductive ReporterType :=
| EMPLOYEE | BENEFICIARY | VENDOR | ANONYMOUS | SYSTEM | AUDITOR | REGULATOR.

Definition Level_name (l : Level) : string :=
  match l with
  | LOW => "LOW" | MEDIUM => "MEDIUM" | HIGH => "HIGH" | CRITICAL => "CRITICAL"
  end.

Definition IncidentType_name (t : IncidentType) : string :=
  match t with
  | FRAUD => "FRAUD"
  | WASTE => "WASTE"
  | ABUSE => "ABUSE"
  | COMPLIANCE_VIOLATION => "COMPLIANCE_VIOLATION"
  | SUSPICIOUS_ACTIVITY => "SUSPICIOUS_ACTIVITY"
  | IDENTITY_THEFT => "IDENTITY_THEFT"
  | BILLING_IRREGULARITY => "BILLING_IRREGULARITY"
  | ENROLLMENT_MANIPULATION => "ENROLLMENT_MANIPULATION"
  | BENEFIT_MISREPRESENTATION => "BENEFIT_MISREPRESENTATION"
  | UNAUTHORIZED_DISCLOSURE => "UNAUTHORIZED_DISCLOSURE"
  end.

Definition Status_name (s : Status) : string :=
  match s with
  | REPORTED => "REPORTED"
  | UNDER_INVESTIGATION => "UNDER_INVESTIGATION"
  | SUBSTANTIATED => "SUBSTANTIATED"
  | UNSUBSTANTIATED => "UNSUBSTANTIATED"
  | REFERRED_TO_OIG => "REFERRED_TO_OIG"
  | REFERRED_TO_CMS => "REFERRED_TO_CMS"
  | RESOLVED => "RESOLVED"
  | CLOSED => "CLOSED"
  end.

(** Milliseconds since the epoch, as [Date.now()] and [new Date()] read them. *)
Definition Timestamp := Z.

(** *** Analysis results of the detection service *)

(** An element of an analysis result's [patterns] array.  The text pattern
    matcher pushes objects with a [category]; the billing detector pushes
    objects with a [type] and no [category]. *)
Inductive Pattern :=
| RegexMatch (category : string) (source : string) (confidence : float)
| KeywordMatch (count : nat) (confidence : float)
| DuplicateAmounts (count : nat) (confidence : float) (description : string).

(** [p.category]; [None] is [undefined]. *)
Definition category (p : Pattern) : option string :=
  match p with
  | RegexMatch c _ _ => Some c
  | KeywordMatch _ _ => Some "keyword_match"
  | DuplicateAmounts _ _ _ => None
  end.

(** [p.confidence] *)
Definition confidence (p : Pattern) : float :=
  match p with
  | RegexMatch _ _ c => c
  | KeywordMatch _ c => c
  | DuplicateAmounts _ c _ => c
  end.

Inductive Indicator :=
| PATTERN_MATCH (category : option string) (confidence : float) (description : string)
| SENTIMENT (confidence : float) (description : string)
| AI_CLASSIFICATION (confidence : float) (description : string).

Record Recommendation := {
  priority : string;
  action : string;
  rec_description : string
}.

(** The [metadata] argument of [analyzeCallTranscript], as the routes pass it. *)
Record CallMetadata := {
  callId : option string;
  agentId : option string;
  userId : option string
}.

(** The [analysis] object built by [analyzeCallTranscript]. *)
Record CallAnalysis := {
  call_confidence : float;
  call_riskLevel : Level;
  call_indicators : list Indicator;
  call_patterns : list Pattern;
  call_recommendations : list Recommendation;
  call_metadata : CallMetadata;
  analyzedAt : Timestamp;
  textLength : nat
}.

(** A billing record [{id, amount}]. *)
Record Bill := {
  bill_id : string;
  amount : float
}.

Record BillingStatistics := {
  stat_count : nat;
  mean : float;
  median : float;
  stdDev : float;
  stat_min : float;
  stat_max : float
}.

(** An element of [anomalies]: a [STATISTICAL_OUTLIER]. *)
Record Anomaly := {
  billId : string;
  anomaly_amount : float;
  zScore : float;
  anomaly_severity : float;
  anomaly_description : string
}.

(** The [analysis] object built by [analyzeBillingPattern];
    [statisticalAnalysis = None] is the empty object [{}]. *)
Record BillingAnalysis := {
  bill_confidence : float;
  bill_riskLevel : Level;
  anomalies : list Anomaly;
  bill_patterns : list Pattern;
  statisticalAnalysis : option BillingStatistics;
  bill_recommendations : list Recommendation
}.

(** Findings of the enrollment helpers; the analysis only counts them. *)
Definition EnrollmentFinding := string.

Record EnrollmentAnalysis := {
  enr_confidence : float;
  enr_riskLevel : Level;
  suspiciousActivities : list EnrollmentFinding;
  consentViolations : list EnrollmentFinding;
  identityRisks : list EnrollmentFinding;
  enr_recommendations : list Recommendation
}.

(** What [reportFWAIncident] may be handed as [analysisResult]. *)
Inductive AnalysisResult :=
| OfCall (a : CallAnalysis)
| OfBilling (b : BillingAnalysis)
| OfEnrollment (e : EnrollmentAnalysis).

(** [analysisResult.confidence], [.riskLevel], and [.patterns], which is
    [undefined] ([None]) on an enrollment analysis. *)
Definition result_confidence (r : AnalysisResult) : float :=
  match r with
  | OfCall a => call_confidence a
  | OfBilling b => bill_confidence b
  | OfEnrollment e => enr_confidence e
  end.

Definition result_riskLevel (r : AnalysisResult) : Level :=
  match r with
  | OfCall a => call_riskLevel a
  | OfBilling b => bill_riskLevel b
  | OfEnrollment e => enr_riskLevel e
  end.

Definition result_patterns (r : AnalysisResult) : option (list Pattern) :=
  match r with
  | OfCall a => Some (call_patterns a)
  | OfBilling b => Some (bill_patterns b)
  | OfEnrollment _ => None
  end.

(** *** The incident *)

(** The modelled columns of [fwa_incidents], by attribute name. *)
Inductive Field :=
| F_id
| F_incident_number
| F_incident_type
| F_severity
| F_status
| F_detection_method
| F_reporter_type
| F_reporter_id
| F_incident_date
| F_description
| F_affected_count
| F_financial_impact
| F_investigation_started
| F_investigation_completed
| F_regulatory_reported
| F_regulatory_report_date
| F_oig_referral
| F_oig_case_number
| F_ai_confidence_score
| F_ai_analysis
| F_risk_score
| F_compliance_impact
| F_timeline
| F_metadata.

Definition all_fields : list Field :=
  [F_id;
   F_incident_number;
   F_incident_type;
   F_severity;
   F_status;
   F_detection_method;
   F_reporter_type;
   F_reporter_id;
   F_incident_date;
   F_description;
   F_affected_count;
   F_financial_impact;
   F_investigation_started;
   F_investigation_completed;
   F_regulatory_reported;
   F_regulatory_report_date;
   F_oig_referral;
   F_oig_case_number;
   F_ai_confidence_score;
   F_ai_analysis;
   F_risk_score;
   F_compliance_impact;
   F_timeline;
   F_metadata].

Definition Field_name (f : Field) : string :=
  match f with
  | F_id => "id"
  | F_incident_number => "incident_number"
  | F_incident_type => "incident_type"
  | F_severity => "severity"
  | F_status => "status"
  | F_detection_method => "detection_method"
  | F_reporter_type => "reporter_type"
  | F_reporter_id => "reporter_id"
  | F_incident_date => "incident_date"
  | F_description => "description"
  | F_affected_count => "affected_count"
  | F_financial_impact => "financial_impact"
  | F_investigation_started => "investigation_started"
  | F_investigation_completed => "investigation_completed"
  | F_regulatory_reported => "regulatory_reported"
  | F_regulatory_report_date => "regulatory_report_date"
  | F_oig_referral => "oig_referral"
  | F_oig_case_number => "oig_case_number"
  | F_ai_confidence_score => "ai_confidence_score"
  | F_ai_analysis => "ai_analysis"
  | F_risk_score => "risk_score"
  | F_compliance_impact => "compliance_impact"
  | F_timeline => "timeline"
  | F_metadata => "metadata"
  end.

Definition Field_eq_dec (a b : Field) : {a = b} + {a <> b}.
Proof. decide equality. Defined.

Definition Level_eq_dec (a b : Level) : {a = b} + {a <> b}.
Proof. decide equality. Defined.

Definition Status_eq_dec (a b : Status) : {a = b} + {a <> b}.
Proof. decide equality. Defined.

Definition IncidentType_eq_dec (a b : IncidentType) : {a = b} + {a <> b}.
Proof. decide equality. Defined.

Definition DetectionMethod_eq_dec (a b : DetectionMethod) : {a = b} + {a <> b}.
Proof. decide equality. Defined.

(** An element of the [timeline] array.  The four shapes are the four object
    literals of the model: the [REPORTED] entry of [beforeCreate], the entry of
    [beforeUpdate] (whose action is computed), and the entries of [escalate]
    and [referToOIG]. *)
Inductive TimelineEntry :=
| ReportedEntry (timestamp : Timestamp) (user : string)
    (type : IncidentType) (method : DetectionMethod)
| SaveEntry (action : string) (timestamp : Timestamp) (changes : list Field)
| EscalatedEntry (timestamp : Timestamp) (user : string) (reason : string)
    (new_severity : Level)
| ReferredToOIGEntry (timestamp : Timestamp) (user : string)
    (case_number : string).

(** [entry.action] *)
Definition entry_action (e : TimelineEntry) : string :=
  match e with
  | ReportedEntry _ _ _ _ => "REPORTED"
  | SaveEntry a _ _ => a
  | EscalatedEntry _ _ _ _ => "ESCALATED"
  | ReferredToOIGEntry _ _ _ => "REFERRED_TO_OIG"
  end.

Definition TimelineEntry_eq_dec (a b : TimelineEntry) : {a = b} + {a <> b}.
Proof.
  decide equality;
    first [ apply Z.eq_dec | apply string_dec | apply Level_eq_dec
          | apply IncidentType_eq_dec | apply DetectionMethod_eq_dec
          | apply (list_eq_dec Field_eq_dec) ].
Defined.

(** The [compliance_impact] JSON object. *)
Record ComplianceImpact := {
  cms_violation : bool;
  hipaa_violation : bool;
  false_claims_act : bool;
  anti_kickback : bool
}.

(** The [metadata] object written by [reportFWAIncident]. *)
Record IncidentMetadata := {
  source : string;
  detection_timestamp : Timestamp;
  analyzer_version : string
}.

(** The attribute values of an incident.  [None] is [null] / [undefined].
    Columns that no hook, method or service function reads or writes
    (root cause, corrective actions, recovery amounts, ...) are left out. *)
Record Incident := {
  id : nat;
  incident_number : string;
  incident_type : IncidentType;
  severity : Level;
  status : Status;
  detection_method : DetectionMethod;
  reporter_type : ReporterType;
  reporter_id : option string;
  incident_date : Timestamp;
  description : string;
  affected_count : Z;
  financial_impact : option float;
  investigation_started : option Timestamp;
  investigation_completed : option Timestamp;
  regulatory_reported : bool;
  regulatory_report_date : option Timestamp;
  oig_referral : bool;
  oig_case_number : option string;
  ai_confidence_score : option float;
  ai_analysis : option AnalysisResult;
  risk_score : option Z;
  compliance_impact : option ComplianceImpact;
  timeline : option (list TimelineEntry);
  metadata : option IncidentMetadata
}.

(** Field updates ([incident.f = v] on the plain values). *)
Definition with_id (v : nat) (i : Incident) : Incident :=
  {| id := v;
     incident_number := incident_number i;
     incident_type := incident_type i;
     severity := severity i;
     status := status i;
     detection_method := detection_method i;
     reporter_type := reporter_type i;
     reporter_id := reporter_id i;
     incident_date := incident_date i;
     description := description i;
     affected_count := affected_count i;
     financial_impact := financial_impact i;
     investigation_started := investigation_started i;
     investigation_completed := investigation_completed i;
     regulatory_reported := regulatory_reported i;
     regulatory_report_date := regulatory_report_date i;
     oig_referral := oig_referral i;
     oig_case_number := oig_case_number i;
     ai_confidence_score := ai_confidence_score i;
     ai_analysis := ai_analysis i;
     risk_score := risk_score i;
     compliance_impact := compliance_impact i;
     timeline := timeline i;
     metadata := metadata i |}.

Definition with_incident_number (v : string) (i : Incident) : Incident :=
  {| id := id i;
     incident_number := v;
     incident_type := incident_type i;
     severity := severity i;
     status := status i;
     detection_method := detection_method i;
     reporter_type := reporter_type i;
     reporter_id := reporter_id i;
     incident_date := incident_date i;
     description := description i;
     affected_count := affected_count i;
     financial_impact := financial_impact i;
     investigation_started := investigation_started i;
     investigation_completed := investigation_completed i;
     regulatory_reported := regulatory_reported i;
     regulatory_report_date := regulatory_report_date i;
     oig_referral := oig_referral i;
     oig_case_number := oig_case_number i;
     ai_confidence_score := ai_confidence_score i;
     ai_analysis := ai_analysis i;
     risk_score := risk_score i;
     compliance_impact := compliance_impact i;
     timeline := timeline i;
     metadata := metadata i |}.

Definition with_severity (v : Level) (i : Incident) : Incident :=
  {| id := id i;
     incident_number := incident_number i;
     incident_type := incident_type i;
     severity := v;
     status := status i;
     detection_method := detection_method i;
     reporter_type := reporter_type i;
     reporter_id := reporter_id i;
     incident_date := incident_date i;
     description := description i;
     affected_count := affected_count i;
     financial_impact := financial_impact i;
     investigation_started := investigation_started i;
     investigation_completed := investigation_completed i;
     regulatory_reported := regulatory_reported i;
     regulatory_report_date := regulatory_report_date i;
     oig_referral := oig_referral i;
     oig_case_number := oig_case_number i;
     ai_confidence_score := ai_confidence_score i;
     ai_analysis := ai_analysis i;
     risk_score := risk_score i;
     compliance_impact := compliance_impact i;
     timeline := timeline i;
     metadata := metadata i |}.

Definition with_status (v : Status) (i : Incident) : Incident :=
  {| id := id i;
     incident_number := incident_number i;
     incident_type := incident_type i;
     severity := severity i;
     status := v;
     detection_method := detection_method i;
     reporter_type := reporter_type i;
     reporter_id := reporter_id i;
     incident_date := incident_date i;
     description := description i;
     affected_count := affected_count i;
     financial_impact := financial_impact i;
     investigation_started := investigation_started i;
     investigation_completed := investigation_completed i;
     regulatory_reported := regulatory_reported i;
     regulatory_report_date := regulatory_report_date i;
     oig_referral := oig_referral i;
     oig_case_number := oig_case_number i;
     ai_confidence_score := ai_confidence_score i;
     ai_analysis := ai_analysis i;
     risk_score := risk_score i;
     compliance_impact := compliance_impact i;
     timeline := timeline i;
     metadata := metadata i |}.

Definition with_timeline (v : option (list TimelineEntry)) (i : Incident) : Incident :=
  {| id := id i;
     incident_number := incident_number i;
     incident_type := incident_type i;
     severity := severity i;
     status := status i;
     detection_method := detection_method i;
     reporter_type := reporter_type i;
     reporter_id := reporter_id i;
     incident_date := incident_date i;
     description := description i;
     affected_count := affected_count i;
     financial_impact := financial_impact i;
     investigation_started := investigation_started i;
     investigation_completed := investigation_completed i;
     regulatory_reported := regulatory_reported i;
     regulatory_report_date := regulatory_report_date i;
     oig_referral := oig_referral i;
     oig_case_number := oig_case_number i;
     ai_confidence_score := ai_confidence_score i;
     ai_analysis := ai_analysis i;
     risk_score := risk_score i;
     compliance_impact := compliance_impact i;
     timeline := v;
     metadata := metadata i |}.

Definition with_risk_score (v : option Z) (i : Incident) : Incident :=
  {| id := id i;
     incident_number := incident_number i;
     incident_type := incident_type i;
     severity := severity i;
     status := status i;
     detection_method := detection_method i;
     reporter_type := reporter_type i;
     reporter_id := reporter_id i;
     incident_date := incident_date i;
     description := description i;
     affected_count := affected_count i;
     financial_impact := financial_impact i;
     investigation_started := investigation_started i;
     investigation_completed := investigation_completed i;
     regulatory_reported := regulatory_reported i;
     regulatory_report_date := regulatory_report_date i;
     oig_referral := oig_referral i;
     oig_case_number := oig_case_number i;
     ai_confidence_score := ai_confidence_score i;
     ai_analysis := ai_analysis i;
     risk_score := v;
     compliance_impact := compliance_impact i;
     timeline := timeline i;
     metadata := metadata i |}.

Definition with_investigation_started (v : option Timestamp) (i : Incident) : Incident :=
  {| id := id i;
     incident_number := incident_number i;
     incident_type := incident_type i;
     severity := severity i;
     status := status i;
     detection_method := detection_method i;
     reporter_type := reporter_type i;
     reporter_id := reporter_id i;
     incident_date := incident_date i;
     description := description i;
     affected_count := affected_count i;
     financial_impact := financial_impact i;
     investigation_started := v;
     investigation_completed := investigation_completed i;
     regulatory_reported := regulatory_reported i;
     regulatory_report_date := regulatory_report_date i;
     oig_referral := oig_referral i;
     oig_case_number := oig_case_number i;
     ai_confidence_score := ai_confidence_score i;
     ai_analysis := ai_analysis i;
     risk_score := risk_score i;
     compliance_impact := compliance_impact i;
     timeline := timeline i;
     metadata := metadata i |}.

Definition with_investigation_completed (v : option Timestamp) (i : Incident) : Incident :=
  {| id := id i;
     incident_number := incident_number i;
     incident_type := incident_type i;
     severity := severity i;
     status := status i;
     detection_method := detection_method i;
     reporter_type := reporter_type i;
     reporter_id := reporter_id i;
     incident_date := incident_date i;
     description := description i;
     affected_count := affected_count i;
     financial_impact := financial_impact i;
     investigation_started := investigation_started i;
     investigation_completed := v;
     regulatory_reported := regulatory_reported i;
     regulatory_report_date := regulatory_report_date i;
     oig_referral := oig_referral i;
     oig_case_number := oig_case_number i;
     ai_confidence_score := ai_confidence_score i;
     ai_analysis := ai_analysis i;
     risk_score := risk_score i;
     compliance_impact := compliance_impact i;
     timeline := timeline i;
     metadata := metadata i |}.

Definition with_regulatory_reported (v : bool) (i : Incident) : Incident :=
  {| id := id i;
     incident_number := incident_number i;
     incident_type := incident_type i;
     severity := severity i;
     status := status i;
     detection_method := detection_method i;
     reporter_type := reporter_type i;
     reporter_id := reporter_id i;
     incident_date := incident_date i;
     description := description i;
     affected_count := affected_count i;
     financial_impact := financial_impact i;
     investigation_started := investigation_started i;
     investigation_completed := investigation_completed i;
     regulatory_reported := v;
     regulatory_report_date := regulatory_report_date i;
     oig_referral := oig_referral i;
     oig_case_number := oig_case_number i;
     ai_confidence_score := ai_confidence_score i;
     ai_analysis := ai_analysis i;
     risk_score := risk_score i;
     compliance_impact := compliance_impact i;
     timeline := timeline i;
     metadata := metadata i |}.

Definition with_regulatory_report_date (v : option Timestamp) (i : Incident) : Incident :=
  {| id := id i;
     incident_number := incident_number i;
     incident_type := incident_type i;
     severity := severity i;
     status := status i;
     detection_method := detection_method i;
     reporter_type := reporter_type i;
     reporter_id := reporter_id i;
     incident_date := incident_date i;
     description := description i;
     affected_count := affected_count i;
     financial_impact := financial_impact i;
     investigation_started := investigation_started i;
     investigation_completed := investigation_completed i;
     regulatory_reported := regulatory_reported i;
     regulatory_report_date := v;
     oig_referral := oig_referral i;
     oig_case_number := oig_case_number i;
     ai_confidence_score := ai_confidence_score i;
     ai_analysis := ai_analysis i;
     risk_score := risk_score i;
     compliance_impact := compliance_impact i;
     timeline := timeline i;
     metadata := metadata i |}.

Definition with_oig_referral (v : bool) (i : Incident) : Incident :=
  {| id := id i;
     incident_number := incident_number i;
     incident_type := incident_type i;
     severity := severity i;
     status := status i;
     detection_method := detection_method i;
     reporter_type := reporter_type i;
     reporter_id := reporter_id i;
     incident_date := incident_date i;
     description := description i;
     affected_count := affected_count i;
     financial_impact := financial_impact i;
     investigation_started := investigation_started i;
     investigation_completed := investigation_completed i;
     regulatory_reported := regulatory_reported i;
     regulatory_report_date := regulatory_report_date i;
     oig_referral := v;
     oig_case_number := oig_case_number i;
     ai_confidence_score := ai_confidence_score i;
     ai_analysis := ai_analysis i;
     risk_score := risk_score i;
     compliance_impact := compliance_impact i;
     timeline := timeline i;
     metadata := metadata i |}.

Definition with_oig_case_number (v : option string) (i : Incident) : Incident :=
  {| id := id i;
     incident_number := incident_number i;
     incident_type := incident_type i;
     severity := severity i;
     status := status i;
     detection_method := detection_method i;
     reporter_type := reporter_type i;
     reporter_id := reporter_id i;
     incident_date := incident_date i;
     description := description i;
     affected_count := affected_count i;
     financial_impact := financial_impact i;
     investigation_started := investigation_started i;
     investigation_completed := investigation_completed i;
     regulatory_reported := regulatory_reported i;
     regulatory_report_date := regulatory_report_date i;
     oig_referral := oig_referral i;
     oig_case_number := v;
     ai_confidence_score := ai_confidence_score i;
     ai_analysis := ai_analysis i;
     risk_score := risk_score i;
     compliance_impact := compliance_impact i;
     timeline := timeline i;
     metadata := metadata i |}.

(* ================================================================= *)
(** ** Effects: clock, logger, cache, incident table, exceptions *)

Inductive Error :=
| TypeError (msg : string)
| UniqueConstraintError (field : string)
| ExternalError (msg : string).

Inductive Result (A : Type) :=
| Ok (a : A)
| Throw (e : Error).
Arguments Ok {A} a.
Arguments Throw {A} e.

Inductive LogLevel := INFO | WARN | ERROR.

(** A line written by the logger: a message and, for [logger.error(msg,
    error)], the error logged with it. *)
Record LogLine := {
  level : LogLevel;
  message : string;
  logged_error : option Error
}.

(** What the code can observe and change outside its arguments.  The clock
    is a sequence of readings: every [Date.now()] or [new Date()] takes the
    reading at [tick] and moves to the next one. *)
Record World := {
  tick : nat;
  time_at : nat -> Timestamp;
  logs : list LogLine;
  redis : list (string * (CallAnalysis * Z));
  fwa_incidents : list Incident;
  next_id : nat
}.

Definition with_tick (n : nat) (w : World) : World :=
  {| tick := n; time_at := time_at w; logs := logs w; redis := redis w;
     fwa_incidents := fwa_incidents w; next_id := next_id w |}.

Definition with_logs (l : list LogLine) (w : World) : World :=
  {| tick := tick w; time_at := time_at w; logs := l; redis := redis w;
     fwa_incidents := fwa_incidents w; next_id := next_id w |}.

Definition with_redis (r : list (string * (CallAnalysis * Z))) (w : World) : World :=
  {| tick := tick w; time_at := time_at w; logs := logs w; redis := r;
     fwa_incidents := fwa_incidents w; next_id := next_id w |}.

Definition with_fwa_incidents (t : list Incident) (w : World) : World :=
  {| tick := tick w; time_at := time_at w; logs := logs w; redis := redis w;
     fwa_incidents := t; next_id := next_id w |}.

Definition with_next_id (n : nat) (w : World) : World :=
  {| tick := tick w; time_at := time_at w; logs := logs w; redis := redis w;
     fwa_incidents := fwa_incidents w; next_id := n |}.

(** A computation: it returns a value or throws, and leaves a world. *)
Definition M (A : Type) : Type := World -> Result A * World.

Definition ret {A} (a : A) : M A := fun w => (Ok a, w).

Definition bind {A B} (m : M A) (k : A -> M B) : M B :=
  fun w =>
    match m w with
    | (Ok a, w') => k a w'
    | (Throw e, w') => (Throw e, w')
    end.

Definition throw {A} (e : Error) : M A := fun w => (Throw e, w).

(** [try { m } catch (error) { handler(error) }] *)
Definition try_catch {A} (m : M A) (handler : Error -> M A) : M A :=
  fun w =>
    match m w with
    | (Ok a, w') => (Ok a, w')
    | (Throw e, w') => handler e w'
    end.

(** A call of a library function that returns or throws without touching
    the world. *)
Definition lift {A} (r : Result A) : M A := fun w => (r, w).

Declare Scope monad_scope.
Delimit Scope monad_scope with monad.
Notation "x <- m ;; k" := (bind m (fun x => k))
  (at level 100, m at next level, right associativity) : monad_scope.
Notation "m ;; k" := (bind m (fun _ => k))
  (at level 100, right associativity) : monad_scope.
Local Open Scope monad_scope.

(** [Date.now()] and [new Date()] *)
Definition Date_now : M Timestamp :=
  fun w => (Ok (time_at w (tick w)), with_tick (S (tick w)) w).

Definition log_line (l : LogLine) : M unit :=
  fun w => (Ok tt, with_logs (logs w ++ [l]) w).

Definition logger_info (msg : string) : M unit :=
  log_line {| level := INFO; message := msg; logged_error := None |}.

Definition logger_warn (msg : string) : M unit :=
  log_line {| level := WARN; message := msg; logged_error := None |}.

Definition logger_error (msg : string) (error : Error) : M unit :=
  log_line {| level := ERROR; message := msg; logged_error := Some error |}.

(** [cacheHelpers.setWithExpiry(key, value, ttl)]: the helper catches its own
    failures, so the call never throws. *)
Definition setWithExpiry (key : string) (value : CallAnalysis) (ttl : Z) : M unit :=
  fun w => (Ok tt, with_redis ((key, (value, ttl)) :: redis w) w).

(** [mapM] over a list, left to right, stopping at the first exception. *)
Fixpoint map_result {A B} (f : A -> Result B) (l : list A) : Result (list B) :=
  match l with
  | [] => Ok []
  | a :: r =>
      match f a with
      | Throw e => Throw e
      | Ok b =>
          match map_result f r with
          | Throw e => Throw e
          | Ok bs => Ok (b :: bs)
          end
      end
  end.

(** [x || d] on a string that may be missing: the empty string is falsy. *)
Definition string_or (x : option string) (d : string) : string :=
  match x with
  | Some s => if string_dec s "" then d else s
  | None => d
  end.

(** [x || d] on a number looked up in a table: a missing entry and 0 are falsy. *)
Definition score_or (x : option Z) (d : Z) : Z :=
  match x with
  | Some s => if s =? 0 then d else s
  | None => d
  end.

(* ================================================================= *)
(** ** The model: [src/models/FWAIncident.js] *)

Module FWAIncident.

(** *** Change tracking of a model instance

    An instance carries its attribute values and the set of attributes
    assigned a different value since it was loaded or last saved.
    [incident.changed()] lists them in attribute order. *)
Record Instance := {
  dataValues : Incident;
  changedFields : list Field
}.

Definition is_changed (inst : Instance) (f : Field) : bool :=
  existsb (fun g => if Field_eq_dec f g then true else false) (changedFields inst).

Definition changed (inst : Instance) : list Field :=
  filter (is_changed inst) all_fields.

(** [changes.includes(f)] *)
Definition includes_field (changes : list Field) (f : Field) : bool :=
  existsb (fun g => if Field_eq_dec f g then true else false) changes.

(** [incident.f = v]: the value is stored, and the attribute is marked
    changed when [v] differs from the value it replaces. *)
Definition assign (f : Field) (same : bool) (upd : Incident -> Incident)
    (inst : Instance) : Instance :=
  {| dataValues := upd (dataValues inst);
     changedFields := if same then changedFields inst
                      else f :: changedFields inst |}.

Definition sameb {A} (dec : forall a b : A, {a = b} + {a <> b}) (a b : A) : bool :=
  if dec a b then true else false.

Definition option_eq_dec {A} (dec : forall a b : A, {a = b} + {a <> b})
    (a b : option A) : {a = b} + {a <> b}.
Proof. decide equality. Defined.

Definition set_severity (v : Level) (inst : Instance) : Instance :=
  assign F_severity (sameb Level_eq_dec v (severity (dataValues inst)))
    (with_severity v) inst.

Definition set_status (v : Status) (inst : Instance) : Instance :=
  assign F_status (sameb Status_eq_dec v (status (dataValues inst)))
    (with_status v) inst.

Definition set_timeline (v : option (list TimelineEntry)) (inst : Instance) : Instance :=
  assign F_timeline
    (sameb (option_eq_dec (list_eq_dec TimelineEntry_eq_dec)) v
       (timeline (dataValues inst)))
    (with_timeline v) inst.

Definition set_risk_score (v : option Z) (inst : Instance) : Instance :=
  assign F_risk_score
    (sameb (option_eq_dec Z.eq_dec) v (risk_score (dataValues inst)))
    (with_risk_score v) inst.

Definition set_investigation_started (v : option Timestamp) (inst : Instance) : Instance :=
  assign F_investigation_started
    (sameb (option_eq_dec Z.eq_dec) v (investigation_started (dataValues inst)))
    (with_investigation_started v) inst.

Definition set_investigation_completed (v : option Timestamp) (inst : Instance) : Instance :=
  assign F_investigation_completed
    (sameb (option_eq_dec Z.eq_dec) v (investigation_completed (dataValues inst)))
    (with_investigation_completed v) inst.

Definition set_regulatory_reported (v : bool) (inst : Instance) : Instance :=
  assign F_regulatory_reported
    (sameb Bool.bool_dec v (regulatory_reported (dataValues inst)))
    (with_regulatory_reported v) inst.

Definition set_regulatory_report_date (v : option Timestamp) (inst : Instance) : Instance :=
  assign F_regulatory_report_date
    (sameb (option_eq_dec Z.eq_dec) v (regulatory_report_date (dataValues inst)))
    (with_regulatory_report_date v) inst.

Definition set_oig_referral (v : bool) (inst : Instance) : Instance :=
  assign F_oig_referral
    (sameb Bool.bool_dec v (oig_referral (dataValues inst)))
    (with_oig_referral v) inst.

Definition set_oig_case_number (v : option string) (inst : Instance) : Instance :=
  assign F_oig_case_number
    (sameb (option_eq_dec string_dec) v (oig_case_number (dataValues inst)))
    (with_oig_case_number v) inst.

(** [incident.timeline || []] *)
Definition timeline_or_empty (i : Incident) : list TimelineEntry :=
  match timeline i with
  | Some t => t
  | None => []
  end.

(** *** [calculateRiskScore] *)

Definition severityScores (s : Level) : option Z :=
  match s with
  | LOW => Some 10
  | MEDIUM => Some 25
  | HIGH => Some 50
  | CRITICAL => Some 75
  end.

Definition typeScores (t : IncidentType) : option Z :=
  match t with
  | FRAUD => Some 25
  | IDENTITY_THEFT => Some 20
  | UNAUTHORIZED_DISCLOSURE => Some 20
  | BILLING_IRREGULARITY => Some 15
  | ENROLLMENT_MANIPULATION => Some 15
  | ABUSE => Some 10
  | WASTE => Some 5
  | _ => None
  end.

(** [incident.financial_impact > k]; a missing value compares false. *)
Definition financial_impact_gt (i : Incident) (k : float) : bool :=
  match financial_impact i with
  | Some x => Js.gt x k
  | None => false
  end.

(** [violations.flag] on [incident.compliance_impact || {}] *)
Definition violation (i : Incident) (flag : ComplianceImpact -> bool) : bool :=
  match compliance_impact i with
  | Some v => flag v
  | None => false
  end.

Definition calculateRiskScore (incident : Incident) : Z :=
  let score := 0 in
  (* Severity scoring *)
  let score := score + score_or (severityScores (severity incident)) 0 in
  (* Type scoring *)
  let score := score + score_or (typeScores (incident_type incident)) 10 in
  (* Financial impact *)
  let score :=
    if financial_impact_gt incident 100000 then score + 25
    else if financial_impact_gt incident 10000 then score + 15
    else if financial_impact_gt incident 1000 then score + 5
    else score in
  (* Affected beneficiaries *)
  let score :=
    if affected_count incident >? 100 then score + 20
    else if affected_count incident >? 10 then score + 10
    else if affected_count incident >? 1 then score + 5
    else score in
  (* Compliance violations *)
  let score := if violation incident false_claims_act then score + 30 else score in
  let score := if violation incident anti_kickback then score + 25 else score in
  let score := if violation incident cms_violation then score + 20 else score in
  let score := if violation incident hipaa_violation then score + 15 else score in
  Z.min 100 score.

(** *** Hooks *)

Definition beforeCreate (incident : Incident) : M Incident :=
  (* Generate incident number *)
  let prefix :=
    Js.toUpperCase (Js.substring0 3 (IncidentType_name (incident_type incident))) in
  now <- Date_now ;;
  let timestamp := Js.toUpperCase (Js.toString36 now) in
  let incident := with_incident_number (prefix ++ "-" ++ timestamp)%string incident in
  (* Initialize timeline *)
  date <- Date_now ;;
  let incident :=
    with_timeline
      (Some [ReportedEntry date (string_or (reporter_id incident) "SYSTEM")
               (incident_type incident) (detection_method incident)])
      incident in
  (* Calculate initial risk score *)
  ret (with_risk_score (Some (calculateRiskScore incident)) incident).

Definition isNone {A} (o : option A) : bool :=
  match o with
  | None => true
  | Some _ => false
  end.

Definition beforeUpdate (incident : Instance) : M Instance :=
  let changes := changed incident in
  match changes with
  | [] => ret incident
  | _ :: _ =>
      date <- Date_now ;;
      r <- (if includes_field changes F_status then
              let action :=
                ("STATUS_CHANGED_TO_" ++ Status_name (status (dataValues incident)))%string in
              (* Track investigation dates *)
              incident <-
                (if sameb Status_eq_dec (status (dataValues incident)) UNDER_INVESTIGATION
                    && isNone (investigation_started (dataValues incident))
                 then d <- Date_now ;; ret (set_investigation_started (Some d) incident)
                 else ret incident) ;;
              incident <-
                (if existsb (sameb Status_eq_dec (status (dataValues incident)))
                      [RESOLVED; CLOSED; UNSUBSTANTIATED]
                    && isNone (investigation_completed (dataValues incident))
                 then d <- Date_now ;; ret (set_investigation_completed (Some d) incident)
                 else ret incident) ;;
              ret (action, incident)
            else ret ("UPDATED", incident)) ;;
      let '(action, incident) := r in
      let timelineEntry := SaveEntry action date changes in
      let incident :=
        set_timeline
          (Some (timeline_or_empty (dataValues incident) ++ [timelineEntry]))
          incident in
      ret (set_risk_score
             (Some (calculateRiskScore (dataValues incident))) incident)
  end.

(** *** Persistence *)

(** The row of an instance, by primary key. *)
Definition find_row (i : nat) (rows : list Incident) : option Incident :=
  find (fun r => Nat.eqb (id r) i) rows.

(** The rows of the table after [UPDATE ... WHERE id = ...] with the
    instance's values. *)
Definition rows_after_update (i : Incident) (rows : list Incident) : list Incident :=
  map (fun r => if Nat.eqb (id r) (id i) then i else r) rows.

Definition update_row (i : Incident) : M unit :=
  fun w => (Ok tt, with_fwa_incidents (rows_after_update i (fwa_incidents w)) w).

(** The unique index on [incident_number]: is the number taken? *)
Definition number_taken (n : string) (rows : list Incident) : bool :=
  existsb (fun r => if string_dec (incident_number r) n then true else false) rows.

(** [INSERT INTO fwa_incidents]: the unique index on [incident_number]
    rejects a number that a row already has. *)
Definition insert_row (i : Incident) : M unit :=
  fun w =>
    if number_taken (incident_number i) (fwa_incidents w)
    then (Throw (UniqueConstraintError "incident_number"), w)
    else (Ok tt, with_fwa_incidents (fwa_incidents w ++ [i]) w).

(** [instance.save()] on a persisted instance: the [beforeUpdate] hook runs,
    the row is written when an attribute changed, and the change marks are
    cleared. *)
Definition save (inst : Instance) : M Instance :=
  inst <- beforeUpdate inst ;;
  match changed inst with
  | [] => ret inst
  | _ :: _ =>
      update_row (dataValues inst) ;;
      ret {| dataValues := dataValues inst; changedFields := [] |}
  end.

(** [FWAIncident.create(values)]: a primary key is drawn, the
    [beforeCreate] hook runs and the row is inserted. *)
Definition create (values : Incident) : M Instance :=
  fun w =>
    let values := with_id (next_id w) values in
    (incident <- beforeCreate values ;;
     insert_row incident ;;
     ret {| dataValues := incident; changedFields := [] |})
      (with_next_id (S (next_id w)) w).

(** *** Instance methods *)

Definition escalate (reason userId : string) (this : Instance) : M Instance :=
  let this :=
    set_severity
      (if sameb Level_eq_dec (severity (dataValues this)) LOW then MEDIUM
       else if sameb Level_eq_dec (severity (dataValues this)) MEDIUM then HIGH
       else CRITICAL) this in
  date <- Date_now ;;
  let timelineEntry :=
    EscalatedEntry date userId reason (severity (dataValues this)) in
  let this :=
    set_timeline (Some (timeline_or_empty (dataValues this) ++ [timelineEntry])) this in
  save this.

Definition referToOIG (caseNumber userId : string) (this : Instance) : M Instance :=
  let this := set_oig_referral true this in
  let this := set_oig_case_number (Some caseNumber) this in
  let this := set_regulatory_reported true this in
  report_date <- Date_now ;;
  let this := set_regulatory_report_date (Some report_date) this in
  let this := set_status REFERRED_TO_OIG this in
  date <- Date_now ;;
  let timelineEntry := ReferredToOIGEntry date userId caseNumber in
  let this :=
    set_timeline (Some (timeline_or_empty (dataValues this) ++ [timelineEntry])) this in
  save this.

End FWAIncident.

(* ================================================================= *)
(** ** The detection service: [class FWADetectionService] *)

Module FWADetectionService.

Definition fraudKeywords : list string :=
  ["fake"; "false"; "fraudulent"; "scam"; "cheat"; "steal"; "unauthorized";
   "identity theft"; "stolen"; "forged"; "duplicate"; "ghost"; "phantom";
   "kickback"; "bribe"; "corruption"; "manipulation"; "deceive"].

(** The sources of the case-insensitive regular expressions, by category,
    in the order of the object literal. *)
Definition suspiciousPatterns : list (string * list string) :=
  [("billing",
    ["billing\s+for\s+services?\s+not\s+provided";
     "up\s*cod(ing|ed)";
     "ghost\s+patient";
     "phantom\s+billing";
     "duplicate\s+claims?"]);
   ("enrollment",
    ["unauthorized\s+enrollment";
     "enrollment\s+without\s+consent";
     "fake\s+beneficiary";
     "identity\s+theft";
     "stolen\s+medicare\s+number"]);
   ("benefits",
    ["misrepresent(ed|ing)\s+benefits?";
     "false\s+information\s+about";
     "exaggerat(ed|ing)\s+coverage";
     "misleading\s+marketing"])].

Definition riskThresholds (l : Level) : float :=
  match l with
  | LOW => 0.3
  | MEDIUM => 0.6
  | HIGH => 0.8
  | CRITICAL => 0.9
  end%float.

(** The result of [classifyText]. *)
Record Classification := {
  cls_confidence : float;
  cls_class : string
}.

(** What the service calls and does not define: the regular-expression
    engine, the [natural] language library, number formatting, and the
    helper methods of the enrollment analysis.  A call returns a value or
    throws. *)
Record Collaborators (EnrollmentData : Type) := {
  regex_test : string -> string -> bool;
  tokenize : string -> Result (list string);
  getSentiment : list string -> Result float;
  stem : string -> Result string;
  toFixed : nat -> float -> string;
  detectConsentViolations : EnrollmentData -> Result (list EnrollmentFinding);
  assessIdentityRisks : EnrollmentData -> Result (list EnrollmentFinding);
  detectSuspiciousEnrollmentPatterns : EnrollmentData -> Result (list EnrollmentFinding);
  generateEnrollmentRecommendations : EnrollmentAnalysis -> Result (list Recommendation)
}.

(** *** Helper methods that need no collaborator *)

Definition is_word (c : ascii) : bool :=
  Js.is_lower c || Js.is_upper c || Js.is_digit c
  || (if ascii_dec c "_" then true else false).

Definition is_space (c : ascii) : bool :=
  ((9 <=? nat_of_ascii c) && (nat_of_ascii c <=? 13))%nat
  || (if ascii_dec c " " then true else false).

(** [.replace(/\s+/g, ' ')] *)
Fixpoint collapse_spaces (in_run : bool) (s : string) : string :=
  match s with
  | EmptyString => EmptyString
  | String c r =>
      if is_space c then
        if in_run then collapse_spaces true r
        else String " " (collapse_spaces true r)
      else String c (collapse_spaces false r)
  end.

Fixpoint trim_start (s : string) : string :=
  match s with
  | EmptyString => EmptyString
  | String c r => if is_space c then trim_start r else s
  end.

Fixpoint trim_end (s : string) : string :=
  match s with
  | EmptyString => EmptyString
  | String c r =>
      match trim_end r with
      | EmptyString => if is_space c then EmptyString else String c EmptyString
      | r' => String c r'
      end
  end.

Definition preprocessText (text : string) : string :=
  trim_end (trim_start
    (collapse_spaces false
      (Js.map_string (fun c => if is_word c || is_space c then c else " "%char)
        (Js.toLowerCase text)))).

(** [features.reduce((sum, val, idx) => ..., 0)] of [classifyText] *)
Fixpoint fraud_sum (features : list float) (idx : nat) (sum : float) : float :=
  match features with
  | [] => sum
  | val :: rest =>
      fraud_sum rest (S idx)
        (sum + (if existsb (fun keyword => Js.includes keyword (Js.String_of_index idx))
                     fraudKeywords
                then val else 0))%float
  end.

Definition classifyText (features : list float) : Classification :=
  let fraudScore :=
    (fraud_sum features 0 0 / Js.of_nat (List.length features))%float in
  {| cls_confidence := Js.Math_min 0.95 (fraudScore * 2);
     cls_class := if Js.gt fraudScore 0.5 then "FRAUD" else "NORMAL" |}.

Definition determineRiskLevel (confidence : float) : Level :=
  if Js.ge confidence (riskThresholds CRITICAL) then CRITICAL
  else if Js.ge confidence (riskThresholds HIGH) then HIGH
  else if Js.ge confidence (riskThresholds MEDIUM) then MEDIUM
  else LOW.

(** The category in a template literal: [undefined] prints as such. *)
Definition category_text (p : Pattern) : string :=
  match category p with
  | Some c => c
  | None => "undefined"
  end.

Definition generateIndicators (patterns : list Pattern) (sentiment : float)
    (classification : Classification) : list Indicator :=
  let indicators :=
    map (fun pattern =>
           PATTERN_MATCH (category pattern) (confidence pattern)
             ("Suspicious " ++ category_text pattern ++ " pattern detected")%string)
        patterns in
  let indicators :=
    if (sentiment <? -0.3)%float then
      indicators ++ [SENTIMENT (Js.Math_abs sentiment)
                       "Negative sentiment detected in communication"]
    else indicators in
  if string_dec (cls_class classification) "FRAUD" then
    indicators ++ [AI_CLASSIFICATION (cls_confidence classification)
                     "AI model classified content as potentially fraudulent"]
  else indicators.

(** [p.category === c] *)
Definition category_is (c : string) (p : Pattern) : bool :=
  match category p with
  | Some c' => if string_dec c' c then true else false
  | None => false
  end.

Definition generateRecommendations (analysis : CallAnalysis) : list Recommendation :=
  let recommendations := [] in
  let recommendations :=
    if Level_eq_dec (call_riskLevel analysis) CRITICAL then
      recommendations ++
      [{| priority := "IMMEDIATE";
          action := "Initiate emergency investigation";
          rec_description :=
            "Critical risk level detected - immediate action required" |}]
    else recommendations in
  let recommendations :=
    if existsb (category_is "billing") (call_patterns analysis) then
      recommendations ++
      [{| priority := "HIGH";
          action := "Review billing records";
          rec_description :=
            "Billing irregularities detected - conduct detailed audit" |}]
    else recommendations in
  if Js.gt (call_confidence analysis) 0.7 then
    recommendations ++
    [{| priority := "MEDIUM";
        action := "Flag for compliance review";
        rec_description :=
          "High confidence FWA detection - requires human review" |}]
  else recommendations.

(** *** Billing analysis *)

(** [this.generateBillingRecommendations(analysis)]: the class defines no
    method of this name (the call in [analyzeBillingPattern] is its only
    occurrence), so the call is a TypeError. *)
Definition generateBillingRecommendations (analysis : BillingAnalysis)
    : M (list Recommendation) :=
  throw (TypeError "this.generateBillingRecommendations is not a function").

(** [amounts.sort((a, b) => a - b)]: the amounts hold no NaN, and on such
    values every stable sort with this comparator yields this list. *)
Fixpoint sort_insert (x : float) (l : list float) : list float :=
  match l with
  | [] => [x]
  | y :: r => if (x - y <? 0)%float then x :: l else y :: sort_insert x r
  end.

Definition sort_numbers (l : list float) : list float :=
  fold_left (fun sorted x => sort_insert x sorted) l [].

Definition calculateBillingStatistics (billingData : list Bill)
    : option BillingStatistics :=
  match billingData with
  | [] => None
  | _ :: _ =>
      let amounts := map (fun b => Js.or_zero (amount b)) billingData in
      let n := Js.of_nat (List.length amounts) in
      let mean := (fold_left (fun a b => a + b) amounts 0 / n)%float in
      let variance :=
        (fold_left (fun a b => a + Js.Math_pow2 (b - mean)) amounts 0 / n)%float in
      let stdDev := Js.Math_sqrt variance in
      let sorted := sort_numbers amounts in
      Some {| stat_count := List.length billingData;
              mean := mean;
              median := nth (Nat.div (List.length amounts) 2) sorted nan;
              stdDev := stdDev;
              stat_min := fold_left Js.Math_min sorted infinity;
              stat_max := fold_left Js.Math_max sorted neg_infinity |}
  end.

(** [stats.mean] and [stats.stdDev]; on the empty object both are
    [undefined], which arithmetic turns into NaN. *)
Definition stats_mean (stats : option BillingStatistics) : float :=
  match stats with
  | Some s => mean s
  | None => nan
  end.

Definition stats_stdDev (stats : option BillingStatistics) : float :=
  match stats with
  | Some s => stdDev s
  | None => nan
  end.

(** The z-score that [detectBillingAnomalies] computes for a bill. *)
Definition bill_zScore (stats : option BillingStatistics) (bill : Bill) : float :=
  Js.Math_abs ((amount bill - stats_mean stats) / stats_stdDev stats)%float.

Definition detectBillingAnomalies (billingData : list Bill)
    (stats : option BillingStatistics) : list Anomaly :=
  flat_map
    (fun bill =>
       let zScore := bill_zScore stats bill in
       if Js.gt zScore 3 then (* 3 standard deviations *)
         [{| billId := bill_id bill;
             anomaly_amount := amount bill;
             zScore := zScore;
             anomaly_severity := if Js.gt zScore 4 then 0.9%float else 0.7%float;
             anomaly_description :=
               "Amount significantly deviates from normal pattern" |}]
       else [])
    billingData.

(** [amounts.indexOf(x)] with strict equality; [None] is -1. *)
Fixpoint indexOf (amounts : list float) (x : float) : option nat :=
  match amounts with
  | [] => None
  | y :: r =>
      if (y =? x)%float then Some O
      else match indexOf r x with
           | Some k => Some (S k)
           | None => None
           end
  end.

(** [amounts.filter((amount, index) => amounts.indexOf(amount) !== index)] *)
Fixpoint filter_duplicates (amounts rest : list float) (index : nat) : list float :=
  match rest with
  | [] => []
  | x :: r =>
      let keep :=
        match indexOf amounts x with
        | Some k => negb (Nat.eqb k index)
        | None => true
        end in
      if keep then x :: filter_duplicates amounts r (S index)
      else filter_duplicates amounts r (S index)
  end.

Definition detectBillingPatterns (billingData : list Bill) : list Pattern :=
  (* Check for duplicate billing *)
  let amounts := map amount billingData in
  let duplicates := filter_duplicates amounts amounts 0 in
  if (0 <? List.length duplicates)%nat then
    [DuplicateAmounts (List.length duplicates) 0.8
       "Multiple bills with identical amounts detected"]
  else [].

(** *** Incident reporting helpers *)

Definition determineIncidentType (patterns : list Pattern) : IncidentType :=
  if existsb (category_is "billing") patterns then BILLING_IRREGULARITY
  else if existsb (category_is "enrollment") patterns then ENROLLMENT_MANIPULATION
  else if existsb (category_is "benefits") patterns then BENEFIT_MISREPRESENTATION
  else SUSPICIOUS_ACTIVITY.

(** The [mapping] table of [mapRiskToSeverity] has an entry for every level,
    so the [|| 'MEDIUM'] default is never taken. *)
Definition mapRiskToSeverity (riskLevel : Level) : Level :=
  match riskLevel with
  | LOW => LOW
  | MEDIUM => MEDIUM
  | HIGH => HIGH
  | CRITICAL => CRITICAL
  end.

(** [array.join(', ')] of strings, [undefined] joining as the empty string. *)
Fixpoint join_comma (l : list (option string)) : string :=
  match l with
  | [] => ""
  | [x] => string_or x ""
  | x :: r => (string_or x "" ++ ", " ++ join_comma r)%string
  end.

(** *** The methods that call collaborators *)

Section Service.

Variable EnrollmentData : Type.
Variable lib : Collaborators EnrollmentData.

(** [createPatternMatcher().analyzeText] *)
Definition analyzeText (text : string) : list Pattern :=
  let lowerText := Js.toLowerCase text in
  (* Check for suspicious patterns *)
  let patterns :=
    flat_map
      (fun entry =>
         let '(category, regexes) := entry in
         flat_map
           (fun regex =>
              if regex_test lib regex text
              then [RegexMatch category regex 0.85]
              else [])
           regexes)
      suspiciousPatterns in
  (* Check for fraud keywords *)
  let fraudKeywordCount :=
    List.length (filter (fun keyword => Js.includes lowerText keyword) fraudKeywords) in
  if (0 <? fraudKeywordCount)%nat then
    patterns ++
    [KeywordMatch fraudKeywordCount
       (Js.Math_min 0.9 (Js.of_nat fraudKeywordCount * 0.2))]
  else patterns.

(** [features[index] = token.length / 10] for the first 100 stemmed
    tokens, on an array of 100 zeros. *)
Definition fill_features (stemmedTokens : list string) : list float :=
  let written :=
    map (fun token => (Js.of_nat (String.length token) / 10)%float)
        (firstn 100 stemmedTokens) in
  written ++ repeat 0%float (100 - List.length written).

Definition extractTextFeatures (text : string) : Result (list float) :=
  match tokenize lib text with
  | Throw e => Throw e
  | Ok tokens =>
      match map_result (stem lib) tokens with
      | Throw e => Throw e
      | Ok stemmedTokens => Ok (fill_features stemmedTokens)
      end
  end.

(** The base confidence from patterns:
    [patterns.forEach(p => pc = Math.max(pc, p.confidence))] from 0. *)
Definition patternConfidence (patterns : list Pattern) : float :=
  fold_left (fun pc pattern => Js.Math_max pc (confidence pattern)) patterns 0%float.

Definition sentimentImpact (sentiment : float) : float :=
  if (sentiment <? -0.3)%float then 0.2%float else 0%float.

Definition cache_key (metadata : CallMetadata) : string :=
  ("fwa_analysis:" ++ string_or (callId metadata) "unknown")%string.

Definition analyzeCallTranscript (transcript : string) (metadata : CallMetadata)
    : M CallAnalysis :=
  try_catch
    (logger_info "Analyzing call transcript for FWA patterns" ;;
     now <- Date_now ;;
     (* Text preprocessing *)
     let cleanedText := preprocessText transcript in
     tokens <- lift (tokenize lib cleanedText) ;;
     sentiment <- lift (getSentiment lib tokens) ;;
     (* Pattern matching analysis *)
     let patterns := analyzeText transcript in
     (* Calculate base confidence from patterns *)
     let patternConfidence := patternConfidence patterns in
     (* Text classification (simulated) *)
     textFeatures <- lift (extractTextFeatures cleanedText) ;;
     let classificationResult := classifyText textFeatures in
     (* Sentiment analysis impact *)
     let sentimentImpact := sentimentImpact sentiment in
     (* Calculate final confidence score *)
     let confidence :=
       Js.Math_min 1.0
         (patternConfidence * 0.5
          + cls_confidence classificationResult * 0.4
          + sentimentImpact)%float in
     let analysis :=
       {| call_confidence := confidence;
          (* Determine risk level *)
          call_riskLevel := determineRiskLevel confidence;
          (* Generate indicators *)
          call_indicators := generateIndicators patterns sentiment classificationResult;
          call_patterns := patterns;
          call_recommendations := [];
          call_metadata := metadata;
          analyzedAt := now;
          textLength := String.length transcript |} in
     (* Generate recommendations *)
     let analysis :=
       {| call_confidence := call_confidence analysis;
          call_riskLevel := call_riskLevel analysis;
          call_indicators := call_indicators analysis;
          call_patterns := call_patterns analysis;
          call_recommendations := generateRecommendations analysis;
          call_metadata := call_metadata analysis;
          analyzedAt := analyzedAt analysis;
          textLength := textLength analysis |} in
     (* Cache analysis for future reference *)
     setWithExpiry (cache_key metadata) analysis 3600 ;;
     logger_info
       ("FWA Analysis complete: Risk=" ++ Level_name (call_riskLevel analysis)
        ++ ", Confidence=" ++ toFixed lib 3 (call_confidence analysis))%string ;;
     ret analysis)
    (fun error =>
       logger_error "Error analyzing call transcript:" error ;;
       throw error).

Definition analyzeBillingPattern (billingData : list Bill) : M BillingAnalysis :=
  try_catch
    (logger_info "Analyzing billing patterns for anomalies" ;;
     (* Statistical analysis *)
     let stats := calculateBillingStatistics billingData in
     (* Anomaly detection *)
     let anomalies := detectBillingAnomalies billingData stats in
     (* Pattern recognition *)
     let patterns := detectBillingPatterns billingData in
     (* Calculate confidence based on anomalies and patterns *)
     let anomalyScore :=
       if (0 <? List.length anomalies)%nat then
         Js.Math_min 1.0
           (fold_left (fun sum a => sum + anomaly_severity a) anomalies 0 / 10)%float
       else 0%float in
     let patternScore :=
       if (0 <? List.length patterns)%nat then
         Js.Math_min 1.0
           (fold_left (fun sum p => sum + confidence p) patterns 0
            / Js.of_nat (List.length patterns))%float
       else 0%float in
     let confidence := Js.Math_max anomalyScore patternScore in
     let analysis :=
       {| bill_confidence := confidence;
          bill_riskLevel := determineRiskLevel confidence;
          anomalies := anomalies;
          bill_patterns := patterns;
          statisticalAnalysis := stats;
          bill_recommendations := [] |} in
     (* Generate recommendations *)
     recommendations <- generateBillingRecommendations analysis ;;
     ret {| bill_confidence := bill_confidence analysis;
            bill_riskLevel := bill_riskLevel analysis;
            anomalies := anomalies;
            bill_patterns := bill_patterns analysis;
            statisticalAnalysis := statisticalAnalysis analysis;
            bill_recommendations := recommendations |})
    (fun error =>
       logger_error "Error analyzing billing patterns:" error ;;
       throw error).

Definition analyzeEnrollmentActivity (enrollmentData : EnrollmentData)
    : M EnrollmentAnalysis :=
  try_catch
    (logger_info "Analyzing enrollment activity for suspicious patterns" ;;
     (* Check for consent violations *)
     consentViolations <- lift (detectConsentViolations lib enrollmentData) ;;
     (* Identity verification risks *)
     identityRisks <- lift (assessIdentityRisks lib enrollmentData) ;;
     (* Suspicious activity patterns *)
     suspiciousActivities <-
       lift (detectSuspiciousEnrollmentPatterns lib enrollmentData) ;;
     (* Calculate confidence *)
     let violationScore := (Js.of_nat (List.length consentViolations) * 0.3)%float in
     let identityScore := (Js.of_nat (List.length identityRisks) * 0.4)%float in
     let activityScore := (Js.of_nat (List.length suspiciousActivities) * 0.2)%float in
     let confidence :=
       Js.Math_min 1.0 (violationScore + identityScore + activityScore)%float in
     let analysis :=
       {| enr_confidence := confidence;
          enr_riskLevel := determineRiskLevel confidence;
          suspiciousActivities := suspiciousActivities;
          consentViolations := consentViolations;
          identityRisks := identityRisks;
          enr_recommendations := [] |} in
     recommendations <- lift (generateEnrollmentRecommendations lib analysis) ;;
     ret {| enr_confidence := enr_confidence analysis;
            enr_riskLevel := enr_riskLevel analysis;
            suspiciousActivities := suspiciousActivities;
            consentViolations := consentViolations;
            identityRisks := identityRisks;
            enr_recommendations := recommendations |})
    (fun error =>
       logger_error "Error analyzing enrollment activity:" error ;;
       throw error).

Definition generateIncidentDescription (analysisResult : AnalysisResult)
    (patterns : list Pattern) (source : string) : string :=
  let patterns := join_comma (map category patterns) in
  let confidence := toFixed lib 1 (result_confidence analysisResult * 100)%float in
  ("AI-detected suspicious activity in " ++ source ++ ". "
   ++ "Confidence: " ++ confidence ++ "%. Patterns: " ++ patterns ++ ". "
   ++ "Risk Level: " ++ Level_name (result_riskLevel analysisResult) ++ ".")%string.

(** The out-of-band path for critical incidents: as the code stands, a
    warning line naming the incident. *)
Definition autoEscalateIncident (incident : FWAIncident.Instance) : M unit :=
  logger_warn
    ("AUTO-ESCALATING CRITICAL INCIDENT: "
     ++ incident_number (FWAIncident.dataValues incident))%string.

(** The binding [FWAIncident] of the service module.  It is read by
    [const { FWAIncident } = require('../models/FWAIncident')], and the model
    file exports the model itself ([module.exports = FWAIncident]), which has
    no property of that name: the binding is [undefined]. *)
Definition FWAIncident_binding : option (Incident -> M FWAIncident.Instance) :=
  None.

(** [FWAIncident.create]: reading a property of [undefined] is a TypeError,
    raised before the arguments of the call are evaluated. *)
Definition FWAIncident_create : M (Incident -> M FWAIncident.Instance) :=
  match FWAIncident_binding with
  | Some create => ret create
  | None => throw (TypeError "Cannot read properties of undefined (reading 'create')")
  end.

(** [analysisResult.patterns.some(...)] and [.map(...)] need the array. *)
Definition patterns_of (analysisResult : AnalysisResult) : M (list Pattern) :=
  match result_patterns analysisResult with
  | Some patterns => ret patterns
  | None => throw (TypeError "Cannot read properties of undefined")
  end.

Definition reportFWAIncident (analysisResult : AnalysisResult) (source : string)
    (reporterId : option string) : M (option FWAIncident.Instance) :=
  try_catch
    (if (result_confidence analysisResult <? riskThresholds LOW)%float then
       logger_info "Analysis below reporting threshold, logging for monitoring" ;;
       ret None
     else
       patterns <- patterns_of analysisResult ;;
       let incidentType := determineIncidentType patterns in
       let severity := mapRiskToSeverity (result_riskLevel analysisResult) in
       create <- FWAIncident_create ;;
       incident_date <- Date_now ;;
       let description :=
         generateIncidentDescription analysisResult patterns source in
       detection_timestamp <- Date_now ;;
       incident <-
         create
           {| id := 0%nat;
              (* the call passes no number; [beforeCreate] assigns it *)
              incident_number := "";
              incident_type := incidentType;
              severity := severity;
              status := REPORTED;
              detection_method := AI_DETECTION;
              reporter_type :=
                if string_dec (string_or reporterId "") "" then SYSTEM else EMPLOYEE;
              reporter_id := reporterId;
              incident_date := incident_date;
              description := description;
              affected_count := 0;
              financial_impact := None;
              investigation_started := None;
              investigation_completed := None;
              regulatory_reported := false;
              regulatory_report_date := None;
              oig_referral := false;
              oig_case_number := None;
              ai_confidence_score := Some (result_confidence analysisResult);
              ai_analysis := Some analysisResult;
              risk_score := Js.Math_round (result_confidence analysisResult * 100)%float;
              compliance_impact :=
                Some {| cms_violation := false; hipaa_violation := false;
                        false_claims_act := false; anti_kickback := false |};
              timeline := Some [];
              metadata :=
                Some {| source := source;
                        detection_timestamp := detection_timestamp;
                        analyzer_version := "1.0.0" |} |} ;;
       logger_info
         ("FWA Incident created: "
          ++ incident_number (FWAIncident.dataValues incident)
          ++ " (Risk: " ++ Level_name severity ++ ")")%string ;;
       (* Auto-escalate critical incidents *)
       (if Level_eq_dec severity CRITICAL
        then autoEscalateIncident incident
        else ret tt) ;;
       ret (Some incident))
    (fun error =>
       logger_error "Error reporting FWA incident:" error ;;
       throw error).

End Service.

End FWADetectionService.

(* ================================================================= *)
(** ** Request authorisation ([middleware/auth.js]) *)

Module Auth.

(** [req.user]: the employee that [authenticate] attached.  The role is a
    non-null column; the clearance level may be null. *)
Record User := {
  user_id : string;
  role : string;
  clearance_level : option string
}.

Record Cookies := {
  authToken : option string
}.

(** What the middleware reads of a request: [req.user],
    [req.get('Authorization')], [req.query.token] and [req.cookies]. *)
Record Request := {
  user : option User;
  authorization : option string;
  query_token : option string;
  cookies : option Cookies
}.

(** A middleware calls [next()] or answers with a status and an [error]
    text (the [message] of the body is left out). *)
Inductive Outcome :=
| Next
| Json (code : Z) (error : string).

(** A call of [logHelpers.security(event, details, level)]. *)
Record SecurityEvent := {
  event_name : string;
  event_level : string
}.

(** A string in a condition: [null], [undefined] and the empty string are
    falsy. *)
Definition truthy (s : option string) : bool :=
  match s with
  | Some (String _ _) => true
  | _ => false
  end.

(** [s.substring(n)] *)
Definition substring_from (n : nat) (s : string) : string :=
  String.substring n (String.length s - n) s.

Definition extractToken (req : Request) : option string :=
  (* Check Authorization header *)
  let authHeader := authorization req in
  if truthy authHeader && String.prefix "Bearer " (string_or authHeader "")
  then Some (substring_from 7 (string_or authHeader ""))
  (* Check query parameter (less secure, but sometimes needed) *)
  else if truthy (query_token req) then query_token req
  (* Check cookies *)
  else match cookies req with
       | Some c => if truthy (authToken c) then authToken c else None
       | None => None
       end.

(** [allowedRoles.includes(userRole)] *)
Definition includes_role (allowedRoles : list string) (userRole : string) : bool :=
  existsb (String.eqb userRole) allowedRoles.

Definition authorize (allowedRoles : list string) (req : Request)
    : list SecurityEvent * Outcome :=
  match user req with
  | None => ([], Json 401 "Authentication required")
  | Some u =>
      let userRole := role u in
      if negb (includes_role allowedRoles userRole) then
        ([{| event_name := "UNAUTHORIZED_ACCESS"; event_level := "WARN" |}],
         Json 403 "Insufficient permissions")
      else ([], Next)
  end.

Definition requireComplianceRole : Request -> list SecurityEvent * Outcome :=
  authorize ["COMPLIANCE_OFFICER"; "ADMIN"; "AUDITOR"].

Definition requireManagerRole : Request -> list SecurityEvent * Outcome :=
  authorize ["MANAGER"; "COMPLIANCE_OFFICER"; "ADMIN"].

Definition requireAdminRole : Request -> list SecurityEvent * Outcome :=
  authorize ["ADMIN"].

(** The value of [clearanceMap[dataType] || 'INTERNAL']: a level name, or
    a member that the object literal inherits from [Object.prototype]
    (a function or an object, hence truthy and no string). *)
Inductive Property :=
| Str (s : string)
| Inherited.

Definition object_prototype_names : list string :=
  ["constructor"; "__defineGetter__"; "__defineSetter__"; "hasOwnProperty";
   "__lookupGetter__"; "__lookupSetter__"; "isPrototypeOf";
   "propertyIsEnumerable"; "toString"; "valueOf"; "__proto__";
   "toLocaleString"].

Definition getRequiredClearance (dataType : string) : Property :=
  if String.eqb dataType "beneficiary_data" then Str "CONFIDENTIAL"
  else if String.eqb dataType "employee_data" then Str "INTERNAL"
  else if String.eqb dataType "financial_data" then Str "CONFIDENTIAL"
  else if String.eqb dataType "audit_data" then Str "RESTRICTED"
  else if String.eqb dataType "system_config" then Str "RESTRICTED"
  else if existsb (String.eqb dataType) object_prototype_names then Inherited
  else Str "INTERNAL".

Definition levels : list string :=
  ["PUBLIC"; "INTERNAL"; "CONFIDENTIAL"; "RESTRICTED"].

(** [array.indexOf(x)] on strings, -1 when absent. *)
Fixpoint index_from (l : list string) (x : string) (i : Z) : Z :=
  match l with
  | [] => -1
  | y :: r => if String.eqb y x then i else index_from r x (i + 1)
  end.

Definition hasRequiredClearance (userLevel : option string)
    (requiredLevel : Property) : bool :=
  let userIndex :=
    match userLevel with
    | Some l => index_from levels l 0
    | None => -1
    end in
  let requiredIndex :=
    match requiredLevel with
    | Str l => index_from levels l 0
    | Inherited => -1
    end in
  userIndex >=? requiredIndex.

Definition authorizeDataAccess (dataType : string) (req : Request)
    : list SecurityEvent * Outcome :=
  match user req with
  | None => ([], Json 401 "Authentication required")
  | Some u =>
      let userClearance := clearance_level u in
      let requiredClearance := getRequiredClearance dataType in
      if negb (hasRequiredClearance userClearance requiredClearance) then
        ([{| event_name := "INSUFFICIENT_CLEARANCE"; event_level := "WARN" |}],
         Json 403 "Insufficient clearance level")
      else ([], Next)
  end.

End Auth.

(* ================================================================= *)
(** ** The cache helper [getCached] ([config/redis.js]) *)

Module Cache.

Section Helpers.

(** The state that the cache client and the fetch function act on, and the
    type of the fetched data. *)
Variable S : Type.
Variable Data : Type.

(** The cache client, JSON, and the logger.  [client_get] yields [None]
    for [null]. *)
Record Env := {
  client_get : string -> S -> Result (option string) * S;
  client_set : string -> string -> Z -> S -> Result unit * S;
  JSON_parse : string -> Result Data;
  JSON_stringify : Data -> string;
  log_error : string -> Error -> S -> S
}.

Variable env : Env.

Definition getCached (key : string) (fetchFunction : S -> Result Data * S)
    (ttl : Z) : S -> Result Data * S :=
  fun s =>
    let handler (error : Error) (s : S) :=
      (* Fallback to direct fetch if cache fails *)
      fetchFunction (log_error env "Cache operation failed:" error s) in
    match client_get env key s with
    | (Throw e, s) => handler e s
    | (Ok cached, s) =>
        match cached with
        | Some (String c r) =>
            match JSON_parse env (String c r) with
            | Ok data => (Ok data, s)
            | Throw e => handler e s
            end
        | _ =>
            match fetchFunction s with
            | (Throw e, s) => handler e s
            | (Ok data, s) =>
                match client_set env key (JSON_stringify env data) ttl s with
                | (Throw e, s) => handler e s
                | (Ok _, s) => (Ok data, s)
                end
            end
        end
    end.

End Helpers.

(** A function on a state paired with a counter of its calls. *)
Definition counted {S A} (f : S -> Result A * S) (sn : S * nat)
    : Result A * (S * nat) :=
  let '(r, s') := f (fst sn) in (r, (s', Datatypes.S (snd sn))).

(** The client on the paired state: it leaves the counter alone. *)
Definition beside_counter {S Data} (env : Env S Data) : Env (S * nat) Data :=
  {| client_get := fun key sn =>
       let '(r, s') := client_get env key (fst sn) in (r, (s', snd sn));
     client_set := fun key value ttl sn =>
       let '(r, s') := client_set env key value ttl (fst sn) in (r, (s', snd sn));
     JSON_parse := JSON_parse env;
     JSON_stringify := JSON_stringify env;
     log_error := fun msg e sn => (log_error env msg e (fst sn), snd sn) |}.

End Cache.

(* ================================================================= *)
(** ** The scheduler service *)

Module Scheduler.

(** An entry of the [jobs] map.  The cron task is an object of its own; the
    entry holds a reference to it, here its place among the tasks created
    so far. *)
Record Job := {
  task : nat;
  cronExpression : string;
  isRunning : bool;
  lastRun : option Timestamp;
  nextRun : option Timestamp
}.

(** The service object, the cron tasks that exist ([true] for a started
    task), and the lines logged. *)
Record State := {
  jobs : list (string * Job);
  isInitialized : bool;
  tasks : list bool;
  lines : list LogLine
}.

(** [new SchedulerService()] *)
Definition initial : State :=
  {| jobs := []; isInitialized := false; tasks := []; lines := [] |}.

Definition with_jobs (j : list (string * Job)) (st : State) : State :=
  {| jobs := j; isInitialized := isInitialized st; tasks := tasks st;
     lines := lines st |}.

Definition with_isInitialized (b : bool) (st : State) : State :=
  {| jobs := jobs st; isInitialized := b; tasks := tasks st; lines := lines st |}.

Definition with_tasks (t : list bool) (st : State) : State :=
  {| jobs := jobs st; isInitialized := isInitialized st; tasks := t;
     lines := lines st |}.

Definition say (l : LogLevel) (msg : string) (e : option Error) (st : State)
    : State :=
  {| jobs := jobs st; isInitialized := isInitialized st; tasks := tasks st;
     lines := lines st ++ [{| level := l; message := msg; logged_error := e |}] |}.

(** [map.get(key)] and [map.set(key, value)]: a key that is present keeps
    its place. *)
Fixpoint map_get (m : list (string * Job)) (key : string) : option Job :=
  match m with
  | [] => None
  | (k, v) :: r => if String.eqb k key then Some v else map_get r key
  end.

Fixpoint map_set (m : list (string * Job)) (key : string) (value : Job)
    : list (string * Job) :=
  match m with
  | [] => [(key, value)]
  | (k, v) :: r =>
      if String.eqb k key then (key, value) :: r
      else (k, v) :: map_set r key value
  end.

(** [task.start()] and [task.stop()] on the task at place [i]. *)
Fixpoint set_running (i : nat) (b : bool) (l : list bool) : list bool :=
  match l, i with
  | [], _ => []
  | _ :: r, O => b :: r
  | x :: r, S i' => x :: set_running i' b r
  end.

Section Service.

(** [cron.schedule] throws on an expression that it cannot parse. *)
Variable cron_validate : string -> Result unit.

Definition scheduleJob (name cronExpression : string) (st : State) : State :=
  match cron_validate cronExpression with
  | Throw error =>
      say ERROR ("Failed to schedule job '" ++ name ++ "':") (Some error) st
  | Ok _ =>
      (* cron.schedule(..., { scheduled: false }) *)
      let task := List.length (tasks st) in
      let st := with_tasks (tasks st ++ [false]) st in
      let st :=
        with_jobs
          (map_set (jobs st) name
             {| task := task; cronExpression := cronExpression;
                isRunning := false; lastRun := None; nextRun := None |})
          st in
      (* Start the task *)
      let st := with_tasks (set_running task true (tasks st)) st in
      say INFO ("Scheduled job '" ++ name ++ "': " ++ cronExpression) None st
  end.

Definition startScheduledTasks (st : State) : State :=
  if isInitialized st then
    say WARN "Scheduler already initialized, skipping" None st
  else
    let st := say INFO "Starting scheduled compliance tasks" None st in
    (* Daily screening check - 6:00 AM UTC *)
    let st := scheduleJob "daily-screening" "0 6 * * *" st in
    (* Document retention check - 2:00 AM UTC daily *)
    let st := scheduleJob "document-retention" "0 2 * * *" st in
    (* Weekly compliance report - Sunday 8:00 AM UTC *)
    let st := scheduleJob "weekly-compliance-report" "0 8 * * 0" st in
    (* Monthly comprehensive screening - 1st of month, 4:00 AM UTC *)
    let st := scheduleJob "monthly-comprehensive-screening" "0 4 1 * *" st in
    (* Cache cleanup - Every 4 hours *)
    let st := scheduleJob "cache-cleanup" "0 */4 * * *" st in
    (* Health check - Every 15 minutes *)
    let st := scheduleJob "health-check" "*/15 * * * *" st in
    (* Audit log rotation - Daily at 3:00 AM UTC *)
    let st := scheduleJob "audit-log-rotation" "0 3 * * *" st in
    let st := with_isInitialized true st in
    say INFO
      ("Scheduled " ++ Js.String_of_index (List.length (jobs st))
       ++ " compliance tasks") None st.

Definition stopJob (name : string) (st : State) : State :=
  match map_get (jobs st) name with
  | Some job =>
      say INFO ("Stopped job '" ++ name ++ "'") None
        (with_tasks (set_running (task job) false (tasks st)) st)
  | None => st
  end.

Definition startJob (name : string) (st : State) : State :=
  match map_get (jobs st) name with
  | Some job =>
      say INFO ("Started job '" ++ name ++ "'") None
        (with_tasks (set_running (task job) true (tasks st)) st)
  | None => st
  end.

Definition stopAllJobs (st : State) : State :=
  let st := say INFO "Stopping all scheduled jobs" None st in
  let st :=
    with_tasks
      (fold_left (fun running entry => set_running (task (snd entry)) false running)
         (jobs st) (tasks st))
      st in
  with_isInitialized false st.

End Service.

(** The entries of the map have different names and different tasks, and
    each task exists. *)
Definition well_formed (st : State) : Prop :=
  NoDup (map fst (jobs st))
  /\ NoDup (map (fun entry => task (snd entry)) (jobs st))
  /\ forall name job, In (name, job) (jobs st) ->
                      (task job < List.length (tasks st))%nat.

(** The job [name] is in the map and its task is started. *)
Definition running (st : State) (name : string) : Prop :=
  exists job, map_get (jobs st) name = Some job
              /\ nth (task job) (tasks st) false = true.

(** The names that [startScheduledTasks] schedules. *)
Definition scheduled_names : list string :=
  ["daily-screening"; "document-retention"; "weekly-compliance-report";
   "monthly-comprehensive-screening"; "cache-cleanup"; "health-check";
   "audit-log-rotation"].

End Scheduler.

(* ================================================================= *)
(** ** The specification's formulas, in its own words *)

Module Spec.

(** Section 4.2: the risk-score formula. *)
Definition severityWeight (s : Level) : Z :=
  match s with
  | LOW => 10 | MEDIUM => 25 | HIGH => 50 | CRITICAL => 75
  end.

Definition typeWeight (t : IncidentType) : Z :=
  match t with
  | FRAUD => 25
  | IDENTITY_THEFT => 20
  | UNAUTHORIZED_DISCLOSURE => 20
  | BILLING_IRREGULARITY => 15
  | ENROLLMENT_MANIPULATION => 15
  | ABUSE => 10
  | WASTE => 5
  | COMPLIANCE_VIOLATION | SUSPICIOUS_ACTIVITY | BENEFIT_MISREPRESENTATION => 10
  end.

Definition financialBand (financialImpact : float) : Z :=
  if (100000 <? financialImpact)%float then 25
  else if (10000 <? financialImpact)%float then 15
  else if (1000 <? financialImpact)%float then 5
  else 0.

Definition affectedBand (affectedCount : Z) : Z :=
  if 100 <? affectedCount then 20
  else if 10 <? affectedCount then 10
  else if 1 <? affectedCount then 5
  else 0.

Definition riskScore (severity : Level) (incidentType : IncidentType)
    (financialImpact : float) (affectedCount : Z)
    (flags : ComplianceImpact) : Z :=
  Z.min 100
    (severityWeight severity
     + typeWeight incidentType
     + financialBand financialImpact
     + affectedBand affectedCount
     + 30 * Z.b2z (false_claims_act flags)
     + 25 * Z.b2z (anti_kickback flags)
     + 20 * Z.b2z (cms_violation flags)
     + 15 * Z.b2z (hipaa_violation flags)).

(** The formula on an incident's current attributes; an absent financial
    impact counts as 0 and absent flags as all false. *)
Definition no_flags : ComplianceImpact :=
  {| cms_violation := false; hipaa_violation := false;
     false_claims_act := false; anti_kickback := false |}.

Definition riskScore_of (i : Incident) : Z :=
  riskScore (severity i) (incident_type i)
    (match financial_impact i with Some x => x | None => 0%float end)
    (affected_count i)
    (match compliance_impact i with Some c => c | None => no_flags end).

(** Section 4.2: the state table.  [RESOLVED], [CLOSED] and
    [UNSUBSTANTIATED] are terminal; [CLOSED] is reachable from every state. *)
Definition terminal (s : Status) : bool :=
  match s with
  | RESOLVED | CLOSED | UNSUBSTANTIATED => true
  | _ => false
  end.

Definition allowed_transition (from to : Status) : bool :=
  match from, to with
  | _, CLOSED => true
  | REPORTED, UNDER_INVESTIGATION => true
  | UNDER_INVESTIGATION, (SUBSTANTIATED | UNSUBSTANTIATED) => true
  | UNDER_INVESTIGATION, (REFERRED_TO_OIG | REFERRED_TO_CMS) => true
  | SUBSTANTIATED, (REFERRED_TO_OIG | REFERRED_TO_CMS) => true
  | (REFERRED_TO_OIG | REFERRED_TO_CMS), RESOLVED => true
  | _, _ => false
  end.

(** Section 4.3: confidence fusion and the risk level. *)
Definition sentimentBias (sentiment : float) : float :=
  if (sentiment <? -0.3)%float then 0.2%float else 0%float.

Definition overall (patternConfidence classificationConfidence sentimentBias : float)
    : float :=
  Js.Math_min 1.0
    (0.5 * patternConfidence + 0.4 * classificationConfidence + sentimentBias)%float.

Definition riskLevel (confidence : float) : Level :=
  if (0.9 <=? confidence)%float then CRITICAL
  else if (0.8 <=? confidence)%float then HIGH
  else if (0.6 <=? confidence)%float then MEDIUM
  else LOW.

(** "The maximum confidence over the pattern findings (0 if none)". *)
Definition max_confidence (patterns : list Pattern) (pc : float) : Prop :=
  match patterns with
  | [] => pc = 0%float
  | _ :: _ =>
      exists p, In p patterns /\ confidence p = pc
                /\ forall q, In q patterns -> (confidence q <=? pc)%float = true
  end.

(** The next severity along LOW, MEDIUM, HIGH, CRITICAL, with CRITICAL as
    the ceiling. *)
Definition next_severity (s : Level) : Level :=
  match s with
  | LOW => MEDIUM
  | MEDIUM => HIGH
  | HIGH => CRITICAL
  | CRITICAL => CRITICAL
  end.

End Spec.

(* ================================================================= *)
(** ** Concrete worlds and incidents used by the checks below *)

Module Sample.

(** A clock that advances one millisecond per reading. *)
Definition readings : list Timestamp :=
  [1700000000000; 1700000000001; 1700000000002; 1700000000003;
   1700000000004; 1700000000005; 1700000000006; 1700000000007;
   1700000000008; 1700000000009; 1700000000010; 1700000000011].

Definition ticking_world : World :=
  {| tick := 0; time_at := fun n => nth n readings 1700000000012;
     logs := []; redis := []; fwa_incidents := []; next_id := 1 |}.

(** A clock that stays within one millisecond. *)
Definition frozen_world : World :=
  {| tick := 0; time_at := fun _ => 1700000000000;
     logs := []; redis := []; fwa_incidents := []; next_id := 1 |}.

(** The values of a manual report, as a caller passes them to [create]. *)
Definition report (t : IncidentType) (s : Level) (st : Status) : Incident :=
  {| id := 0%nat;
     incident_number := "";
     incident_type := t;
     severity := s;
     status := st;
     detection_method := MANUAL_REVIEW;
     reporter_type := EMPLOYEE;
     reporter_id := Some "emp-17";
     incident_date := 1699990000000;
     description := "Reported by the compliance desk";
     affected_count := 150;
     financial_impact := Some 150000%float;
     investigation_started := None;
     investigation_completed := None;
     regulatory_reported := false;
     regulatory_report_date := None;
     oig_referral := false;
     oig_case_number := None;
     ai_confidence_score := None;
     ai_analysis := None;
     risk_score := Some 7;
     compliance_impact :=
       Some {| cms_violation := false; hipaa_violation := false;
               false_claims_act := true; anti_kickback := false |};
     timeline := Some [];
     metadata := None |}.

(** A persisted incident, loaded with no pending change. *)
Definition loaded (t : IncidentType) (s : Level) (st : Status)
    : FWAIncident.Instance :=
  let row :=
    with_timeline
      (Some [ReportedEntry 1699990000001 "emp-17" t MANUAL_REVIEW])
      (with_incident_number "FRA-LOYW3V28" (with_id 1%nat (report t s st))) in
  {| FWAIncident.dataValues :=
       with_risk_score (Some (FWAIncident.calculateRiskScore row)) row;
     FWAIncident.changedFields := [] |}.

Definition world_with (i : FWAIncident.Instance) : World :=
  with_fwa_incidents [FWAIncident.dataValues i] ticking_world.

(** Collaborators for the checks: the two expressions that the sample
    transcripts can match are decided by substring search, tokens are the
    words between blanks, sentiment and the enrollment identity check are
    parameters, and the other helpers find nothing. *)
Definition regex_test (source text : string) : bool :=
  if string_dec source "ghost\s+patient"
  then Js.includes (Js.toLowerCase text) "ghost patient"
  else if string_dec source "duplicate\s+claims?"
  then Js.includes (Js.toLowerCase text) "duplicate claim"
  else false.

Fixpoint words_from (s : string) (current : string) : list string :=
  match s with
  | EmptyString => if string_dec current "" then [] else [current]
  | String c r =>
      if FWADetectionService.is_space c
      then if string_dec current "" then words_from r ""
           else current :: words_from r ""
      else words_from r (current ++ String c EmptyString)%string
  end.

Definition collaborators (sentiment : list string -> Result float)
    (identity : unit -> Result (list EnrollmentFinding))
    : FWADetectionService.Collaborators unit :=
  {| FWADetectionService.regex_test := regex_test;
     FWADetectionService.tokenize := fun text => Ok (words_from text "");
     FWADetectionService.getSentiment := sentiment;
     FWADetectionService.stem := fun token => Ok token;
     FWADetectionService.toFixed := fun _ _ => "#";
     FWADetectionService.detectConsentViolations := fun _ => Ok [];
     FWADetectionService.assessIdentityRisks := identity;
     FWADetectionService.detectSuspiciousEnrollmentPatterns := fun _ => Ok [];
     FWADetectionService.generateEnrollmentRecommendations := fun _ => Ok [] |}.

(** Every collaborator answers; the sentiment is neutral. *)
Definition lib : FWADetectionService.Collaborators unit :=
  collaborators (fun _ => Ok 0%float) (fun _ => Ok []).

(** The sentiment analyzer is unavailable. *)
Definition lib_without_sentiment : FWADetectionService.Collaborators unit :=
  collaborators
    (fun _ => Throw (ExternalError "sentiment analyzer unavailable"))
    (fun _ => Ok []).

(** The identity helper is missing from the class. *)
Definition lib_without_identity_helper : FWADetectionService.Collaborators unit :=
  collaborators
    (fun _ => Ok 0%float)
    (fun _ => Throw (TypeError "this.assessIdentityRisks is not a function")).

Definition transcript : string :=
  "We found a ghost patient and duplicate claims on this account.".

Definition call_info : CallMetadata :=
  {| callId := Some "call-881"; agentId := Some "agent-12"; userId := Some "u-5" |}.

(** The billing batch [100, 100, 105, 98, 100, 5000]. *)
Definition billing_batch : list Bill :=
  [{| bill_id := "b1"; amount := 100 |};
   {| bill_id := "b2"; amount := 100 |};
   {| bill_id := "b3"; amount := 105 |};
   {| bill_id := "b4"; amount := 98 |};
   {| bill_id := "b5"; amount := 100 |};
   {| bill_id := "b6"; amount := 5000 |}]%float.

End Sample.

(** Requests and an enrollment analysis for the checks of the helpers. *)
Module Examples.

(** An enrollment analysis with one identity risk. *)
Definition enrollment_analysis : EnrollmentAnalysis :=
  {| enr_confidence := 0.4%float;
     enr_riskLevel := LOW;
     suspiciousActivities := [];
     consentViolations := [];
     identityRisks := ["address mismatch"];
     enr_recommendations := [] |}.

Definition request_of (r : string) (clearance : option string) : Auth.Request :=
  {| Auth.user :=
       Some {| Auth.user_id := "emp-17"; Auth.role := r;
               Auth.clearance_level := clearance |};
     Auth.authorization := None;
     Auth.query_token := None;
     Auth.cookies := None |}.

(** A request with a bearer header, a query token and a cookie. *)
Definition bearer_request : Auth.Request :=
  {| Auth.user := None;
     Auth.authorization := Some "Bearer abc.def.ghi";
     Auth.query_token := Some "from-query";
     Auth.cookies := Some {| Auth.authToken := Some "from-cookie" |} |}.


(** A cron library that accepts the expressions of five fields and rejects
    every other text. *)
Fixpoint count_blanks (s : string) : nat :=
  match s with
  | EmptyString => O
  | String c r =>
      if FWADetectionService.is_space c then S (count_blanks r) else count_blanks r
  end.

Definition cron_five_fields (cronExpression : string) : Result unit :=
  if Nat.eqb (count_blanks cronExpression) 4 then Ok tt
  else Throw (ExternalError "invalid cron expression").

(** A cron library that accepts every expression. *)
Definition cron_accepts (cronExpression : string) : Result unit := Ok tt.

End Examples.

(* ================================================================= *)
(** ** Vocabulary of the statements below *)

Module Facts.

Import FWAIncident.

(** The attributes that the save hook leaves alone. *)
Definition hook_frame (a b : Incident) : Prop :=
  id a = id b
  /\ incident_number a = incident_number b
  /\ incident_type a = incident_type b
  /\ severity a = severity b
  /\ status a = status b
  /\ affected_count a = affected_count b
  /\ financial_impact a = financial_impact b
  /\ compliance_impact a = compliance_impact b
  /\ oig_referral a = oig_referral b
  /\ oig_case_number a = oig_case_number b
  /\ regulatory_reported a = regulatory_reported b
  /\ regulatory_report_date a = regulatory_report_date b.

(** What a computation may do to the world besides reading the clock. *)
Definition only_clock (w w' : World) : Prop :=
  logs w' = logs w /\ redis w' = redis w
  /\ fwa_incidents w' = fwa_incidents w /\ next_id w' = next_id w
  /\ time_at w' = time_at w.

(** The action that [beforeUpdate] writes in its entry. *)
Definition hook_action (inst : Instance) : string :=
  if includes_field (changed inst) F_status
  then ("STATUS_CHANGED_TO_" ++ Status_name (status (dataValues inst)))%string
  else "UPDATED".

(** The number that [beforeCreate] gives an incident of type [t] at time [now]. *)
Definition generated_number (t : IncidentType) (now : Timestamp) : string :=
  (Js.toUpperCase (Js.substring0 3 (IncidentType_name t))
   ++ "-" ++ Js.toUpperCase (Js.toString36 now))%string.

(** *** The order of numbers

    The comparison of two numbers that are not NaN is the lexicographic
    comparison of their keys: the class (negative infinity, negative, zero,
    positive, positive infinity), then the exponent and the mantissa, both
    negated for negative numbers. *)
Definition key (x : spec_float) : Z * Z * Z :=
  match x with
  | S754_zero _ => (0, 0, 0)
  | S754_infinity true => (-2, 0, 0)
  | S754_infinity false => (2, 0, 0)
  | S754_nan => (0, 0, 0)
  | S754_finite true m e => (-1, - e, Z.neg m)
  | S754_finite false m e => (1, e, Z.pos m)
  end.

Definition fkey (x : float) : Z * Z * Z := key (Prim2SF x).

Definition lex_compare (a b : Z * Z * Z) : comparison :=
  let '(a1, a2, a3) := a in
  let '(b1, b2, b3) := b in
  match a1 ?= b1 with
  | Eq => match a2 ?= b2 with
          | Eq => a3 ?= b3
          | c => c
          end
  | c => c
  end.

Definition lex_le (a b : Z * Z * Z) : Prop :=
  let '(a1, a2, a3) := a in
  let '(b1, b2, b3) := b in
  a1 < b1 \/ (a1 = b1 /\ (a2 < b2 \/ (a2 = b2 /\ a3 <= b3))).

Definition lex_lt (a b : Z * Z * Z) : Prop :=
  let '(a1, a2, a3) := a in
  let '(b1, b2, b3) := b in
  a1 < b1 \/ (a1 = b1 /\ (a2 < b2 \/ (a2 = b2 /\ a3 < b3))).

(** *** The detection service *)

(** The calls of [analyzeCallTranscript] that can throw, in their order:
    the tokenizer, the sentiment analyzer, and the feature extraction
    (tokenizer and stemmer).  They yield the sentiment and the features. *)
Definition run_extractors {E} (lib : FWADetectionService.Collaborators E)
    (transcript : string) : Result (float * list float) :=
  let cleanedText := FWADetectionService.preprocessText transcript in
  match FWADetectionService.tokenize lib cleanedText with
  | Throw e => Throw e
  | Ok tokens =>
      match FWADetectionService.getSentiment lib tokens with
      | Throw e => Throw e
      | Ok sentiment =>
          match FWADetectionService.extractTextFeatures lib cleanedText with
          | Throw e => Throw e
          | Ok features => Ok (sentiment, features)
          end
      end
  end.

(** The helper calls of [analyzeEnrollmentActivity] that produce findings. *)
Definition run_enrollment_extractors {E} (lib : FWADetectionService.Collaborators E)
    (enrollmentData : E)
    : Result (list EnrollmentFinding * list EnrollmentFinding * list EnrollmentFinding) :=
  match FWADetectionService.detectConsentViolations lib enrollmentData with
  | Throw e => Throw e
  | Ok consentViolations =>
      match FWADetectionService.assessIdentityRisks lib enrollmentData with
      | Throw e => Throw e
      | Ok identityRisks =>
          match FWADetectionService.detectSuspiciousEnrollmentPatterns lib enrollmentData with
          | Throw e => Throw e
          | Ok suspiciousActivities =>
              Ok (consentViolations, identityRisks, suspiciousActivities)
          end
      end
  end.

(** A line of the critical alert path ([autoEscalateIncident]). *)
Definition is_alert (l : LogLine) : bool :=
  match level l with
  | WARN => String.prefix "AUTO-ESCALATING CRITICAL INCIDENT: " (message l)
  | _ => false
  end.

(** How many times the alert path has been taken. *)
Definition alerts (w : World) : nat := List.length (filter is_alert (logs w)).

(** The error line that a [catch] block writes before rethrowing. *)
Definition error_line (msg : string) (e : Error) : LogLine :=
  {| level := ERROR; message := msg; logged_error := Some e |}.

(** *** Reading an incident number back

    The value of an upper-case base-36 digit, and of a digit string read
    from the left. *)
Definition digit_value (c : ascii) : Z :=
  if Js.is_digit c then Z.of_nat (nat_of_ascii c) - 48
  else Z.of_nat (nat_of_ascii c) - 55.

Fixpoint base36_value (v : Z) (s : string) : Z :=
  match s with
  | EmptyString => v
  | String c r => base36_value (v * 36 + digit_value c) r
  end.

(** The first three letters of the type name, in upper case. *)
Definition number_prefix (t : IncidentType) : string :=
  Js.toUpperCase (Js.substring0 3 (IncidentType_name t)).

(** *** The shape of a preprocessed text *)

Definition is_blank (c : ascii) : bool :=
  if ascii_dec c " " then true else false.

(** A lower-case letter, a digit, an underscore or a blank. *)
Definition is_clean_char (c : ascii) : bool :=
  Js.is_lower c || Js.is_digit c || (if ascii_dec c "_" then true else false)
  || is_blank c.

(** Every character is clean and no blank follows a blank; with
    [after_blank] the text does not start with a blank either. *)
Fixpoint spaced (after_blank : bool) (s : string) : bool :=
  match s with
  | EmptyString => true
  | String c r =>
      is_clean_char c
      && (if is_blank c then negb after_blank && spaced true r
          else spaced false r)
  end.

Fixpoint last_is_blank (s : string) : bool :=
  match s with
  | EmptyString => false
  | String c EmptyString => is_blank c
  | String _ r => last_is_blank r
  end.

(** Words of clean characters separated by single blanks. *)
Definition normal_text (s : string) : bool :=
  spaced true s && negb (last_is_blank s).

End Facts.

(* ================================================================= *)
(** * Properties *)

(** ** The order of numbers *)

Section NumberOrder.

Import Facts.

Lemma SFcompare_key (x y : spec_float) :
  x <> S754_nan -> y <> S754_nan ->
  SFcompare x y = Some (lex_compare (key x) (key y)).
Proof.
  intros Hx Hy.
  destruct x as [sx|sx| |sx mx ex], y as [sy|sy| |sy my ey];
    try congruence;
    try (destruct sx); try (destruct sy); try reflexivity.
  cbn [SFcompare key lex_compare]. rewrite Z.compare_opp.
  change (-1 ?= -1) with Eq. cbv iota.
  rewrite (Z.compare_antisym ex ey).
  destruct (ex ?= ey); reflexivity.
Qed.

Lemma lex_compare_le (a b : Z * Z * Z) :
  lex_compare a b <> Gt <-> lex_le a b.
Proof.
  destruct a as [[a1 a2] a3], b as [[b1 b2] b3]. unfold lex_compare, lex_le.
  destruct (Z.compare_spec a1 b1); [destruct (Z.compare_spec a2 b2);
    [destruct (Z.compare_spec a3 b3)| |] | |];
    split; intros; try congruence; try lia.
Qed.

Lemma lex_compare_lt (a b : Z * Z * Z) :
  lex_compare a b = Lt <-> lex_lt a b.
Proof.
  destruct a as [[a1 a2] a3], b as [[b1 b2] b3]. unfold lex_compare, lex_lt.
  destruct (Z.compare_spec a1 b1); [destruct (Z.compare_spec a2 b2);
    [destruct (Z.compare_spec a3 b3)| |] | |];
    split; intros; try congruence; try lia.
Qed.

Lemma is_nan_spec (x : float) : is_nan x = false <-> Prim2SF x <> S754_nan.
Proof.
  unfold is_nan. rewrite eqb_spec. unfold SFeqb.
  destruct (Prim2SF x) as [s|s| |s m e] eqn:E.
  - simpl. split; [discriminate|reflexivity].
  - destruct s; simpl; (split; [discriminate|reflexivity]).
  - simpl. split; [discriminate|congruence].
  - rewrite SFcompare_key by discriminate.
    assert (H : lex_compare (key (S754_finite s m e)) (key (S754_finite s m e)) = Eq).
    { destruct s; cbn [key lex_compare]; rewrite !Z.compare_refl; reflexivity. }
    rewrite H. simpl. split; [discriminate|reflexivity].
Qed.

Lemma leb_le (x y : float) :
  is_nan x = false -> is_nan y = false ->
  ((x <=? y)%float = true <-> lex_le (fkey x) (fkey y)).
Proof.
  intros Hx Hy. apply is_nan_spec in Hx, Hy.
  rewrite leb_spec. unfold SFleb. rewrite SFcompare_key by assumption.
  rewrite <- lex_compare_le. unfold fkey.
  destruct (lex_compare _ _); split; intros; congruence.
Qed.

Lemma ltb_lt (x y : float) :
  is_nan x = false -> is_nan y = false ->
  ((x <? y)%float = true <-> lex_lt (fkey x) (fkey y)).
Proof.
  intros Hx Hy. apply is_nan_spec in Hx, Hy.
  rewrite ltb_spec. unfold SFltb. rewrite SFcompare_key by assumption.
  rewrite <- lex_compare_lt. unfold fkey.
  destruct (lex_compare _ _); split; intros; congruence.
Qed.

(** Splits the keys of the numbers in the context into components and
    leaves linear arithmetic. *)
Ltac order_by_keys :=
  unfold fkey in *;
  repeat match goal with
         | H : context [key (Prim2SF ?x)] |- _ =>
             let a := fresh "k" in let b := fresh "k" in let c := fresh "k" in
             destruct (key (Prim2SF x)) as [[a b] c]
         | |- context [key (Prim2SF ?x)] =>
             let a := fresh "k" in let b := fresh "k" in let c := fresh "k" in
             destruct (key (Prim2SF x)) as [[a b] c]
         end;
  unfold lex_le, lex_lt in *; lia.

Lemma leb_trans (x y z : float) :
  is_nan x = false -> is_nan y = false -> is_nan z = false ->
  (x <=? y)%float = true -> (y <=? z)%float = true -> (x <=? z)%float = true.
Proof.
  intros Hx Hy Hz. rewrite !leb_le by assumption. order_by_keys.
Qed.

Lemma leb_refl (x : float) : is_nan x = false -> (x <=? x)%float = true.
Proof. intros Hx. rewrite leb_le by assumption. order_by_keys. Qed.

Lemma ltb_leb (x y : float) :
  is_nan x = false -> is_nan y = false ->
  (x <? y)%float = true -> (x <=? y)%float = true.
Proof.
  intros Hx Hy. rewrite leb_le, ltb_lt by assumption. order_by_keys.
Qed.

Lemma not_ltb_leb (x y : float) :
  is_nan x = false -> is_nan y = false ->
  (x <? y)%float = false -> (y <=? x)%float = true.
Proof.
  intros Hx Hy Hlt. rewrite leb_le by assumption.
  assert (H : ~ lex_lt (fkey x) (fkey y)).
  { intros H. apply ltb_lt in H; try assumption. congruence. }
  order_by_keys.
Qed.

Lemma ltb_not_leb (x y : float) :
  is_nan x = false -> is_nan y = false ->
  (x <? y)%float = true -> (y <=? x)%float = true -> False.
Proof.
  intros Hx Hy. rewrite leb_le, ltb_lt by assumption. order_by_keys.
Qed.

(** [Math.max] of two numbers returns one of them, above both. *)
Lemma Math_max_cases (a b : float) :
  is_nan a = false -> is_nan b = false ->
  Js.Math_max a b = a \/ Js.Math_max a b = b.
Proof.
  intros Ha Hb. unfold Js.Math_max. rewrite Ha, Hb. cbn [orb].
  destruct (a <? b)%float; [right; reflexivity|].
  destruct (b <? a)%float; [left; reflexivity|].
  destruct (get_sign a); [right|left]; reflexivity.
Qed.

Lemma Math_max_upper (a b : float) :
  is_nan a = false -> is_nan b = false ->
  (a <=? Js.Math_max a b)%float = true /\ (b <=? Js.Math_max a b)%float = true.
Proof.
  intros Ha Hb. unfold Js.Math_max. rewrite Ha, Hb. cbn [orb].
  destruct (a <? b)%float eqn:Hab.
  - split; [apply ltb_leb; assumption | apply leb_refl; assumption].
  - destruct (b <? a)%float eqn:Hba.
    + split; [apply leb_refl; assumption | apply ltb_leb; assumption].
    + destruct (get_sign a).
      * split; [apply not_ltb_leb; assumption | apply leb_refl; assumption].
      * split; [apply leb_refl; assumption | apply not_ltb_leb; assumption].
Qed.

Lemma SFmul_comm (prec emax : Z) (x y : spec_float) :
  SFmul prec emax x y = SFmul prec emax y x.
Proof.
  destruct x as [sx|sx| |sx mx ex], y as [sy|sy| |sy my ey];
    cbn [SFmul]; rewrite ?(xorb_comm sx sy); try reflexivity.
  rewrite (Pos.mul_comm mx my), (Z.add_comm ex ey). reflexivity.
Qed.

(** Multiplication of numbers is commutative. *)
Lemma mul_comm (x y : float) : (x * y)%float = (y * x)%float.
Proof.
  apply Prim2SF_inj. rewrite !mul_spec. apply SFmul_comm.
Qed.

End NumberOrder.

(** ** The risk score *)

Section RiskScore.

Import FWAIncident.

Lemma band3 (a b c : bool) (s x y z : Z) :
  (if a then s + x else if b then s + y else if c then s + z else s)
  = s + (if a then x else if b then y else if c then z else 0).
Proof. destruct a, b, c; lia. Qed.

Lemma add_if (a : bool) (s x : Z) :
  (if a then s + x else s) = s + x * Z.b2z a.
Proof. destruct a; simpl; lia. Qed.

(** The accumulation of [calculateRiskScore] is the formula of the
    specification on the incident's current attributes. *)
Lemma calculateRiskScore_formula (i : Incident) :
  calculateRiskScore i = Spec.riskScore_of i.
Proof.
  unfold calculateRiskScore, Spec.riskScore_of, Spec.riskScore.
  cbv zeta. rewrite !band3, !add_if. f_equal.
  assert (Hs : score_or (severityScores (severity i)) 0
               = Spec.severityWeight (severity i))
    by (destruct (severity i); reflexivity).
  assert (Ht : score_or (typeScores (incident_type i)) 10
               = Spec.typeWeight (incident_type i))
    by (destruct (incident_type i); reflexivity).
  assert (Hf : (if financial_impact_gt i 100000 then 25
                else if financial_impact_gt i 10000 then 15
                else if financial_impact_gt i 1000 then 5 else 0)
               = Spec.financialBand
                   (match financial_impact i with Some x => x | None => 0%float end)).
  { unfold financial_impact_gt, Spec.financialBand, Js.gt.
    destruct (financial_impact i); reflexivity. }
  assert (Ha : (if affected_count i >? 100 then 20
                else if affected_count i >? 10 then 10
                else if affected_count i >? 1 then 5 else 0)
               = Spec.affectedBand (affected_count i)).
  { unfold Spec.affectedBand. rewrite !Z.gtb_ltb. reflexivity. }
  rewrite Hs, Ht, Hf, Ha. unfold violation.
  destruct (compliance_impact i); simpl; lia.
Qed.

Lemma weights_nonneg (s : Level) (t : IncidentType) (x : float) (n : Z) :
  0 <= Spec.severityWeight s /\ 0 <= Spec.typeWeight t
  /\ 0 <= Spec.financialBand x /\ 0 <= Spec.affectedBand n.
Proof.
  unfold Spec.financialBand, Spec.affectedBand.
  destruct s, t; simpl;
    repeat match goal with
           | |- context [if ?b then _ else _] => destruct b
           end; lia.
Qed.

(** The score ranges over 0..100. *)
Lemma calculateRiskScore_range (i : Incident) :
  0 <= calculateRiskScore i <= 100.
Proof.
  rewrite calculateRiskScore_formula.
  unfold Spec.riskScore_of, Spec.riskScore.
  match goal with
  | |- context [Spec.financialBand ?x] =>
      pose proof (weights_nonneg (severity i) (incident_type i) x (affected_count i))
        as (H1 & H2 & H3 & H4)
  end.
  repeat match goal with
         | |- context [Z.b2z ?b] =>
             let H := fresh in
             assert (H : 0 <= Z.b2z b) by (destruct b; simpl; lia);
             generalize dependent (Z.b2z b); intros
         end.
  lia.
Qed.

End RiskScore.

(** ** Change tracking and the save hook *)

Section Lifecycle.

Import FWAIncident Facts.

Lemma all_fields_complete (f : Field) : In f all_fields.
Proof. destruct f; simpl; tauto. Qed.

Lemma changed_In (inst : Instance) (f : Field) :
  In f (changed inst) <-> is_changed inst f = true.
Proof.
  unfold changed. rewrite filter_In. split.
  - intros [_ H]. exact H.
  - intros H. split; [apply all_fields_complete | exact H].
Qed.

Lemma changed_nonempty (inst : Instance) (f : Field) :
  is_changed inst f = true -> changed inst <> [].
Proof.
  intros H Hnil. apply changed_In in H. rewrite Hnil in H. exact H.
Qed.

Lemma is_changed_cons (d : Incident) (f g : Field) (l : list Field) :
  is_changed {| dataValues := d; changedFields := g :: l |} f
  = (if Field_eq_dec f g then true else false)
    || is_changed {| dataValues := d; changedFields := l |} f.
Proof. reflexivity. Qed.

Lemma is_changed_values (d d' : Incident) (l : list Field) (f : Field) :
  is_changed {| dataValues := d; changedFields := l |} f
  = is_changed {| dataValues := d'; changedFields := l |} f.
Proof. reflexivity. Qed.

(** An assignment never clears a change mark. *)
Lemma assign_keeps (g : Field) (same : bool) (upd : Incident -> Incident)
    (inst : Instance) (f : Field) :
  is_changed inst f = true -> is_changed (assign g same upd inst) f = true.
Proof.
  intros H. unfold assign. destruct same.
  - destruct inst as [d l]. exact H.
  - destruct inst as [d l]. cbn [dataValues changedFields].
    rewrite is_changed_cons. unfold is_changed in *. cbn [changedFields] in *.
    rewrite H. apply orb_true_r.
Qed.

(** An assignment of a different value sets the mark. *)
Lemma assign_marks (g : Field) (upd : Incident -> Incident) (inst : Instance) :
  is_changed (assign g false upd inst) g = true.
Proof.
  unfold assign, is_changed. cbn [changedFields existsb].
  destruct (Field_eq_dec g g); [reflexivity | congruence].
Qed.

Lemma sameb_false {A} (dec : forall a b : A, {a = b} + {a <> b}) (a b : A) :
  a <> b -> sameb dec a b = false.
Proof. intros H. unfold sameb. destruct (dec a b); [contradiction | reflexivity]. Qed.

Lemma sameb_true {A} (dec : forall a b : A, {a = b} + {a <> b}) (a : A) :
  sameb dec a a = true.
Proof. unfold sameb. destruct (dec a a); [reflexivity | congruence]. Qed.

(** Appending an entry always yields a different timeline value. *)
Lemma appended_differs (i : Incident) (e : TimelineEntry) :
  Some (timeline_or_empty i ++ [e]) <> timeline i.
Proof.
  unfold timeline_or_empty. destruct (timeline i) as [t|]; [|discriminate].
  intros H. injection H as H.
  apply (f_equal (@List.length _)) in H. rewrite length_app in H.
  simpl in H. lia.
Qed.

Lemma set_timeline_append (inst : Instance) (e : TimelineEntry) :
  set_timeline (Some (timeline_or_empty (dataValues inst) ++ [e])) inst
  = {| dataValues :=
         with_timeline (Some (timeline_or_empty (dataValues inst) ++ [e]))
           (dataValues inst);
       changedFields := F_timeline :: changedFields inst |}.
Proof.
  unfold set_timeline. rewrite sameb_false by apply appended_differs.
  reflexivity.
Qed.

Lemma riskScore_of_frame (a b : Incident) :
  hook_frame a b -> Spec.riskScore_of a = Spec.riskScore_of b.
Proof.
  intros (_ & _ & Ht & Hs & _ & Hc & Hf & Hi & _).
  unfold Spec.riskScore_of. rewrite Ht, Hs, Hc, Hf, Hi. reflexivity.
Qed.

Lemma hook_action_cases (inst : Instance) :
  hook_action inst = "UPDATED"
  \/ hook_action inst
     = ("STATUS_CHANGED_TO_" ++ Status_name (status (dataValues inst)))%string.
Proof.
  unfold hook_action. destruct (includes_field _ _); [right|left]; reflexivity.
Qed.

(** The hook on an instance with a pending change: one entry is appended,
    whose action is [UPDATED] or [STATUS_CHANGED_TO_<status>], and the risk
    score is recomputed from the attributes as they then stand. *)
Lemma beforeUpdate_changed (inst : Instance) (w : World) :
  changed inst <> [] ->
  exists inst' w',
    beforeUpdate inst w = (Ok inst', w')
    /\ timeline (dataValues inst')
       = Some (timeline_or_empty (dataValues inst)
               ++ [SaveEntry (hook_action inst) (time_at w (tick w)) (changed inst)])
    /\ risk_score (dataValues inst')
       = Some (calculateRiskScore (dataValues inst'))
    /\ hook_frame (dataValues inst) (dataValues inst')
    /\ is_changed inst' F_timeline = true
    /\ only_clock w w'.
Proof.
  intros Hne. unfold beforeUpdate, hook_action.
  destruct (changed inst) as [|f l] eqn:Hc; [congruence|].
  unfold bind at 1. unfold Date_now at 1. cbv beta iota.
  destruct (includes_field (f :: l) F_status);
    repeat first
      [ progress (unfold bind, ret, Date_now; cbv beta iota)
      | match goal with
        | |- context [(if ?c then _ else _) _] => destruct c
        end ];
    (do 2 eexists; split; [reflexivity|]);
    rewrite set_timeline_append;
    (split; [reflexivity|]);
    (split; [reflexivity|]);
    (split; [repeat split|]);
    (split; [apply assign_keeps; unfold is_changed; cbn [changedFields existsb];
             destruct (Field_eq_dec F_timeline F_timeline); [reflexivity|congruence]
            | repeat split]).
Qed.

(** With no pending change the hook does nothing. *)
Lemma beforeUpdate_unchanged (inst : Instance) (w : World) :
  changed inst = [] -> beforeUpdate inst w = (Ok inst, w).
Proof. intros H. unfold beforeUpdate. rewrite H. reflexivity. Qed.


(** [save] on an instance with a pending change. *)
Lemma save_changed (inst : Instance) (w : World) :
  changed inst <> [] ->
  exists inst' w',
    save inst w = (Ok inst', w')
    /\ timeline (dataValues inst')
       = Some (timeline_or_empty (dataValues inst)
               ++ [SaveEntry (hook_action inst) (time_at w (tick w)) (changed inst)])
    /\ risk_score (dataValues inst')
       = Some (calculateRiskScore (dataValues inst'))
    /\ hook_frame (dataValues inst) (dataValues inst')
    /\ changedFields inst' = []
    /\ fwa_incidents w'
       = rows_after_update (dataValues inst') (fwa_incidents w)
    /\ logs w' = logs w /\ redis w' = redis w.
Proof.
  intros Hne.
  destruct (beforeUpdate_changed inst w Hne)
    as (i1 & w1 & Hrun & Htl & Hrisk & Hframe & Hmark & Hw).
  unfold save, bind. rewrite Hrun.
  destruct (changed i1) as [|g l] eqn:Hc.
  - exfalso. exact (changed_nonempty _ _ Hmark Hc).
  - destruct Hw as (Hlogs & Hredis & Hrows & _ & _).
    exists {| dataValues := dataValues i1; changedFields := [] |}.
    eexists.
    split; [reflexivity|]. cbn [dataValues changedFields].
    repeat split; try assumption; try apply Hframe.
    cbn [fwa_incidents with_fwa_incidents]. rewrite Hrows. reflexivity.
Qed.

(** [beforeCreate] returns: the number is the type prefix and the time in
    base 36, the timeline holds the [REPORTED] entry alone, and the risk
    score is computed whatever value was supplied. *)
Lemma beforeCreate_spec (values : Incident) (w : World) :
  exists incident w',
    beforeCreate values w = (Ok incident, w')
    /\ incident_number incident
       = (Js.toUpperCase (Js.substring0 3 (IncidentType_name (incident_type values)))
          ++ "-" ++ Js.toUpperCase (Js.toString36 (time_at w (tick w))))%string
    /\ timeline incident
       = Some [ReportedEntry (time_at w (S (tick w)))
                 (string_or (reporter_id values) "SYSTEM")
                 (incident_type values) (detection_method values)]
    /\ risk_score incident = Some (calculateRiskScore incident)
    /\ id incident = id values
    /\ severity incident = severity values
    /\ status incident = status values
    /\ incident_type incident = incident_type values
    /\ financial_impact incident = financial_impact values
    /\ affected_count incident = affected_count values
    /\ compliance_impact incident = compliance_impact values
    /\ only_clock w w'.
Proof.
  unfold beforeCreate, bind, Date_now, ret. cbv beta iota.
  do 2 eexists. split; [reflexivity|].
  repeat split.
Qed.

(** [create]: the row is inserted with the computed score, or the unique
    index on the incident number rejects it. *)
Lemma create_spec (values : Incident) (w : World) :
  let n := generated_number (incident_type values) (time_at w (tick w)) in
  if number_taken n (fwa_incidents w) then
    exists w',
      create values w = (Throw (UniqueConstraintError "incident_number"), w')
      /\ fwa_incidents w' = fwa_incidents w
      /\ logs w' = logs w
  else
    exists inst w',
      create values w = (Ok inst, w')
      /\ incident_number (dataValues inst) = n
      /\ risk_score (dataValues inst) = Some (calculateRiskScore (dataValues inst))
      /\ Spec.riskScore_of (dataValues inst) = Spec.riskScore_of values
      /\ severity (dataValues inst) = severity values
      /\ status (dataValues inst) = status values
      /\ changedFields inst = []
      /\ fwa_incidents w' = fwa_incidents w ++ [dataValues inst]
      /\ logs w' = logs w.
Proof.
  cbv zeta. unfold create, bind.
  destruct (beforeCreate_spec (with_id (next_id w) values)
              (with_next_id (S (next_id w)) w))
    as (i & w1 & Hrun & Hnum & _ & Hrisk & _ & Hsev & Hst & Hty & Hfi & Hac & Hci
        & (Hlogs & _ & Hrows & _ & _)).
  rewrite Hrun. unfold insert_row, number_taken, generated_number.
  cbn [incident_type with_id tick time_at with_next_id] in Hnum.
  rewrite Hrows, Hnum. cbn [fwa_incidents with_next_id].
  destruct (existsb _ (fwa_incidents w)).
  - eexists. split; [reflexivity|]. split; [exact Hrows|exact Hlogs].
  - do 2 eexists. split; [reflexivity|]. cbn [dataValues changedFields].
    repeat split; try assumption.
    unfold Spec.riskScore_of. rewrite Hsev, Hty, Hfi, Hac, Hci. reflexivity.
Qed.

(** The severity computed by [escalate] is the next one, capped. *)
Lemma escalated_severity (s : Level) :
  (if sameb Level_eq_dec s LOW then MEDIUM
   else if sameb Level_eq_dec s MEDIUM then HIGH
   else CRITICAL) = Spec.next_severity s.
Proof. destruct s; reflexivity. Qed.

Lemma marked_timeline_nonempty (d : Incident) (l : list Field) :
  changed {| dataValues := d; changedFields := F_timeline :: l |} <> [].
Proof.
  apply (changed_nonempty _ F_timeline). unfold is_changed.
  cbn [changedFields existsb].
  destruct (Field_eq_dec F_timeline F_timeline); [reflexivity|congruence].
Qed.

(** [escalate] in full: the severity steps up, the method's entry and the
    hook's entry are appended in this order, the score is recomputed, the
    row is written, and the logger is not called. *)
Lemma escalate_spec (reason userId : string) (this : Instance) (w : World) :
  exists this' w' action date changes,
    escalate reason userId this w = (Ok this', w')
    /\ severity (dataValues this')
       = Spec.next_severity (severity (dataValues this))
    /\ timeline (dataValues this')
       = Some (timeline_or_empty (dataValues this)
               ++ [EscalatedEntry (time_at w (tick w)) userId reason
                     (Spec.next_severity (severity (dataValues this)));
                   SaveEntry action date changes])
    /\ (action = "UPDATED"
        \/ action = ("STATUS_CHANGED_TO_"
                     ++ Status_name (status (dataValues this)))%string)
    /\ risk_score (dataValues this')
       = Some (calculateRiskScore (dataValues this'))
    /\ status (dataValues this') = status (dataValues this)
    /\ incident_type (dataValues this') = incident_type (dataValues this)
    /\ id (dataValues this') = id (dataValues this)
    /\ fwa_incidents w'
       = rows_after_update (dataValues this') (fwa_incidents w)
    /\ logs w' = logs w.
Proof.
  unfold escalate. unfold bind at 1. unfold Date_now at 1. cbv beta iota.
  rewrite set_timeline_append.
  match goal with
  | |- context [save ?x ?w0] =>
      destruct (save_changed x w0 (marked_timeline_nonempty _ _))
        as (i1 & w1 & Hrun & Htl & Hrisk & Hframe & _ & Hrows & Hlogs & _);
      pose proof (hook_action_cases x) as Hact;
      rewrite Hrun; exists i1, w1, (hook_action x), (time_at w0 (tick w0)), (changed x)
  end.
  destruct Hframe as (Hid & _ & Hty & Hsev & Hst & _).
  cbn [dataValues set_severity assign with_timeline with_severity severity
       status incident_type id timeline timeline_or_empty] in *.
  rewrite escalated_severity in *.
  split; [reflexivity|]. split; [symmetry; exact Hsev|].
  split; [rewrite Htl, <- app_assoc; reflexivity|].
  split; [exact Hact|]. split; [exact Hrisk|].
  repeat split; try (symmetry; assumption).
  - exact Hrows.
  - exact Hlogs.
Qed.

(** [referToOIG] in full.  No status is checked: from whatever status the
    incident has, the referral fields are set, the status becomes
    [REFERRED_TO_OIG], and the two entries are appended. *)
Lemma referToOIG_spec (caseNumber userId : string) (this : Instance) (w : World) :
  exists this' w' action date changes,
    referToOIG caseNumber userId this w = (Ok this', w')
    /\ status (dataValues this') = REFERRED_TO_OIG
    /\ oig_referral (dataValues this') = true
    /\ oig_case_number (dataValues this') = Some caseNumber
    /\ regulatory_reported (dataValues this') = true
    /\ regulatory_report_date (dataValues this') = Some (time_at w (tick w))
    /\ timeline (dataValues this')
       = Some (timeline_or_empty (dataValues this)
               ++ [ReferredToOIGEntry (time_at w (S (tick w))) userId caseNumber;
                   SaveEntry action date changes])
    /\ (action = "UPDATED" \/ action = "STATUS_CHANGED_TO_REFERRED_TO_OIG")
    /\ (status (dataValues this) <> REFERRED_TO_OIG
        -> action = "STATUS_CHANGED_TO_REFERRED_TO_OIG")
    /\ risk_score (dataValues this')
       = Some (calculateRiskScore (dataValues this'))
    /\ severity (dataValues this') = severity (dataValues this)
    /\ Spec.riskScore_of (dataValues this') = Spec.riskScore_of (dataValues this)
    /\ id (dataValues this') = id (dataValues this)
    /\ fwa_incidents w'
       = rows_after_update (dataValues this') (fwa_incidents w)
    /\ logs w' = logs w.
Proof.
  unfold referToOIG. unfold bind at 1. unfold Date_now at 1. cbv beta iota.
  unfold bind at 1. unfold Date_now at 1. cbv beta iota.
  match goal with
  | |- context [set_timeline _ ?x] => set (z := x)
  end.
  assert (Hz : dataValues z
               = with_status REFERRED_TO_OIG
                   (with_regulatory_report_date (Some (time_at w (tick w)))
                      (with_regulatory_reported true
                         (with_oig_case_number (Some caseNumber)
                            (with_oig_referral true (dataValues this))))))
    by reflexivity.
  assert (Hmark : status (dataValues this) <> REFERRED_TO_OIG ->
                  is_changed z F_status = true).
  { intros Hneq. unfold z, set_status.
    rewrite sameb_false; [apply assign_marks|].
    intros E. apply Hneq. symmetry. exact E. }
  assert (Htz : timeline_or_empty (dataValues z)
                = timeline_or_empty (dataValues this))
    by (rewrite Hz; reflexivity).
  clearbody z.
  rewrite set_timeline_append, Htz.
  match goal with
  | |- context [save ?x0 ?w0] => set (x := x0); set (w2 := w0)
  end.
  destruct (save_changed x w2 (marked_timeline_nonempty _ _))
    as (i1 & w1 & Hrun & Htl & Hrisk & Hframe & _ & Hrows & Hlogs & _).
  assert (Hx : forall (A : Type) (f : Incident -> A),
             (forall v i, f (with_timeline v i) = f i) ->
             f (dataValues x)
             = f (with_status REFERRED_TO_OIG
                    (with_regulatory_report_date (Some (time_at w (tick w)))
                       (with_regulatory_reported true
                          (with_oig_case_number (Some caseNumber)
                             (with_oig_referral true (dataValues this))))))).
  { intros A f Hf. unfold x. cbn [dataValues]. rewrite Hf, Hz. reflexivity. }
  assert (Hxt : timeline_or_empty (dataValues x)
                = timeline_or_empty (dataValues this)
                  ++ [ReferredToOIGEntry (time_at w (S (tick w))) userId caseNumber])
    by reflexivity.
  pose proof (hook_action_cases x) as Hact.
  rewrite (Hx _ status) in Hact by reflexivity.
  assert (Hst' : status (dataValues this) <> REFERRED_TO_OIG ->
                 hook_action x = "STATUS_CHANGED_TO_REFERRED_TO_OIG").
  { intros Hneq. unfold hook_action.
    assert (Hin : includes_field (changed x) F_status = true).
    { unfold includes_field. apply existsb_exists. exists F_status.
      split; [|destruct (Field_eq_dec F_status F_status); [reflexivity|congruence]].
      apply changed_In. unfold x. rewrite is_changed_cons. apply orb_true_iff.
      right. exact (Hmark Hneq). }
    rewrite Hin, (Hx _ status) by reflexivity. reflexivity. }
  pose proof (riskScore_of_frame Hframe) as Hscore.
  rewrite (Hx _ Spec.riskScore_of) in Hscore by reflexivity.
  destruct Hframe as (Hid & _ & _ & Hsev & Hst & _ & _ & _ & Hoig & Hcase & Hrep & Hdate).
  rewrite (Hx _ id) in Hid by reflexivity.
  rewrite (Hx _ severity) in Hsev by reflexivity.
  rewrite (Hx _ status) in Hst by reflexivity.
  rewrite (Hx _ oig_referral) in Hoig by reflexivity.
  rewrite (Hx _ oig_case_number) in Hcase by reflexivity.
  rewrite (Hx _ regulatory_reported) in Hrep by reflexivity.
  rewrite (Hx _ regulatory_report_date) in Hdate by reflexivity.
  rewrite Hxt in Htl.
  rewrite Hrun.
  exists i1, w1, (hook_action x), (time_at w2 (tick w2)), (changed x).
  split; [reflexivity|].
  split; [symmetry; exact Hst|]. split; [symmetry; exact Hoig|].
  split; [symmetry; exact Hcase|]. split; [symmetry; exact Hrep|].
  split; [symmetry; exact Hdate|].
  split; [rewrite Htl, <- app_assoc; reflexivity|].
  split; [exact Hact|]. split; [exact Hst'|]. split; [exact Hrisk|].
  split; [symmetry; exact Hsev|].
  split; [symmetry; exact Hscore|].
  split; [symmetry; exact Hid|].
  split; [exact Hrows|exact Hlogs].
Qed.

(** *** The risk score is a function of the current attributes *)



(** *** Status transitions *)

(** C2, as the code has it.  [referToOIG] consults no state table: from
    every status, terminal ones included, the call returns the saved
    incident with status [REFERRED_TO_OIG] and the referral fields set, the
    timeline two entries longer, and the risk score still on the formula of
    the unchanged scoring attributes. *)
Theorem referToOIG_checks_no_transition :
  forall (caseNumber userId : string) (this : Instance) (w : World),
  exists this' w',
    referToOIG caseNumber userId this w = (Ok this', w')
    /\ status (dataValues this') = REFERRED_TO_OIG
    /\ oig_referral (dataValues this') = true
    /\ oig_case_number (dataValues this') = Some caseNumber
    /\ regulatory_reported (dataValues this') = true
    /\ List.length (timeline_or_empty (dataValues this'))
       = (List.length (timeline_or_empty (dataValues this)) + 2)%nat
    /\ risk_score (dataValues this') = Some (Spec.riskScore_of (dataValues this)).
Proof.
  intros caseNumber userId this w.
  destruct (referToOIG_spec caseNumber userId this w)
    as (this' & w' & action & date & changes & Hrun & Hst & Hoig & Hcase & Hrep & _
        & Htl & _ & _ & Hrisk & _ & Hscore & _).
  exists this', w'. split; [exact Hrun|].
  repeat split; try assumption.
  - unfold timeline_or_empty at 1. rewrite Htl, length_app. reflexivity.
  - rewrite Hrisk, calculateRiskScore_formula, Hscore. reflexivity.
Qed.

(** C2, as stated, fails: referring a RESOLVED incident to the OIG is not in
    the state table, yet the call succeeds, the status changes, and the
    timeline grows from one entry to three. *)
Lemma referToOIG_accepts_resolved_incident :
  let this := Sample.loaded FRAUD HIGH RESOLVED in
  exists this' w',
    Spec.allowed_transition (status (dataValues this)) REFERRED_TO_OIG = false
    /\ referToOIG "OIG-2024-0042" "officer-3" this (Sample.world_with this)
       = (Ok this', w')
    /\ status (dataValues this) = RESOLVED
    /\ status (dataValues this') = REFERRED_TO_OIG
    /\ List.length (timeline_or_empty (dataValues this)) = 1%nat
    /\ List.length (timeline_or_empty (dataValues this')) = 3%nat.
Proof.
  cbv zeta. do 2 eexists.
  split; [reflexivity|]. split; [vm_compute; reflexivity|].
  repeat split.
Qed.

(** *** Escalation *)

(** C6, as the code has it.  [escalate] moves the severity one level up
    along LOW, MEDIUM, HIGH, CRITICAL and leaves CRITICAL in place; in every
    case it appends an [ESCALATED] entry, which records the time, the user,
    the reason and the new severity; the hook then recomputes the risk score
    from the new severity. *)
Theorem escalate_steps_severity_and_logs_new :
  forall (reason userId : string) (this : Instance) (w : World),
  exists this' w' rest,
    escalate reason userId this w = (Ok this', w')
    /\ severity (dataValues this') = Spec.next_severity (severity (dataValues this))
    /\ timeline (dataValues this')
       = Some (timeline_or_empty (dataValues this)
               ++ EscalatedEntry (time_at w (tick w)) userId reason
                    (Spec.next_severity (severity (dataValues this)))
                  :: rest)
    /\ risk_score (dataValues this') = Some (Spec.riskScore_of (dataValues this')).
Proof.
  intros reason userId this w.
  destruct (escalate_spec reason userId this w)
    as (this' & w' & action & date & changes & Hrun & Hsev & Htl & _ & Hrisk & _).
  exists this', w', [SaveEntry action date changes].
  split; [exact Hrun|]. split; [exact Hsev|]. split; [exact Htl|].
  rewrite Hrisk, calculateRiskScore_formula. reflexivity.
Qed.

(** C6, as stated, fails on its last clause: the [ESCALATED] entry holds no
    old severity.  Escalating a HIGH incident and escalating a CRITICAL one
    write the very same entry. *)
Lemma escalated_entry_omits_old_severity :
  let a := Sample.loaded FRAUD HIGH REPORTED in
  let b := Sample.loaded FRAUD CRITICAL REPORTED in
  exists a' wa b' wb e,
    escalate "pattern confirmed" "officer-3" a (Sample.world_with a) = (Ok a', wa)
    /\ escalate "pattern confirmed" "officer-3" b (Sample.world_with b) = (Ok b', wb)
    /\ severity (dataValues a) = HIGH
    /\ severity (dataValues b) = CRITICAL
    /\ nth_error (timeline_or_empty (dataValues a')) 1 = Some e
    /\ nth_error (timeline_or_empty (dataValues b')) 1 = Some e
    /\ e = EscalatedEntry 1700000000000 "officer-3" "pattern confirmed" CRITICAL.
Proof.
  cbv zeta. do 5 eexists.
  split; [vm_compute; reflexivity|].
  split; [vm_compute; reflexivity|].
  repeat split.
Qed.

(** *** Timeline entries of the lifecycle methods *)

(** C10. A call of [escalate] or [referToOIG] returns, and the timeline of
    the saved incident is the old timeline followed by exactly two entries:
    the method's own ([ESCALATED] or [REFERRED_TO_OIG]) and the one of the
    [beforeUpdate] hook, whose action is [UPDATED] or
    [STATUS_CHANGED_TO_<status>]; the stored risk score is the formula on
    the attributes after the method's changes. *)
Theorem lifecycle_methods_append_two_entries :
  (forall (reason userId : string) (this : Instance) (w : World),
    exists this' w' e1 e2,
      escalate reason userId this w = (Ok this', w')
      /\ timeline (dataValues this')
         = Some (timeline_or_empty (dataValues this) ++ [e1; e2])
      /\ entry_action e1 = "ESCALATED"
      /\ (entry_action e2 = "UPDATED"
          \/ entry_action e2
             = ("STATUS_CHANGED_TO_" ++ Status_name (status (dataValues this')))%string)
      /\ severity (dataValues this') = Spec.next_severity (severity (dataValues this))
      /\ risk_score (dataValues this') = Some (Spec.riskScore_of (dataValues this')))
  /\ (forall (caseNumber userId : string) (this : Instance) (w : World),
       exists this' w' e1 e2,
         referToOIG caseNumber userId this w = (Ok this', w')
         /\ timeline (dataValues this')
            = Some (timeline_or_empty (dataValues this) ++ [e1; e2])
         /\ entry_action e1 = "REFERRED_TO_OIG"
         /\ (entry_action e2 = "UPDATED"
             \/ entry_action e2
                = ("STATUS_CHANGED_TO_" ++ Status_name (status (dataValues this')))%string)
         /\ status (dataValues this') = REFERRED_TO_OIG
         /\ risk_score (dataValues this') = Some (Spec.riskScore_of (dataValues this'))).
Proof.
  split.
  - intros reason userId this w.
    destruct (escalate_spec reason userId this w)
      as (this' & w' & action & date & changes & Hrun & Hsev & Htl & Hact & Hrisk
          & Hst & _).
    eexists this', w', _, _. split; [exact Hrun|]. split; [exact Htl|].
    split; [reflexivity|]. split; [rewrite Hst; exact Hact|].
    split; [exact Hsev|].
    rewrite Hrisk, calculateRiskScore_formula. reflexivity.
  - intros caseNumber userId this w.
    destruct (referToOIG_spec caseNumber userId this w)
      as (this' & w' & action & date & changes & Hrun & Hst & _ & _ & _ & _
          & Htl & Hact & _ & Hrisk & _).
    eexists this', w', _, _. split; [exact Hrun|]. split; [exact Htl|].
    split; [reflexivity|]. split; [rewrite Hst; exact Hact|].
    split; [exact Hst|].
    rewrite Hrisk, calculateRiskScore_formula. reflexivity.
Qed.

(** *** Incident numbers *)

(** The number is derived from the type and the creation time alone. *)
Lemma incident_number_from_type_and_time (values : Incident) (w : World) :
  forall inst w',
    create values w = (Ok inst, w') ->
    incident_number (dataValues inst)
    = generated_number (incident_type values) (time_at w (tick w)).
Proof.
  intros inst w' Hrun. pose proof (create_spec values w) as H. cbv zeta in H.
  destruct (number_taken _ (fwa_incidents w)).
  - destruct H as (w1 & Hthrow & _). rewrite Hthrow in Hrun. discriminate.
  - destruct H as (i1 & w1 & Hok & Hnum & _). rewrite Hok in Hrun.
    injection Hrun as <- <-. exact Hnum.
Qed.

(** The unique index keeps the stored numbers pairwise distinct. *)
Lemma create_keeps_numbers_distinct (values : Incident) (w : World) :
  NoDup (map incident_number (fwa_incidents w)) ->
  forall r w', create values w = (r, w') ->
  NoDup (map incident_number (fwa_incidents w')).
Proof.
  intros Hnd r w' Hrun. pose proof (create_spec values w) as H. cbv zeta in H.
  destruct (number_taken _ (fwa_incidents w)) eqn:Htaken.
  - destruct H as (w1 & Hthrow & Hrows & _). rewrite Hthrow in Hrun.
    injection Hrun as _ <-. rewrite Hrows. exact Hnd.
  - destruct H as (i1 & w1 & Hok & Hnum & _ & _ & _ & _ & _ & Hrows & _).
    rewrite Hok in Hrun. injection Hrun as _ <-.
    rewrite Hrows, map_app. cbn [map].
    apply NoDup_app; [exact Hnd | repeat constructor; intros [] |].
    intros n Hin [Heq|[]]. subst n. rewrite Hnum in Hin.
    apply in_map_iff in Hin. destruct Hin as (r0 & Heq & Hin).
    assert (Hex : number_taken
                    (generated_number (incident_type values) (time_at w (tick w)))
                    (fwa_incidents w) = true).
    { unfold number_taken. apply existsb_exists. exists r0. split; [exact Hin|].
      destruct (string_dec _ _); [reflexivity|contradiction]. }
    rewrite Hex in Htaken. discriminate.
Qed.

(** C9 fails on the code at two reports of one type within one
    millisecond: both are given the number FRA-LOYW3V28, and the unique
    index rejects the second report. *)
Lemma same_millisecond_same_number :
  let first := Sample.report FRAUD HIGH REPORTED in
  let second := Sample.report FRAUD LOW REPORTED in
  exists a w1 i1 i2 wa wb w2,
    beforeCreate first Sample.frozen_world = (Ok i1, wa)
    /\ beforeCreate second wa = (Ok i2, wb)
    /\ incident_number i1 = "FRA-LOYW3V28"
    /\ incident_number i2 = "FRA-LOYW3V28"
    /\ create first Sample.frozen_world = (Ok a, w1)
    /\ create second w1 = (Throw (UniqueConstraintError "incident_number"), w2).
Proof.
  cbv zeta. do 7 eexists.
  split; [vm_compute; reflexivity|].
  split; [vm_compute; reflexivity|].
  split; [reflexivity|]. split; [reflexivity|].
  split; [vm_compute; reflexivity|].
  vm_compute; reflexivity.
Qed.

End Lifecycle.

(** ** Transcript analysis *)

Section Detection.

Import FWADetectionService Facts.

Variable E : Type.
Variable lib : Collaborators E.

(** The loop of [Math.max] over the patterns, from any start value. *)
Lemma fold_max_spec (l : list Pattern) (acc : float) :
  is_nan acc = false ->
  (forall p, In p l -> is_nan (confidence p) = false) ->
  let r := fold_left (fun pc pattern => Js.Math_max pc (confidence pattern)) l acc in
  is_nan r = false
  /\ (acc <=? r)%float = true
  /\ (forall p, In p l -> (confidence p <=? r)%float = true)
  /\ (r = acc \/ exists p, In p l /\ confidence p = r).
Proof.
  revert acc. induction l as [|x l IH]; intros acc Hacc Hl; cbn [fold_left].
  - split; [exact Hacc|]. split; [apply leb_refl; exact Hacc|].
    split; [intros p []|left; reflexivity].
  - assert (Hx : is_nan (confidence x) = false) by (apply Hl; left; reflexivity).
    destruct (@Math_max_upper acc (confidence x) Hacc Hx) as [Hup1 Hup2].
    assert (Hm : is_nan (Js.Math_max acc (confidence x)) = false)
      by (destruct (@Math_max_cases acc (confidence x) Hacc Hx) as [-> | ->];
          assumption).
    destruct (IH (Js.Math_max acc (confidence x)) Hm
                (fun p Hp => Hl p (or_intror Hp)))
      as (Hr & Hle & Hall & Hwho).
    split; [exact Hr|].
    split; [exact (@leb_trans _ _ _ Hacc Hm Hr Hup1 Hle)|].
    split.
    + intros p [<- | Hp]; [|exact (Hall p Hp)].
      exact (@leb_trans _ _ _ Hx Hm Hr Hup2 Hle).
    + destruct Hwho as [Heq | (p & Hp & Heq)].
      * destruct (@Math_max_cases acc (confidence x) Hacc Hx) as [Hc | Hc].
        -- left. rewrite Heq. exact Hc.
        -- right. exists x. split; [left; reflexivity|]. rewrite Heq. symmetry. exact Hc.
      * right. exists p. split; [right; exact Hp|exact Heq].
Qed.

(** On positive confidences the loop computes the maximum, and 0 on no
    pattern. *)
Lemma patternConfidence_max (patterns : list Pattern) :
  (forall p, In p patterns ->
             is_nan (confidence p) = false /\ (0 <? confidence p)%float = true) ->
  Spec.max_confidence patterns (patternConfidence patterns).
Proof.
  intros Hall. destruct patterns as [|x l]; [reflexivity|].
  unfold Spec.max_confidence, patternConfidence.
  destruct (@fold_max_spec (x :: l) 0%float eq_refl (fun p Hp => proj1 (Hall p Hp)))
    as (Hr & _ & Hle & Hwho).
  destruct Hwho as [Heq | (p & Hp & Heq)].
  - exfalso. destruct (Hall x (or_introl eq_refl)) as [Hx Hpos].
    pose proof (Hle x (or_introl eq_refl)) as Hx0. rewrite Heq in Hx0.
    exact (@ltb_not_leb 0%float (confidence x) eq_refl Hx Hpos Hx0).
  - exists p. split; [exact Hp|]. split; [exact Heq|exact Hle].
Qed.

(** The confidence of a keyword finding, for every possible count. *)
Lemma keyword_confidence_positive (k : nat) :
  (0 < k <= 18)%nat ->
  is_nan (Js.Math_min 0.9 (Js.of_nat k * 0.2)) = false
  /\ (0 <? Js.Math_min 0.9 (Js.of_nat k * 0.2))%float = true.
Proof.
  intros [Hlo Hhi].
  destruct k as [|k]; [lia|].
  do 18 (destruct k as [|k]; [split; vm_compute; reflexivity|]).
  lia.
Qed.

(** Every finding of the pattern matcher has a positive confidence. *)
Lemma analyzeText_confidences (text : string) (p : Pattern) :
  In p (analyzeText lib text) ->
  is_nan (confidence p) = false /\ (0 <? confidence p)%float = true.
Proof.
  unfold analyzeText.
  set (n := List.length (filter _ fraudKeywords)).
  assert (Hn : (n <= 18)%nat).
  { unfold n. etransitivity; [apply filter_length_le|]. reflexivity. }
  assert (Hregex : forall l,
             In p (flat_map
                     (fun entry : string * list string =>
                        let '(category, regexes) := entry in
                        flat_map
                          (fun regex =>
                             if regex_test lib regex text
                             then [RegexMatch category regex 0.85]
                             else []) regexes) l) ->
             is_nan (confidence p) = false /\ (0 <? confidence p)%float = true).
  { intros l Hin. apply in_flat_map in Hin. destruct Hin as ([c rs] & _ & Hin).
    apply in_flat_map in Hin. destruct Hin as (r & _ & Hin).
    destruct (regex_test lib r text); [|destruct Hin].
    destruct Hin as [<- | []]. split; reflexivity. }
  destruct (0 <? n)%nat eqn:Hpos.
  - intros Hin. apply in_app_or in Hin. destruct Hin as [Hin | [<- | []]].
    + exact (Hregex _ Hin).
    + apply keyword_confidence_positive. apply Nat.ltb_lt in Hpos. lia.
  - exact (Hregex _).
Qed.


(** A run of [analyzeCallTranscript]: when the tokenizer, the sentiment
    analyzer and the feature extraction answer, the analysis is returned and
    cached; when one of them throws, the error is logged and thrown on. *)
Lemma analyzeCallTranscript_run (transcript : string) (metadata : CallMetadata)
    (w : World) :
  match run_extractors lib transcript with
  | Ok (sentiment, features) =>
      exists analysis w',
        analyzeCallTranscript lib transcript metadata w = (Ok analysis, w')
        /\ call_patterns analysis = analyzeText lib transcript
        /\ call_confidence analysis
           = Js.Math_min 1
               (patternConfidence (analyzeText lib transcript) * 0.5
                + cls_confidence (classifyText features) * 0.4
                + sentimentImpact sentiment)%float
        /\ call_riskLevel analysis = determineRiskLevel (call_confidence analysis)
        /\ call_indicators analysis
           = generateIndicators (analyzeText lib transcript) sentiment
               (classifyText features)
        /\ call_recommendations analysis = generateRecommendations analysis
        /\ call_metadata analysis = metadata
        /\ analyzedAt analysis = time_at w (tick w)
        /\ textLength analysis = String.length transcript
        /\ redis w' = (cache_key metadata, (analysis, 3600)) :: redis w
        /\ time_at w' = time_at w
        /\ tick w' = S (tick w)
        /\ fwa_incidents w' = fwa_incidents w
  | Throw e =>
      exists w',
        analyzeCallTranscript lib transcript metadata w = (Throw e, w')
        /\ last (logs w') (error_line "" e)
           = error_line "Error analyzing call transcript:" e
        /\ redis w' = redis w
        /\ fwa_incidents w' = fwa_incidents w
  end.
Proof.
  cbv [run_extractors analyzeCallTranscript try_catch bind lift logger_info
       logger_error log_line Date_now setWithExpiry ret throw].
  destruct (tokenize lib (preprocessText transcript)) as [tokens|e];
    cbv beta iota;
    [destruct (getSentiment lib tokens) as [sentiment|e]; cbv beta iota;
     [destruct (extractTextFeatures lib (preprocessText transcript))
        as [features|e]; cbv beta iota |] |].
  - do 2 eexists. split; [exact eq_refl|].
    cbn [call_patterns call_confidence call_riskLevel call_indicators
         call_recommendations call_metadata analyzedAt textLength
         redis time_at tick fwa_incidents with_logs with_redis with_tick].
    do 4 (split; [exact eq_refl|]).
    split.
    { unfold generateRecommendations.
      cbn [call_riskLevel call_patterns call_confidence]. exact eq_refl. }
    do 6 (split; [exact eq_refl|]). exact eq_refl.
  - eexists. split; [exact eq_refl|].
    cbn [logs with_logs with_tick redis fwa_incidents].
    split; [apply last_last|]. split; exact eq_refl.
  - eexists. split; [exact eq_refl|].
    cbn [logs with_logs with_tick redis fwa_incidents].
    split; [apply last_last|]. split; exact eq_refl.
  - eexists. split; [exact eq_refl|].
    cbn [logs with_logs with_tick redis fwa_incidents].
    split; [apply last_last|]. split; exact eq_refl.
Qed.

(** A run of [analyzeEnrollmentActivity]: a helper that throws makes the
    analysis log the error and throw it on. *)
Lemma analyzeEnrollmentActivity_throws (enrollmentData : E) (w : World) (e : Error) :
  run_enrollment_extractors lib enrollmentData = Throw e ->
  exists w',
    analyzeEnrollmentActivity lib enrollmentData w = (Throw e, w')
    /\ last (logs w') (error_line "" e)
       = error_line "Error analyzing enrollment activity:" e
    /\ redis w' = redis w
    /\ fwa_incidents w' = fwa_incidents w.
Proof.
  cbv [run_enrollment_extractors analyzeEnrollmentActivity try_catch bind lift
       logger_info logger_error log_line ret throw].
  destruct (detectConsentViolations lib enrollmentData) as [cv|e1]; cbv beta iota;
    [destruct (assessIdentityRisks lib enrollmentData) as [ir|e2]; cbv beta iota;
     [destruct (detectSuspiciousEnrollmentPatterns lib enrollmentData) as [sa|e3];
      cbv beta iota |] |];
    intros H; try discriminate H; injection H as ->;
    (eexists; split; [exact eq_refl|];
     cbn [logs with_logs redis fwa_incidents];
     split; [apply last_last|]; split; exact eq_refl).
Qed.

(** *** Confidence fusion *)

(** C3. When the tokenizer, the sentiment analyzer and the feature
    extraction answer, [analyzeCallTranscript] returns an analysis whose
    confidence is min(1.0, 0.5 * patternConfidence + 0.4 *
    classificationConfidence + sentimentBias), where patternConfidence is the
    maximum confidence over the pattern findings (0 if there is none),
    sentimentBias is 0.2 when sentiment < -0.3 and 0 otherwise, and whose
    risk level is CRITICAL from 0.9, HIGH from 0.8, MEDIUM from 0.6, and LOW
    below. *)
Theorem call_confidence_fusion :
  forall (transcript : string) (metadata : CallMetadata) (w : World)
         (sentiment : float) (features : list float),
    run_extractors lib transcript = Ok (sentiment, features) ->
    exists analysis w' pc,
      analyzeCallTranscript lib transcript metadata w = (Ok analysis, w')
      /\ Spec.max_confidence (call_patterns analysis) pc
      /\ call_confidence analysis
         = Spec.overall pc (cls_confidence (classifyText features))
             (Spec.sentimentBias sentiment)
      /\ call_riskLevel analysis = Spec.riskLevel (call_confidence analysis).
Proof.
  intros transcript metadata w sentiment features Hext.
  pose proof (analyzeCallTranscript_run transcript metadata w) as Hrun.
  rewrite Hext in Hrun.
  destruct Hrun as (analysis & w' & Hrun & Hpat & Hconf & Hlevel & _).
  exists analysis, w', (patternConfidence (analyzeText lib transcript)).
  split; [exact Hrun|]. split.
  - rewrite Hpat. apply patternConfidence_max.
    intros p Hp. exact (analyzeText_confidences transcript p Hp).
  - split.
    + rewrite Hconf. unfold Spec.overall.
      rewrite (mul_comm 0.5 (patternConfidence (analyzeText lib transcript))).
      rewrite (mul_comm 0.4 (cls_confidence (classifyText features))).
      exact eq_refl.
    + rewrite Hlevel. exact eq_refl.
Qed.

(** *** Failing extractors *)

(** C5, as the code has it.  When a step of an analysis throws (the
    tokenizer, the sentiment analyzer or the feature extraction of a call
    analysis; a helper of an enrollment analysis), the analysis writes an
    error line and throws the same error to its caller; nothing is cached. *)
Theorem extractor_failure_is_rethrown :
  (forall (transcript : string) (metadata : CallMetadata) (w : World) (e : Error),
      run_extractors lib transcript = Throw e ->
      exists w',
        analyzeCallTranscript lib transcript metadata w = (Throw e, w')
        /\ last (logs w') (error_line "" e)
           = error_line "Error analyzing call transcript:" e
        /\ redis w' = redis w)
  /\ (forall (enrollmentData : E) (w : World) (e : Error),
        run_enrollment_extractors lib enrollmentData = Throw e ->
        exists w',
          analyzeEnrollmentActivity lib enrollmentData w = (Throw e, w')
          /\ last (logs w') (error_line "" e)
             = error_line "Error analyzing enrollment activity:" e
          /\ redis w' = redis w).
Proof.
  split.
  - intros transcript metadata w e Hext.
    pose proof (analyzeCallTranscript_run transcript metadata w) as Hrun.
    rewrite Hext in Hrun. destruct Hrun as (w' & Hrun & Hlog & Hredis & _).
    exists w'. split; [exact Hrun|]. split; [exact Hlog|exact Hredis].
  - intros enrollmentData w e Hext.
    destruct (analyzeEnrollmentActivity_throws enrollmentData w Hext)
      as (w' & Hrun & Hlog & Hredis & _).
    exists w'. split; [exact Hrun|]. split; [exact Hlog|exact Hredis].
Qed.

(** *** Repeated analysis *)


End Detection.

(** ** Incident reporting and the critical alert *)

Section Reporting.

Import FWAIncident FWADetectionService Facts.

Variable E : Type.
Variable lib : Collaborators E.

(** One more log line: the alert count moves by one on an alert line only. *)
Lemma alerts_logged (w w0 : World) (l : LogLine) :
  logs w0 = logs w ->
  alerts (with_logs (logs w0 ++ [l]) w0)
  = (alerts w + (if is_alert l then 1 else 0))%nat.
Proof.
  intros H. unfold alerts. cbn [logs with_logs].
  rewrite filter_app, length_app, H. cbn [filter].
  destruct (is_alert l); exact eq_refl.
Qed.

Lemma alerts_quiet (w w0 : World) (l : LogLine) :
  logs w0 = logs w -> is_alert l = false ->
  alerts (with_logs (logs w0 ++ [l]) w0) = alerts w.
Proof.
  intros H Hl. rewrite (@alerts_logged w w0 l H), Hl. apply Nat.add_0_r.
Qed.

(** *** The critical alert *)

(** C7, as the code has it.  [escalate] does not invoke the critical alert
    path: a call that moves the severity up to CRITICAL raises no alert, and
    neither does a repeated call while the severity is already CRITICAL.
    Every call succeeds and steps the severity along LOW, MEDIUM, HIGH,
    CRITICAL. *)
Theorem escalate_raises_no_alert :
  forall (reason userId : string) (this : Instance) (w : World),
    exists this' w',
      escalate reason userId this w = (Ok this', w')
      /\ severity (dataValues this')
         = Spec.next_severity (severity (dataValues this))
      /\ alerts w' = alerts w.
Proof.
  intros reason userId this w.
  destruct (escalate_spec reason userId this w)
    as (this' & w' & action & date & changes & Hrun & Hsev & _ & _ & _ & _ & _ & _
        & _ & Hlogs).
  exists this', w'. split; [exact Hrun|]. split; [exact Hsev|].
  unfold alerts. rewrite Hlogs. exact eq_refl.
Qed.

(** *** The billing example *)

(** C4, as the code has it.  For the batch [100, 100, 105, 98, 100, 5000]
    the anomaly detector flags no statistical outlier: every z-score is
    below 3, the one of the 5000 item lying between 2.2 and 2.3.  The
    pattern detector reports the repeated amount as one DUPLICATE_AMOUNTS
    finding with count 2 and confidence 0.8. *)
Theorem billing_example_analysis :
  let stats := calculateBillingStatistics Sample.billing_batch in
  detectBillingAnomalies Sample.billing_batch stats = []
  /\ (forall bill, In bill Sample.billing_batch ->
        (bill_zScore stats bill <? 3)%float = true)
  /\ (2.2 <? bill_zScore stats {| bill_id := "b6"; amount := 5000 |})%float = true
  /\ (bill_zScore stats {| bill_id := "b6"; amount := 5000 |} <? 2.3)%float = true
  /\ detectBillingPatterns Sample.billing_batch
     = [DuplicateAmounts 2 0.8 "Multiple bills with identical amounts detected"].
Proof.
  cbv zeta. split; [vm_compute; exact eq_refl|].
  split.
  { intros bill Hin. unfold Sample.billing_batch in Hin. cbn [In] in Hin.
    repeat (destruct Hin as [<- | Hin]; [vm_compute; exact eq_refl|]).
    destruct Hin. }
  split; [vm_compute; exact eq_refl|].
  split; vm_compute; exact eq_refl.
Qed.

End Reporting.

(** ** The statements on concrete inputs *)

Section Checks.

Import FWAIncident FWADetectionService Facts.

(** C3 on the transcript "ghost patient ... duplicate claims" with neutral
    sentiment. *)
Lemma call_confidence_fusion_witness :
  exists sentiment features,
    run_extractors Sample.lib Sample.transcript = Ok (sentiment, features)
    /\ exists analysis w' pc,
         analyzeCallTranscript Sample.lib Sample.transcript Sample.call_info
           Sample.ticking_world = (Ok analysis, w')
         /\ Spec.max_confidence (call_patterns analysis) pc
         /\ call_confidence analysis
            = Spec.overall pc (cls_confidence (classifyText features))
                (Spec.sentimentBias sentiment)
         /\ call_riskLevel analysis = Spec.riskLevel (call_confidence analysis).
Proof.
  do 2 eexists. split.
  - vm_compute. exact eq_refl.
  - apply (@call_confidence_fusion unit Sample.lib Sample.transcript Sample.call_info
             Sample.ticking_world).
    vm_compute. exact eq_refl.
Defined.

(** The two billing phrases give pattern confidence 0.85; with no
    classification and neutral sentiment the confidence is 0.425, at LOW. *)
Lemma ghost_patient_example :
  exists analysis w',
    analyzeCallTranscript Sample.lib Sample.transcript Sample.call_info
      Sample.ticking_world = (Ok analysis, w')
    /\ patternConfidence (call_patterns analysis) = 0.85%float
    /\ call_confidence analysis = 0.425%float
    /\ call_riskLevel analysis = LOW
    /\ determineIncidentType (call_patterns analysis) = BILLING_IRREGULARITY.
Proof.
  do 2 eexists. split; [vm_compute; exact eq_refl|].
  repeat split; vm_compute; exact eq_refl.
Qed.

(** C4 as stated fails on the batch: no outlier is flagged (the z-score of
    the 5000 item is below 3), the duplicate finding counts 2 items, and the
    incident type that the findings resolve to is SUSPICIOUS_ACTIVITY.  The
    analysis itself returns no result: it fails on the recommendation helper
    that the class does not define. *)
Lemma billing_example_flags_no_outlier :
  let stats := calculateBillingStatistics Sample.billing_batch in
  detectBillingAnomalies Sample.billing_batch stats = []
  /\ (bill_zScore stats {| bill_id := "b6"; amount := 5000 |} <? 3)%float = true
  /\ detectBillingPatterns Sample.billing_batch
     = [DuplicateAmounts 2 0.8 "Multiple bills with identical amounts detected"]
  /\ determineIncidentType (detectBillingPatterns Sample.billing_batch)
     = SUSPICIOUS_ACTIVITY
  /\ exists w',
       analyzeBillingPattern Sample.billing_batch Sample.ticking_world
       = (Throw (TypeError "this.generateBillingRecommendations is not a function"),
          w').
Proof.
  cbv zeta. split; [vm_compute; exact eq_refl|].
  split; [vm_compute; exact eq_refl|].
  split; [vm_compute; exact eq_refl|].
  split; [vm_compute; exact eq_refl|].
  eexists. vm_compute. exact eq_refl.
Qed.

(** C5 as stated fails: with the sentiment analyzer unavailable, the call
    analysis returns no result although the pattern matcher has findings;
    with the identity helper missing, the enrollment analysis returns none
    either.  In both cases the caller receives the error. *)
Lemma failed_extractor_aborts_analysis :
  exists w1 w2,
    analyzeCallTranscript Sample.lib_without_sentiment Sample.transcript
      Sample.call_info Sample.ticking_world
    = (Throw (ExternalError "sentiment analyzer unavailable"), w1)
    /\ List.length (analyzeText Sample.lib_without_sentiment Sample.transcript) = 3%nat
    /\ analyzeEnrollmentActivity Sample.lib_without_identity_helper tt
         Sample.ticking_world
       = (Throw (TypeError "this.assessIdentityRisks is not a function"), w2).
Proof.
  do 2 eexists. split; [vm_compute; exact eq_refl|].
  split; [vm_compute; exact eq_refl|]. vm_compute. exact eq_refl.
Qed.

Lemma extractor_failure_is_rethrown_witness :
  run_extractors Sample.lib_without_sentiment Sample.transcript
  = Throw (ExternalError "sentiment analyzer unavailable")
  /\ exists w',
       analyzeCallTranscript Sample.lib_without_sentiment Sample.transcript
         Sample.call_info Sample.ticking_world
       = (Throw (ExternalError "sentiment analyzer unavailable"), w')
       /\ redis w' = redis Sample.ticking_world.
Proof.
  split; [vm_compute; exact eq_refl|].
  destruct (proj1 (@extractor_failure_is_rethrown unit Sample.lib_without_sentiment)
              Sample.transcript Sample.call_info Sample.ticking_world
              (ExternalError "sentiment analyzer unavailable"))
    as (w' & Hrun & _ & Hredis).
  - vm_compute. exact eq_refl.
  - exists w'. split; [exact Hrun|exact Hredis].
Defined.

(** C7 as stated fails: escalating a HIGH incident moves it to CRITICAL and
    no alert is raised. *)
Lemma escalation_to_critical_raises_no_alert :
  let this := Sample.loaded FRAUD HIGH REPORTED in
  exists this' w',
    escalate "pattern confirmed" "officer-3" this (Sample.world_with this)
    = (Ok this', w')
    /\ severity (dataValues this) = HIGH
    /\ severity (dataValues this') = CRITICAL
    /\ alerts (Sample.world_with this) = 0%nat
    /\ alerts w' = 0%nat.
Proof.
  cbv zeta. do 2 eexists. split; [vm_compute; exact eq_refl|].
  repeat split.
Qed.



End Checks.

(** ** Further properties of the model *)

Section LifecycleInvariants.

Import FWAIncident Facts.

(** The score of any incident lies between 15 (LOW, WASTE, nothing else) and
    100. *)
Theorem calculateRiskScore_bounds (i : Incident) :
  15 <= calculateRiskScore i <= 100.
Proof.
  rewrite calculateRiskScore_formula.
  unfold Spec.riskScore_of, Spec.riskScore.
  match goal with
  | |- context [Spec.financialBand ?x] =>
      pose proof (weights_nonneg (severity i) (incident_type i) x (affected_count i))
        as (_ & _ & H3 & H4)
  end.
  assert (H1 : 10 <= Spec.severityWeight (severity i))
    by (destruct (severity i); cbn; lia).
  assert (H2 : 5 <= Spec.typeWeight (incident_type i))
    by (destruct (incident_type i); cbn; lia).
  repeat match goal with
         | |- context [Z.b2z ?b] =>
             let H := fresh in
             assert (H : 0 <= Z.b2z b) by (destruct b; simpl; lia);
             generalize dependent (Z.b2z b); intros
         end.
  lia.
Qed.

(** The formula never decreases when the severity steps up. *)
Lemma riskScore_of_next_severity (i : Incident) :
  Spec.riskScore_of i
  <= Spec.riskScore_of (with_severity (Spec.next_severity (severity i)) i).
Proof.
  unfold Spec.riskScore_of, Spec.riskScore. cbn [with_severity severity incident_type
    financial_impact affected_count compliance_impact].
  assert (H : Spec.severityWeight (severity i)
              <= Spec.severityWeight (Spec.next_severity (severity i)))
    by (destruct (severity i); cbn; lia).
  apply Z.min_le_compat_l. lia.
Qed.

(** [escalate] never lowers the stored risk score below the formula value of
    the incident it was called on. *)
Theorem escalate_never_lowers_score :
  forall (reason userId : string) (this : Instance) (w : World),
  exists this' w' score,
    escalate reason userId this w = (Ok this', w')
    /\ risk_score (dataValues this') = Some score
    /\ calculateRiskScore (dataValues this) <= score.
Proof.
  intros reason userId this w.
  unfold escalate. unfold bind at 1. unfold Date_now at 1. cbv beta iota.
  rewrite set_timeline_append.
  match goal with
  | |- context [save ?x0 ?w0] => set (x := x0); set (w2 := w0)
  end.
  destruct (save_changed x w2 (marked_timeline_nonempty _ _))
    as (i1 & w1 & Hrun & _ & Hrisk & Hframe & _).
  exists i1, w1, (calculateRiskScore (dataValues i1)).
  split; [exact Hrun|]. split; [exact Hrisk|].
  rewrite !calculateRiskScore_formula.
  rewrite <- (riskScore_of_frame Hframe).
  assert (Hx : Spec.riskScore_of (dataValues x)
               = Spec.riskScore_of
                   (with_severity (Spec.next_severity (severity (dataValues this)))
                      (dataValues this))).
  { unfold x. cbn [dataValues set_severity assign]. rewrite escalated_severity.
    exact eq_refl. }
  rewrite Hx. apply riskScore_of_next_severity.
Qed.

(** A second [save] right after a [save] does nothing: no entry, no write,
    no clock reading. *)
Theorem save_is_idempotent :
  forall (inst : Instance) (w : World),
  exists inst' w',
    save inst w = (Ok inst', w')
    /\ save inst' w' = (Ok inst', w').
Proof.
  intros inst w.
  destruct (changed inst) as [|f l] eqn:Hc.
  - exists inst, w.
    assert (H : save inst w = (Ok inst, w)).
    { unfold save, bind. rewrite (beforeUpdate_unchanged inst w Hc), Hc.
      exact eq_refl. }
    split; exact H.
  - assert (Hne : changed inst <> []) by (rewrite Hc; discriminate).
    destruct (save_changed inst w Hne)
      as (i1 & w1 & Hrun & _ & _ & _ & Hclean & _).
    exists i1, w1. split; [exact Hrun|].
    assert (Hc1 : changed i1 = []).
    { unfold changed, is_changed. rewrite Hclean. cbn [existsb].
      clear. induction all_fields as [|a t IH]; [exact eq_refl|exact IH]. }
    unfold save, bind. rewrite (beforeUpdate_unchanged i1 w1 Hc1), Hc1.
    exact eq_refl.
Qed.

(** [save] only appends: the old timeline is a prefix of the new one, which
    is longer by at most the hook's entry. *)
Theorem save_only_appends :
  forall (inst : Instance) (w : World),
  exists inst' w' suffix,
    save inst w = (Ok inst', w')
    /\ timeline_or_empty (dataValues inst')
       = timeline_or_empty (dataValues inst) ++ suffix
    /\ (List.length suffix <= 1)%nat
    /\ (changed inst = [] -> suffix = []).
Proof.
  intros inst w.
  destruct (changed inst) as [|f l] eqn:Hc.
  - exists inst, w, []. split.
    + unfold save, bind. rewrite (beforeUpdate_unchanged inst w Hc), Hc.
      exact eq_refl.
    + split; [symmetry; apply app_nil_r|]. split; [cbn; lia|reflexivity].
  - assert (Hne : changed inst <> []) by (rewrite Hc; discriminate).
    destruct (save_changed inst w Hne)
      as (i1 & w1 & Hrun & Htl & _).
    rewrite Hc in Htl.
    eexists i1, w1, [_]. split; [exact Hrun|].
    split; [unfold timeline_or_empty at 1; rewrite Htl; exact eq_refl|].
    split; [cbn; lia|discriminate].
Qed.

(** Three escalations in a row reach CRITICAL from any severity and add six
    timeline entries. *)
Theorem escalate_thrice_is_critical :
  forall (reason userId : string) (this : Instance) (w : World),
  exists this3 w3,
    bind (escalate reason userId this)
      (fun a => bind (escalate reason userId a) (escalate reason userId)) w
    = (Ok this3, w3)
    /\ severity (dataValues this3) = CRITICAL
    /\ List.length (timeline_or_empty (dataValues this3))
       = (List.length (timeline_or_empty (dataValues this)) + 6)%nat.
Proof.
  intros reason userId this w.
  destruct (escalate_spec reason userId this w)
    as (a & wa & ? & ? & ? & Ha & Hsa & Hta & _).
  destruct (escalate_spec reason userId a wa)
    as (b & wb & ? & ? & ? & Hb & Hsb & Htb & _).
  destruct (escalate_spec reason userId b wb)
    as (c & wc & ? & ? & ? & Hc & Hsc & Htc & _).
  exists c, wc. unfold bind. rewrite Ha, Hb, Hc.
  split; [exact eq_refl|]. split.
  - rewrite Hsc, Hsb, Hsa. destruct (severity (dataValues this)); exact eq_refl.
  - unfold timeline_or_empty at 1. rewrite Htc, length_app.
    unfold timeline_or_empty at 1. rewrite Htb, length_app.
    unfold timeline_or_empty at 1. rewrite Hta, length_app.
    cbn [List.length]. lia.
Qed.

(** [beforeCreate] ignores whatever incident number, timeline and risk score
    the caller put in the values. *)
Theorem beforeCreate_discards_supplied_history :
  forall (values : Incident) (number : string)
         (entries : option (list TimelineEntry)) (score : option Z) (w : World),
    beforeCreate
      (with_incident_number number (with_timeline entries (with_risk_score score values)))
      w
    = beforeCreate values w.
Proof.
  intros values number entries score w. exact eq_refl.
Qed.

Lemma includes_field_changed (inst : Instance) (f : Field) :
  includes_field (changed inst) f = is_changed inst f.
Proof.
  apply Bool.eq_iff_eq_true. unfold includes_field.
  rewrite existsb_exists, <- changed_In. split.
  - intros (g & Hin & Hg).
    destruct (Field_eq_dec f g) as [->|]; [exact Hin|discriminate].
  - intros Hin. exists f. split; [exact Hin|].
    destruct (Field_eq_dec f f); [reflexivity|congruence].
Qed.

(** The save hook stamps the investigation dates once: a date that is set is
    never overwritten, a save that does not change the status leaves both
    dates alone, and a save that changes the status to UNDER_INVESTIGATION
    (or to RESOLVED, CLOSED or UNSUBSTANTIATED) stamps a missing start (or
    completion) date with the clock reading taken for it. *)
Theorem investigation_dates_are_set_once :
  forall (inst : Instance) (w : World),
  exists inst' w',
    beforeUpdate inst w = (Ok inst', w')
    /\ (forall t, investigation_started (dataValues inst) = Some t ->
                  investigation_started (dataValues inst') = Some t)
    /\ (forall t, investigation_completed (dataValues inst) = Some t ->
                  investigation_completed (dataValues inst') = Some t)
    /\ (is_changed inst F_status = false ->
        investigation_started (dataValues inst')
        = investigation_started (dataValues inst)
        /\ investigation_completed (dataValues inst')
           = investigation_completed (dataValues inst))
    /\ (is_changed inst F_status = true ->
        status (dataValues inst) = UNDER_INVESTIGATION ->
        investigation_started (dataValues inst) = None ->
        investigation_started (dataValues inst') = Some (time_at w (S (tick w))))
    /\ (is_changed inst F_status = true ->
        Spec.terminal (status (dataValues inst)) = true ->
        investigation_completed (dataValues inst) = None ->
        investigation_completed (dataValues inst') = Some (time_at w (S (tick w)))).
Proof.
  intros inst w. unfold beforeUpdate.
  pose proof (includes_field_changed inst F_status) as Hinc.
  destruct (changed inst) as [|f l] eqn:Hc.
  - exists inst, w. split; [exact eq_refl|].
    cbn in Hinc.
    repeat split; try (intros; assumption); intros Hs; congruence.
  - rewrite Hinc. clear Hinc Hc.
    destruct inst as [d marks]. cbn [dataValues].
    assert (Hterm : forall s,
               existsb (sameb Status_eq_dec s) [RESOLVED; CLOSED; UNSUBSTANTIATED]
               = Spec.terminal s) by (intros []; exact eq_refl).
    assert (Hui : forall s,
               sameb Status_eq_dec s UNDER_INVESTIGATION = true <->
               s = UNDER_INVESTIGATION)
      by (intros []; split; intros H; first [discriminate H | exact eq_refl]).
    assert (Hnone : forall (A : Type) (o : option A), isNone o = true <-> o = None)
      by (intros A []; split; intros H; first [discriminate H | exact eq_refl]).
    unfold bind at 1. unfold Date_now at 1. cbv beta iota.
    destruct (is_changed {| dataValues := d; changedFields := marks |} F_status).
    + destruct (sameb Status_eq_dec (status d) UNDER_INVESTIGATION
                && isNone (investigation_started d)) eqn:C1;
        cbv [bind ret Date_now];
        cbn [dataValues set_investigation_started assign with_investigation_started
             status investigation_completed];
        rewrite Hterm;
        (destruct (Spec.terminal (status d) && isNone (investigation_completed d))
           eqn:C2);
        cbv beta iota;
        (do 2 eexists; split; [exact eq_refl|]);
        cbn [dataValues set_timeline set_risk_score assign with_timeline
             with_risk_score set_investigation_started set_investigation_completed
             with_investigation_started with_investigation_completed
             investigation_started investigation_completed status
             tick time_at with_tick];
        repeat split; intros;
        repeat match goal with
               | H : (_ && _)%bool = true |- _ => apply andb_true_iff in H; destruct H
               | H : (_ && _)%bool = false |- _ => apply andb_false_iff in H; destruct H
               | H : sameb Status_eq_dec _ _ = true |- _ => apply Hui in H
               | H : isNone _ = true |- _ => apply Hnone in H
               | Hs : status d = UNDER_INVESTIGATION,
                 H : sameb Status_eq_dec (status d) _ = false |- _ =>
                   rewrite Hs in H; discriminate H
               | Hs : status d = UNDER_INVESTIGATION,
                 H : Spec.terminal (status d) = true |- _ =>
                   rewrite Hs in H; discriminate H
               | Hs : ?o = None, H : isNone ?o = false |- _ =>
                   rewrite Hs in H; discriminate H
               end;
        try congruence.
    + cbv [bind ret]. cbv beta iota.
      do 2 eexists. split; [exact eq_refl|].
      cbn [dataValues set_timeline set_risk_score assign with_timeline
           with_risk_score investigation_started investigation_completed].
      repeat split; intros; try assumption; discriminate.
Qed.

(** *** Incident numbers can be read back *)

Lemma digit_value_digit36 (d : Z) :
  0 <= d < 36 -> digit_value (Js.upper_char (Js.digit36 d)) = d.
Proof.
  intros H.
  assert (Hk : forall k, (k < 36)%nat ->
               digit_value (Js.upper_char (Js.digit36 (Z.of_nat k))) = Z.of_nat k).
  { intros k Hlt.
    do 36 (destruct k as [|k]; [vm_compute; reflexivity|]). lia. }
  rewrite <- (Z2Nat.id d) by lia. apply Hk. lia.
Qed.

Lemma toUpperCase_app (s t : string) :
  Js.toUpperCase (s ++ t) = (Js.toUpperCase s ++ Js.toUpperCase t)%string.
Proof.
  unfold Js.toUpperCase. induction s as [|c s IH]; cbn; [reflexivity|].
  rewrite IH. reflexivity.
Qed.

Lemma base36_value_app (v : Z) (s t : string) :
  base36_value v (s ++ t) = base36_value (base36_value v s) t.
Proof.
  revert v. induction s as [|c s IH]; intros v; cbn; [reflexivity|apply IH].
Qed.

Lemma string_app_assoc (a b c : string) :
  ((a ++ b) ++ c = a ++ (b ++ c))%string.
Proof. induction a as [|x a IH]; cbn; [reflexivity|rewrite IH; reflexivity]. Qed.

(** The digits that [to_base36] puts in front of the accumulator read back
    as the number. *)
Lemma to_base36_value (fuel : nat) :
  forall (n : Z) (acc : string),
    (0 < fuel)%nat -> 0 <= n < 36 ^ Z.of_nat fuel ->
    exists ds,
      Js.to_base36 fuel n acc = (ds ++ acc)%string
      /\ base36_value 0 (Js.toUpperCase ds) = n.
Proof.
  induction fuel as [|fuel IH]; intros n acc Hfuel Hn; [lia|].
  cbn [Js.to_base36].
  assert (Hmod : 0 <= n mod 36 < 36) by (apply Z.mod_pos_bound; lia).
  destruct (n / 36 =? 0) eqn:Hq.
  - apply Z.eqb_eq in Hq.
    exists (String (Js.digit36 (n mod 36)) EmptyString). split; [reflexivity|].
    cbn. rewrite digit_value_digit36 by exact Hmod.
    pose proof (Z.div_mod n 36). lia.
  - apply Z.eqb_neq in Hq.
    assert (Hdiv : 0 <= n / 36 < 36 ^ Z.of_nat fuel).
    { split; [apply Z.div_pos; lia|].
      apply Z.div_lt_upper_bound; [lia|].
      rewrite Nat2Z.inj_succ, Z.pow_succ_r in Hn by lia. lia. }
    assert (Hpos : (0 < fuel)%nat).
    { destruct fuel; [|lia]. cbn in Hdiv. lia. }
    destruct (IH (n / 36) (String (Js.digit36 (n mod 36)) acc) Hpos Hdiv)
      as (ds & Hrun & Hval).
    exists (ds ++ String (Js.digit36 (n mod 36)) EmptyString)%string. split.
    + rewrite Hrun, string_app_assoc. reflexivity.
    + rewrite toUpperCase_app, base36_value_app, Hval. cbn.
      rewrite digit_value_digit36 by exact Hmod.
      pose proof (Z.div_mod n 36). lia.
Qed.

(** [n.toString(36).toUpperCase()] reads back as [n]. *)
Lemma toString36_value (n : Z) :
  0 <= n -> base36_value 0 (Js.toUpperCase (Js.toString36 n)) = n.
Proof.
  intros Hn. unfold Js.toString36.
  destruct (n <? 0) eqn:Hneg; [apply Z.ltb_lt in Hneg; lia|].
  assert (Hbound : 0 <= n < 36 ^ Z.of_nat (S (Z.to_nat (Z.log2 n)))).
  { split; [exact Hn|].
    rewrite Nat2Z.inj_succ, Z2Nat.id by apply Z.log2_nonneg.
    destruct (Z.eq_dec n 0) as [->|Hnz].
    - cbn. lia.
    - apply Z.lt_le_trans with (2 ^ Z.succ (Z.log2 n)).
      + apply Z.log2_spec. lia.
      + apply Z.pow_le_mono_l. pose proof (Z.log2_nonneg n). lia. }
  destruct (@to_base36_value (S (Z.to_nat (Z.log2 n))) n EmptyString
              (Nat.lt_0_succ _) Hbound) as (ds & Hrun & Hval).
  rewrite Hrun.
  assert (Hnil : forall s : string, (s ++ "")%string = s)
    by (induction s as [|c s IH]; cbn; [reflexivity|rewrite IH; reflexivity]).
  rewrite Hnil. exact Hval.
Qed.

Lemma number_prefix_injective (t1 t2 : IncidentType) (x y : string) :
  (number_prefix t1 ++ "-" ++ x = number_prefix t2 ++ "-" ++ y)%string ->
  t1 = t2 /\ x = y.
Proof.
  destruct t1, t2; vm_compute; intros H;
    first [discriminate H | injection H as ->; split; reflexivity].
Qed.

(** The incident number determines the type and the millisecond it was made
    from: two incidents with the same number have the same type and were
    created at the same clock reading. *)
Theorem incident_number_determines_type_and_time :
  forall (v1 v2 : Incident) (w1 w2 w1' w2' : World) (i1 i2 : Incident),
    0 <= time_at w1 (tick w1) ->
    0 <= time_at w2 (tick w2) ->
    beforeCreate v1 w1 = (Ok i1, w1') ->
    beforeCreate v2 w2 = (Ok i2, w2') ->
    incident_number i1 = incident_number i2 ->
    incident_type v1 = incident_type v2
    /\ time_at w1 (tick w1) = time_at w2 (tick w2).
Proof.
  intros v1 v2 w1 w2 w1' w2' i1 i2 Hn1 Hn2 Hrun1 Hrun2 Heq.
  destruct (beforeCreate_spec v1 w1) as (j1 & u1 & Hr1 & Hnum1 & _).
  destruct (beforeCreate_spec v2 w2) as (j2 & u2 & Hr2 & Hnum2 & _).
  rewrite Hrun1 in Hr1. injection Hr1 as <- <-.
  rewrite Hrun2 in Hr2. injection Hr2 as <- <-.
  rewrite Hnum1, Hnum2 in Heq.
  fold (number_prefix (incident_type v1)) in Heq.
  fold (number_prefix (incident_type v2)) in Heq.
  destruct (number_prefix_injective _ _ _ _ Heq) as [Ht Hts].
  split; [exact Ht|].
  rewrite <- (toString36_value Hn1), <- (toString36_value Hn2), Hts.
  reflexivity.
Qed.

Lemma incident_number_determines_type_and_time_witness :
  incident_type (Sample.report FRAUD HIGH REPORTED)
  = incident_type (Sample.report FRAUD LOW REPORTED)
  /\ time_at Sample.frozen_world (tick Sample.frozen_world)
     = time_at Sample.frozen_world (tick Sample.frozen_world).
Proof.
  eapply (@incident_number_determines_type_and_time
            (Sample.report FRAUD HIGH REPORTED) (Sample.report FRAUD LOW REPORTED)
            Sample.frozen_world Sample.frozen_world).
  - vm_compute. discriminate.
  - vm_compute. discriminate.
  - vm_compute. exact eq_refl.
  - vm_compute. exact eq_refl.
  - vm_compute. exact eq_refl.
Defined.

End LifecycleInvariants.

(** ** The text classifier and the reach of a call analysis *)

Section Classifier.

Import FWADetectionService Facts.

Variable E : Type.
Variable lib : Collaborators E.

Lemma prefix_chars (k s : string) :
  String.prefix k s = true ->
  forall c, In c (list_ascii_of_string k) -> In c (list_ascii_of_string s).
Proof.
  revert s. induction k as [|a k IH]; intros s H c Hc; [destruct Hc|].
  destruct s as [|b s]; [discriminate H|]. cbn in H.
  destruct (ascii_dec a b) as [->|]; [|discriminate H].
  destruct Hc as [<- | Hc]; [left; reflexivity|right; exact (IH s H c Hc)].
Qed.

(** A string that includes [k] has every character of [k]. *)
Lemma includes_chars (s k : string) :
  Js.includes s k = true ->
  forall c, In c (list_ascii_of_string k) -> In c (list_ascii_of_string s).
Proof.
  induction s as [|b s IH]; intros H c Hc.
  - cbn [Js.includes] in H.
    destruct (String.prefix k "") eqn:Hp; [|discriminate H].
    exact (prefix_chars k "" Hp c Hc).
  - cbn [Js.includes] in H.
    destruct (String.prefix k (String b s)) eqn:Hp.
    + exact (prefix_chars k _ Hp c Hc).
    + right. exact (IH H c Hc).
Qed.

Lemma to_base10_keeps (fuel : nat) :
  forall (n : Z) (acc : string) (c : ascii),
    In c (list_ascii_of_string acc) ->
    In c (list_ascii_of_string (Js.to_base10 fuel n acc)).
Proof.
  induction fuel as [|fuel IH]; intros n acc c Hc; [exact Hc|].
  cbn [Js.to_base10]. destruct (n / 10 =? 0).
  - right. exact Hc.
  - apply IH. right. exact Hc.
Qed.

(** [String(idx)] has a decimal digit. *)
Lemma String_of_index_digit (idx : nat) :
  exists c, In c (list_ascii_of_string (Js.String_of_index idx))
            /\ Js.is_digit c = true.
Proof.
  exists (Js.digit36 (Z.of_nat idx mod 10)). split.
  - unfold Js.String_of_index. cbn [Js.to_base10].
    destruct (Z.of_nat idx / 10 =? 0).
    + left. reflexivity.
    + apply to_base10_keeps. left. reflexivity.
  - assert (Hd : 0 <= Z.of_nat idx mod 10 < 10) by (apply Z.mod_pos_bound; lia).
    revert Hd. generalize (Z.of_nat idx mod 10). intros d Hd.
    assert (Hk : forall k, (k < 10)%nat -> Js.is_digit (Js.digit36 (Z.of_nat k)) = true).
    { intros k Hlt. do 10 (destruct k as [|k]; [reflexivity|]). lia. }
    rewrite <- (Z2Nat.id d) by lia. apply Hk. lia.
Qed.

(** No fraud keyword includes the decimal form of an index: the keywords
    are made of letters and blanks. *)
Lemma no_keyword_includes_index (idx : nat) :
  existsb (fun keyword => Js.includes keyword (Js.String_of_index idx)) fraudKeywords
  = false.
Proof.
  destruct (existsb _ fraudKeywords) eqn:H; [|reflexivity]. exfalso.
  apply existsb_exists in H. destruct H as (keyword & Hin & Hinc).
  destruct (String_of_index_digit idx) as (c & Hc & Hd).
  pose proof (includes_chars _ _ Hinc c Hc) as Hk.
  assert (Hall : forallb
                   (fun keyword =>
                      forallb (fun c => negb (Js.is_digit c))
                        (list_ascii_of_string keyword))
                   fraudKeywords = true) by (vm_compute; reflexivity).
  rewrite forallb_forall in Hall. specialize (Hall keyword Hin).
  rewrite forallb_forall in Hall. specialize (Hall c Hk).
  rewrite Hd in Hall. discriminate Hall.
Qed.

(** The sum of [classifyText] adds 0 at every index. *)
Lemma fraud_sum_zero (features : list float) :
  forall idx, fraud_sum features idx 0 = 0%float.
Proof.
  induction features as [|val rest IH]; intros idx; [reflexivity|].
  cbn [fraud_sum]. rewrite no_keyword_includes_index.
  assert (H00 : (0 + 0)%float = 0%float) by (vm_compute; reflexivity).
  rewrite H00. apply IH.
Qed.

Lemma fill_features_length (stemmedTokens : list string) :
  List.length (fill_features stemmedTokens) = 100%nat.
Proof.
  unfold fill_features.
  rewrite length_app, repeat_length, length_map, length_firstn. lia.
Qed.

Lemma extractTextFeatures_length (text : string) (features : list float) :
  extractTextFeatures lib text = Ok features -> List.length features = 100%nat.
Proof.
  unfold extractTextFeatures.
  destruct (tokenize lib text) as [tokens|e]; [|discriminate].
  destruct (map_result (stem lib) tokens) as [stemmed|e]; [|discriminate].
  intros H. injection H as <-. apply fill_features_length.
Qed.

(** On a vector of 100 features the fraud score is 0. *)
Lemma classifyText_of_100 (features : list float) :
  List.length features = 100%nat ->
  classifyText features = {| cls_confidence := 0; cls_class := "NORMAL" |}.
Proof.
  intros Hlen. unfold classifyText. rewrite fraud_sum_zero, Hlen.
  vm_compute. reflexivity.
Qed.

(** Whatever the text, the simulated classifier answers NORMAL with
    confidence 0: the test [keyword.includes(String(idx))] holds for no
    index, so no feature is ever added to the fraud score. *)
Theorem classifier_never_detects :
  forall (text : string) (features : list float),
    extractTextFeatures lib text = Ok features ->
    classifyText features = {| cls_confidence := 0; cls_class := "NORMAL" |}.
Proof.
  intros text features Hext.
  exact (classifyText_of_100 features (extractTextFeatures_length text Hext)).
Qed.

(** The loop of [Math.max] over regular-expression findings. *)
Lemma fold_max_regex (l : list Pattern) :
  (forall p, In p l -> confidence p = 0.85%float) ->
  forall acc, acc = 0%float \/ acc = 0.85%float ->
  let r := fold_left (fun pc pattern => Js.Math_max pc (confidence pattern)) l acc in
  r = 0%float \/ r = 0.85%float.
Proof.
  induction l as [|x l IH]; intros Hl acc Hacc; [exact Hacc|].
  cbn [fold_left]. apply IH; [intros p Hp; apply Hl; right; exact Hp|].
  rewrite (Hl x (or_introl eq_refl)). right.
  destruct Hacc as [-> | ->]; vm_compute; reflexivity.
Qed.

(** The pattern confidence of a text: 0 or 0.85 from the regular
    expressions, raised by the keyword finding when there is one. *)
Lemma patternConfidence_values (text : string) :
  exists (base : float) (k : nat),
    (base = 0%float \/ base = 0.85%float) /\ (k <= 18)%nat
    /\ patternConfidence (analyzeText lib text)
       = if (0 <? k)%nat
         then Js.Math_max base (Js.Math_min 0.9 (Js.of_nat k * 0.2))
         else base.
Proof.
  unfold analyzeText, patternConfidence.
  set (n := List.length (filter _ fraudKeywords)).
  assert (Hn : (n <= 18)%nat).
  { unfold n. etransitivity; [apply filter_length_le|]. reflexivity. }
  set (regexes := flat_map _ suspiciousPatterns).
  assert (Hregex : forall p, In p regexes -> confidence p = 0.85%float).
  { intros p Hin. apply in_flat_map in Hin. destruct Hin as ([c rs] & _ & Hin).
    apply in_flat_map in Hin. destruct Hin as (r & _ & Hin).
    destruct (regex_test lib r text); [|destruct Hin].
    destruct Hin as [<- | []]. reflexivity. }
  pose proof (@fold_max_regex regexes Hregex 0%float (or_introl eq_refl)) as Hbase.
  cbv zeta in Hbase.
  exists (fold_left (fun pc pattern => Js.Math_max pc (confidence pattern))
            regexes 0%float), n.
  split; [exact Hbase|]. split; [exact Hn|].
  destruct (0 <? n)%nat; [|reflexivity].
  rewrite fold_left_app. reflexivity.
Qed.

Lemma run_extractors_features (transcript : string) (sentiment : float)
    (features : list float) :
  run_extractors lib transcript = Ok (sentiment, features) ->
  extractTextFeatures lib (preprocessText transcript) = Ok features.
Proof.
  unfold run_extractors.
  destruct (tokenize lib (preprocessText transcript)) as [tokens|e]; [|discriminate].
  destruct (getSentiment lib tokens) as [s|e]; [|discriminate].
  destruct (extractTextFeatures lib (preprocessText transcript)) as [f|e];
    [|discriminate].
  intros H. injection H as _ <-. reflexivity.
Qed.

(** A call analysis never rates a transcript HIGH or CRITICAL.  With the
    classifier at 0, the confidence is at most 0.9 * 0.5 + 0.2 = 0.65: the
    risk level is LOW or MEDIUM, no indicator comes from the classifier, and
    the only recommendation that can be made is the billing review. *)
Theorem call_analysis_stays_below_high :
  forall (transcript : string) (metadata : CallMetadata) (w w' : World)
         (analysis : CallAnalysis),
    analyzeCallTranscript lib transcript metadata w = (Ok analysis, w') ->
    (call_confidence analysis <=? 0.65)%float = true
    /\ (call_riskLevel analysis = LOW \/ call_riskLevel analysis = MEDIUM)
    /\ (forall c d, ~ In (AI_CLASSIFICATION c d) (call_indicators analysis))
    /\ call_recommendations analysis
       = if existsb (category_is "billing") (call_patterns analysis)
         then [{| priority := "HIGH";
                  action := "Review billing records";
                  rec_description :=
                    "Billing irregularities detected - conduct detailed audit" |}]
         else [].
Proof.
  intros transcript metadata w w' analysis Hrun.
  pose proof (analyzeCallTranscript_run lib transcript metadata w) as Hspec.
  destruct (run_extractors lib transcript) as [[sentiment features]|e] eqn:Hext.
  2:{ destruct Hspec as (w1 & Hr & _). rewrite Hrun in Hr. discriminate Hr. }
  destruct Hspec as (a & w1 & Hr & Hpat & Hconf & Hlevel & Hind & Hrec & _).
  rewrite Hrun in Hr. injection Hr as <- <-.
  pose proof (classifyText_of_100 features
                (extractTextFeatures_length _ (run_extractors_features _ Hext)))
    as Hcls.
  rewrite Hcls in Hconf, Hind. cbn [cls_confidence] in Hconf.
  destruct (patternConfidence_values transcript) as (base & k & Hbase & Hk & Hpc).
  rewrite Hpc in Hconf. unfold sentimentImpact in Hconf.
  assert (Hfacts : (call_confidence analysis <=? 0.65)%float = true
                   /\ (determineRiskLevel (call_confidence analysis) = LOW
                       \/ determineRiskLevel (call_confidence analysis) = MEDIUM)
                   /\ Js.gt (call_confidence analysis) 0.7 = false).
  { rewrite Hconf. clear Hconf Hpc Hind Hrec Hlevel Hrun.
    destruct (sentiment <? -0.3)%float;
      destruct Hbase as [-> | ->];
      do 19 (destruct k as [|k];
             [split; [vm_compute; reflexivity|];
              split; [first [left; vm_compute; reflexivity
                            |right; vm_compute; reflexivity]
                     |vm_compute; reflexivity]|]);
      lia. }
  destruct Hfacts as (Hle & Hlm & Hgt).
  split; [exact Hle|]. split; [rewrite Hlevel; exact Hlm|]. split.
  - intros c d Hin. rewrite Hind in Hin. unfold generateIndicators in Hin.
    cbn [cls_class] in Hin.
    destruct (string_dec "NORMAL" "FRAUD") as [Heq|_]; [discriminate Heq|].
    destruct (sentiment <? -0.3)%float.
    + apply in_app_or in Hin. destruct Hin as [Hin | [Hin | []]]; [|discriminate Hin].
      apply in_map_iff in Hin. destruct Hin as (p & Hp & _). discriminate Hp.
    + apply in_map_iff in Hin. destruct Hin as (p & Hp & _). discriminate Hp.
  - rewrite Hrec. unfold generateRecommendations. rewrite Hgt.
    destruct (Level_eq_dec (call_riskLevel analysis) CRITICAL) as [Hcrit|_].
    + rewrite Hlevel in Hcrit. destruct Hlm as [Hl | Hl]; rewrite Hl in Hcrit;
        discriminate Hcrit.
    + reflexivity.
Qed.

End Classifier.

(** ** What a report stores *)

Section StoredReport.

Import FWAIncident FWADetectionService Facts.

Variable E : Type.
Variable lib : Collaborators E.

(** As the service is wired, [reportFWAIncident] creates no incident.
    Below the 0.3 floor it returns [null].  From the floor on it fails with
    a TypeError, which it logs and throws on: the analysis has no
    [patterns], or the [FWAIncident] binding of the service is [undefined].
    In every case the incident table, the cache, the alert count and the
    clock are as before the call. *)
Theorem report_never_creates_incident :
  forall (analysisResult : AnalysisResult) (source : string)
         (reporterId : option string) (w : World),
    exists r w',
      reportFWAIncident lib analysisResult source reporterId w = (r, w')
      /\ alerts w' = alerts w
      /\ fwa_incidents w' = fwa_incidents w
      /\ redis w' = redis w
      /\ tick w' = tick w
      /\ match r with
         | Ok None => (result_confidence analysisResult <? 0.3)%float = true
         | Ok (Some _) => False
         | Throw e =>
             (result_confidence analysisResult <? 0.3)%float = false
             /\ (exists msg, e = TypeError msg)
             /\ last (logs w') (error_line "" e)
                = error_line "Error reporting FWA incident:" e
         end.
Proof.
  intros analysisResult source reporterId w.
  cbv [reportFWAIncident try_catch bind logger_info logger_error log_line ret
       throw patterns_of FWAIncident_create FWAIncident_binding riskThresholds].
  destruct (result_confidence analysisResult <? 0.3)%float eqn:Hlow.
  - do 2 eexists. split; [exact eq_refl|].
    split; [apply alerts_quiet; exact eq_refl|].
    do 3 (split; [exact eq_refl|]). exact eq_refl.
  - destruct (result_patterns analysisResult) as [patterns|]; cbv beta iota;
      (do 2 eexists; split; [exact eq_refl|]);
      (split; [apply alerts_quiet; exact eq_refl|]);
      do 3 (split; [exact eq_refl|]);
      (split; [exact eq_refl|]);
      (split; [eexists; exact eq_refl|]);
      cbn [logs with_logs]; apply last_last.
Qed.

(** The findings of [detectBillingPatterns] carry a [type] and no
    [category], so [determineIncidentType] matches none of its three
    categories on them: for every batch the type resolves to
    SUSPICIOUS_ACTIVITY, never to BILLING_IRREGULARITY. *)
Theorem billing_findings_resolve_to_suspicious_activity :
  forall billingData : list Bill,
    determineIncidentType (detectBillingPatterns billingData) = SUSPICIOUS_ACTIVITY
    /\ forall p, In p (detectBillingPatterns billingData) -> category p = None.
Proof.
  intros billingData. unfold detectBillingPatterns.
  destruct (0 <? _)%nat.
  - split; [reflexivity|]. intros p [<- | []]. reflexivity.
  - split; [reflexivity|]. intros p [].
Qed.

(** An enrollment analysis has no [patterns]: when its confidence reaches
    the reporting threshold, [reportFWAIncident] fails on reading them,
    logs the error, throws it on and creates no incident. *)
Theorem enrollment_report_throws :
  forall (analysis : EnrollmentAnalysis) (source : string)
         (reporterId : option string) (w : World),
    (enr_confidence analysis <? 0.3)%float = false ->
    exists e w',
      reportFWAIncident lib (OfEnrollment analysis) source reporterId w
      = (Throw (TypeError e), w')
      /\ fwa_incidents w' = fwa_incidents w
      /\ last (logs w') (error_line "" (TypeError e))
         = error_line "Error reporting FWA incident:" (TypeError e).
Proof.
  intros analysis source reporterId w Hconf.
  cbv [reportFWAIncident try_catch bind logger_info logger_error log_line ret
       throw patterns_of riskThresholds result_confidence result_patterns].
  rewrite Hconf. do 2 eexists. split; [exact eq_refl|].
  cbn [fwa_incidents logs with_logs]. split; [exact eq_refl|apply last_last].
Qed.

End StoredReport.

(** ** Repeated amounts in a billing batch *)

Section RepeatedAmounts.

Import FWADetectionService.

(** [indexOf] answers the first position that holds an equal number. *)
Lemma indexOf_first (l : list float) (x : float) :
  forall k, indexOf l x = Some k ->
    (k < List.length l)%nat
    /\ (nth k l nan =? x)%float = true
    /\ forall j, (j < k)%nat -> (nth j l nan =? x)%float = false.
Proof.
  induction l as [|y l IH]; intros k H; [discriminate H|].
  cbn [indexOf] in H. destruct (y =? x)%float eqn:Hy.
  - injection H as <-. cbn. split; [lia|]. split; [exact Hy|]. intros j Hj. lia.
  - destruct (indexOf l x) as [k'|]; [|discriminate H]. injection H as <-.
    destruct (IH k' eq_refl) as (Hlt & Hk & Hbefore).
    cbn [List.length nth]. split; [lia|]. split; [exact Hk|].
    intros [|j] Hj; [exact Hy|]. apply Hbefore. lia.
Qed.

Lemma indexOf_found (l : list float) (x : float) :
  forall i, (i < List.length l)%nat -> (nth i l nan =? x)%float = true ->
    exists k, indexOf l x = Some k /\ (k <= i)%nat.
Proof.
  induction l as [|y l IH]; intros i Hi Hx; [cbn in Hi; lia|].
  cbn [indexOf]. destruct (y =? x)%float eqn:Hy.
  - exists 0%nat. split; [reflexivity|lia].
  - destruct i as [|i]; [cbn in Hx; rewrite Hx in Hy; discriminate Hy|].
    cbn [List.length nth] in Hi, Hx.
    destruct (IH i ltac:(lia) Hx) as (k & Hk & Hle).
    rewrite Hk. exists (S k). split; [reflexivity|lia].
Qed.

(** The filter keeps nothing when every element is at the position that
    [indexOf] answers for it. *)
Lemma filter_duplicates_nil (amounts : list float) :
  forall (rest : list float) (index : nat),
    (forall k, (k < List.length rest)%nat ->
               indexOf amounts (nth k rest nan) = Some (index + k)%nat) ->
    filter_duplicates amounts rest index = [].
Proof.
  induction rest as [|x rest IH]; intros index H; [reflexivity|].
  cbn [filter_duplicates].
  pose proof (H 0%nat ltac:(cbn; lia)) as H0. cbn [nth] in H0.
  rewrite H0, Nat.add_0_r, Nat.eqb_refl. cbn [negb].
  apply IH. intros k Hk.
  pose proof (H (S k) ltac:(cbn; lia)) as Hs. cbn [nth] in Hs.
  rewrite Hs. f_equal. lia.
Qed.

(** The filter keeps an element that [indexOf] finds elsewhere, or not at
    all. *)
Lemma filter_duplicates_some (amounts : list float) :
  forall (rest : list float) (index k : nat),
    (k < List.length rest)%nat ->
    indexOf amounts (nth k rest nan) <> Some (index + k)%nat ->
    (0 < List.length (filter_duplicates amounts rest index))%nat.
Proof.
  induction rest as [|x rest IH]; intros index k Hk Hne; [cbn in Hk; lia|].
  cbn [filter_duplicates].
  destruct k as [|k].
  - cbn [nth] in Hne. rewrite Nat.add_0_r in Hne.
    destruct (indexOf amounts x) as [m|].
    + destruct (Nat.eqb m index) eqn:Hm.
      * apply Nat.eqb_eq in Hm. subst m. contradiction Hne. reflexivity.
      * cbn. lia.
    + cbn. lia.
  - cbn [nth List.length] in Hne, Hk.
    assert (Hrest : (0 < List.length (filter_duplicates amounts rest (S index)))%nat).
    { apply (IH (S index) k); [lia|].
      intros Heq. apply Hne. rewrite Heq. f_equal. lia. }
    destruct (match indexOf amounts x with
              | Some k0 => negb (Nat.eqb k0 index)
              | None => true
              end); [cbn; lia|exact Hrest].
Qed.

(** [detectBillingPatterns] makes its one finding exactly when an amount
    occurs twice: two bills with equal amounts give a DUPLICATE_AMOUNTS
    finding of confidence 0.8, whatever the amounts are, and a batch of
    pairwise different amounts gives no finding. *)
Theorem duplicate_finding_iff_repeated_amount :
  forall billingData : list Bill,
    let amounts := map amount billingData in
    (forall i j, (i < j < List.length amounts)%nat ->
       (nth i amounts nan =? nth j amounts nan)%float = true ->
       exists n, (0 < n)%nat
                 /\ detectBillingPatterns billingData
                    = [DuplicateAmounts n 0.8
                         "Multiple bills with identical amounts detected"])
    /\ ((forall x, In x amounts -> is_nan x = false) ->
        (forall i j, (i < j < List.length amounts)%nat ->
           (nth i amounts nan =? nth j amounts nan)%float = false) ->
        detectBillingPatterns billingData = []).
Proof.
  intros billingData amounts. unfold detectBillingPatterns. fold amounts. split.
  - intros i j [Hij Hj] Heq.
    assert (Hpos : (0 < List.length (filter_duplicates amounts amounts 0))%nat).
    { apply (@filter_duplicates_some amounts amounts 0%nat j Hj).
      destruct (@indexOf_found amounts (nth j amounts nan) i ltac:(lia) Heq)
        as (k & Hk & Hle).
      rewrite Hk. intros H. injection H as H. lia. }
    apply Nat.ltb_lt in Hpos. rewrite Hpos.
    exists (List.length (filter_duplicates amounts amounts 0)).
    split; [apply Nat.ltb_lt; exact Hpos|reflexivity].
  - intros Hnan Hdiff.
    rewrite (@filter_duplicates_nil amounts amounts 0%nat); [reflexivity|].
    intros k Hk. cbn [Nat.add].
    assert (Hself : (nth k amounts nan =? nth k amounts nan)%float = true).
    { pose proof (Hnan _ (nth_In amounts nan Hk)) as H. unfold is_nan in H.
      destruct (nth k amounts nan =? nth k amounts nan)%float;
        [reflexivity|discriminate H]. }
    destruct (@indexOf_found amounts (nth k amounts nan) k Hk Hself)
      as (m & Hm & Hle).
    rewrite Hm. f_equal.
    destruct (indexOf_first _ _ Hm) as (_ & Hhit & _).
    destruct (Nat.eq_dec m k) as [Hmk|Hmk]; [exact Hmk|].
    rewrite (Hdiff m k ltac:(lia)) in Hhit. discriminate Hhit.
Qed.

End RepeatedAmounts.

(** ** The authorisation helpers *)

Section Authorisation.

Import Auth.

Lemma substring_all (t : string) : String.substring 0 (String.length t) t = t.
Proof. induction t as [|c t IH]; cbn; [reflexivity|rewrite IH; reflexivity]. Qed.

Lemma string_or_some (s : string) : string_or (Some s) "" = s.
Proof. unfold string_or. destruct (string_dec s ""); [subst s|]; reflexivity. Qed.

(** A header [Bearer <t>] decides the token: it is [t], whatever the query
    string and the cookies hold, also when [t] is empty.  Without a token
    in any of the three places the result is [null]. *)
Theorem extractToken_prefers_bearer_header :
  forall req : Request,
    (forall t, authorization req = Some ("Bearer " ++ t)%string ->
               extractToken req = Some t)
    /\ (extractToken req = None ->
        (forall t, authorization req <> Some ("Bearer " ++ t)%string)
        /\ truthy (query_token req) = false
        /\ (forall c, cookies req = Some c -> truthy (authToken c) = false)).
Proof.
  intros req.
  assert (Hbearer : forall t,
             truthy (Some ("Bearer " ++ t)%string)
             && String.prefix "Bearer " (string_or (Some ("Bearer " ++ t)%string) "")
             = true).
  { intros t. rewrite string_or_some. cbn [truthy append andb String.prefix].
    repeat match goal with
           | |- context [ascii_dec ?a ?a] =>
               destruct (ascii_dec a a) as [_|Hne]; [|contradiction Hne; reflexivity]
           end.
    destruct t; reflexivity. }
  split.
  - intros t H. unfold extractToken. rewrite H, Hbearer, string_or_some.
    unfold substring_from. cbn [append String.length Nat.sub String.substring].
    rewrite Nat.sub_0_r, substring_all. reflexivity.
  - unfold extractToken. intros H.
    destruct (truthy (authorization req)
              && String.prefix "Bearer " (string_or (authorization req) ""))
      eqn:Hb; [discriminate H|].
    split.
    + intros t Ht. rewrite Ht, Hbearer in Hb. discriminate Hb.
    + destruct (truthy (query_token req)) eqn:Hq.
      * destruct (query_token req) as [[|c r]|]; discriminate.
      * split; [reflexivity|]. intros c Hc. rewrite Hc in H.
        destruct (truthy (authToken c)) eqn:Ha; [|reflexivity].
        destruct (authToken c) as [[|a r]|]; discriminate.
Qed.

Lemma includes_role_incl (roles1 roles2 : list string) (r : string) :
  (forall x, In x roles1 -> In x roles2) ->
  includes_role roles1 r = true -> includes_role roles2 r = true.
Proof.
  unfold includes_role. intros Hincl H.
  apply existsb_exists in H. destruct H as (x & Hx & Heq).
  apply existsb_exists. exists x. split; [exact (Hincl x Hx)|exact Heq].
Qed.

(** A gate with more roles admits every request that a gate with fewer
    roles admits; so whoever passes the admin gate passes the manager and
    the compliance gates. *)
Theorem wider_role_gate_admits_more :
  forall (roles1 roles2 : list string) (req : Request),
    (forall r, In r roles1 -> In r roles2) ->
    snd (authorize roles1 req) = Next ->
    authorize roles2 req = ([], Next).
Proof.
  intros roles1 roles2 req Hincl. unfold authorize.
  destruct (user req) as [u|]; [|discriminate].
  destruct (includes_role roles1 (role u)) eqn:H1; [|discriminate].
  rewrite (includes_role_incl _ _ _ Hincl H1). reflexivity.
Qed.

Lemma index_from_lower (l : list string) (x : string) :
  forall i, 0 <= i -> -1 <= index_from l x i.
Proof.
  induction l as [|y l IH]; intros i Hi; cbn [index_from]; [lia|].
  destruct (String.eqb y x); [lia|]. apply IH. lia.
Qed.

(** The level that a data type asks for is INTERNAL, CONFIDENTIAL or
    RESTRICTED, unless its name is inherited from [Object.prototype]. *)
Lemma getRequiredClearance_index (dataType : string) :
  existsb (String.eqb dataType) object_prototype_names = false ->
  exists l, getRequiredClearance dataType = Str l
            /\ 1 <= index_from levels l 0 <= 3.
Proof.
  intros Hown. unfold getRequiredClearance. rewrite Hown.
  repeat match goal with
         | |- context [String.eqb dataType ?k] => destruct (String.eqb dataType k)
         end;
    eexists; (split; [reflexivity|]); cbn; lia.
Qed.

(** The clearance gate: RESTRICTED opens every data type, and a user below
    INTERNAL (PUBLIC, no level, or a level that is none of the four) is
    refused every data type, since a data type that the table does not
    list asks for INTERNAL. *)
Theorem clearance_gate :
  forall (dataType : string) (req : Request) (u : User),
    user req = Some u ->
    (clearance_level u = Some "RESTRICTED" ->
     authorizeDataAccess dataType req = ([], Next))
    /\ (hasRequiredClearance (clearance_level u) (Str "INTERNAL") = false ->
        existsb (String.eqb dataType) object_prototype_names = false ->
        snd (authorizeDataAccess dataType req)
        = Json 403 "Insufficient clearance level").
Proof.
  intros dataType req u Hu. unfold authorizeDataAccess. rewrite Hu. split.
  - intros Hr. rewrite Hr.
    assert (H : hasRequiredClearance (Some "RESTRICTED")
                  (getRequiredClearance dataType) = true).
    { unfold hasRequiredClearance.
      destruct (getRequiredClearance dataType) as [l|].
      - change (index_from levels "RESTRICTED" 0) with 3.
        unfold levels. cbn [index_from].
        repeat match goal with
               | |- context [String.eqb ?a l] => destruct (String.eqb a l)
               end; reflexivity.
      - reflexivity. }
    rewrite H. reflexivity.
  - intros Hlow Hown.
    destruct (getRequiredClearance_index dataType Hown) as (l & Hl & Hidx).
    rewrite Hl. unfold hasRequiredClearance in *.
    set (ui := match clearance_level u with
               | Some l0 => index_from levels l0 0
               | None => -1
               end) in *.
    change (index_from levels "INTERNAL" 0) with 1 in Hlow.
    assert (Hge : (ui >=? index_from levels l 0) = false).
    { rewrite Z.geb_leb in *. apply Z.leb_gt. apply Z.leb_gt in Hlow. lia. }
    rewrite Hge. reflexivity.
Qed.

(** A data type named like a member of [Object.prototype] is open to every
    authenticated user, whatever the clearance: the table lookup yields the
    inherited member, which is no level name. *)
Theorem inherited_name_opens_clearance_gate :
  forall (dataType : string) (req : Request) (u : User),
    user req = Some u ->
    In dataType object_prototype_names ->
    authorizeDataAccess dataType req = ([], Next).
Proof.
  intros dataType req u Hu Hin. unfold authorizeDataAccess. rewrite Hu.
  assert (Hreq : getRequiredClearance dataType = Inherited).
  { unfold object_prototype_names in Hin. cbn [In] in Hin.
    repeat (destruct Hin as [<- | Hin]; [vm_compute; reflexivity|]).
    destruct Hin. }
  rewrite Hreq. unfold hasRequiredClearance.
  assert (Hge : (match clearance_level u with
                 | Some l => index_from levels l 0
                 | None => -1
                 end >=? -1) = true).
  { rewrite Z.geb_leb. apply Z.leb_le.
    destruct (clearance_level u) as [l|]; [apply index_from_lower|]; lia. }
  rewrite Hge. reflexivity.
Qed.

End Authorisation.

(** ** The cache helper *)

Section CacheHelper.

Import Cache.

Variable St : Type.
Variable Data : Type.
Variable env : Env St Data.

(** [getCached] runs the fetch function at most twice, and not at all
    exactly when the cache holds a text that parses.  A failure of the
    cache is never the caller's: when the fetch function answers in every
    state, so does [getCached]. *)
Theorem getCached_fetches_at_most_twice :
  forall (key : string) (fetchFunction : St -> Result Data * St) (ttl : Z)
         (s : St) (n : nat),
    exists r s' n',
      getCached (beside_counter env) key (counted fetchFunction) ttl (s, n)
      = (r, (s', n'))
      /\ (n <= n' <= n + 2)%nat
      /\ (n' = n <->
          exists c text data,
            fst (client_get env key s) = Ok (Some (String c text))
            /\ JSON_parse env (String c text) = Ok data)
      /\ ((forall s0, exists d s1, fetchFunction s0 = (Ok d, s1)) ->
          exists d, r = Ok d).
Proof.
  intros key fetchFunction ttl s n.
  unfold getCached, counted, beside_counter.
  cbn [client_get client_set JSON_parse JSON_stringify log_error fst snd].
  destruct (client_get env key s) as [[cached|e] s1] eqn:Hget; cbn [fst snd].
  - destruct cached as [[|c text]|].
    + (* the empty string is falsy *)
      destruct (fetchFunction s1) as [[data|e] s2] eqn:Hf1; cbn [fst snd].
      * destruct (client_set env key (JSON_stringify env data) ttl s2)
          as [[u|e] s3] eqn:Hset; cbn [fst snd].
        -- do 3 eexists. split; [reflexivity|]. split; [lia|]. split.
           ++ split; [lia|]. intros (c & text & d & H & _). discriminate H.
           ++ intros _. eexists. reflexivity.
        -- destruct (fetchFunction (log_error env "Cache operation failed:" e s3))
             as [r s4] eqn:Hf2.
           do 3 eexists. split; [reflexivity|]. split; [lia|]. split.
           ++ split; [lia|]. intros (c & text & d & H & _). discriminate H.
           ++ intros Hall. destruct (Hall (log_error env "Cache operation failed:" e s3))
                as (d & s5 & Hd).
              rewrite Hd in Hf2. injection Hf2 as <- _. eexists. reflexivity.
      * destruct (fetchFunction (log_error env "Cache operation failed:" e s2))
          as [r s4] eqn:Hf2.
        do 3 eexists. split; [reflexivity|]. split; [lia|]. split.
        -- split; [lia|]. intros (c & text & d & H & _). discriminate H.
        -- intros Hall. destruct (Hall (log_error env "Cache operation failed:" e s2))
             as (d & s5 & Hd).
           rewrite Hd in Hf2. injection Hf2 as <- _. eexists. reflexivity.
    + destruct (JSON_parse env (String c text)) as [data|e] eqn:Hparse.
      * do 3 eexists. split; [reflexivity|]. split; [lia|]. split.
        -- split; [|reflexivity]. intros _. exists c, text, data.
           split; [reflexivity|exact Hparse].
        -- intros _. eexists. reflexivity.
      * destruct (fetchFunction (log_error env "Cache operation failed:" e s1))
          as [r s4] eqn:Hf2. cbn [fst snd].
        do 3 eexists. split; [reflexivity|]. split; [lia|]. split.
        -- split; [lia|]. intros (c' & text' & d & H & Hp).
           injection H as -> ->. rewrite Hp in Hparse. discriminate Hparse.
        -- intros Hall. destruct (Hall (log_error env "Cache operation failed:" e s1))
             as (d & s5 & Hd).
           rewrite Hd in Hf2. injection Hf2 as <- _. eexists. reflexivity.
    + (* null *)
      destruct (fetchFunction s1) as [[data|e] s2] eqn:Hf1; cbn [fst snd].
      * destruct (client_set env key (JSON_stringify env data) ttl s2)
          as [[u|e] s3] eqn:Hset; cbn [fst snd].
        -- do 3 eexists. split; [reflexivity|]. split; [lia|]. split.
           ++ split; [lia|]. intros (c & text & d & H & _). discriminate H.
           ++ intros _. eexists. reflexivity.
        -- destruct (fetchFunction (log_error env "Cache operation failed:" e s3))
             as [r s4] eqn:Hf2.
           do 3 eexists. split; [reflexivity|]. split; [lia|]. split.
           ++ split; [lia|]. intros (c & text & d & H & _). discriminate H.
           ++ intros Hall. destruct (Hall (log_error env "Cache operation failed:" e s3))
                as (d & s5 & Hd).
              rewrite Hd in Hf2. injection Hf2 as <- _. eexists. reflexivity.
      * destruct (fetchFunction (log_error env "Cache operation failed:" e s2))
          as [r s4] eqn:Hf2.
        do 3 eexists. split; [reflexivity|]. split; [lia|]. split.
        -- split; [lia|]. intros (c & text & d & H & _). discriminate H.
        -- intros Hall. destruct (Hall (log_error env "Cache operation failed:" e s2))
             as (d & s5 & Hd).
           rewrite Hd in Hf2. injection Hf2 as <- _. eexists. reflexivity.
  - destruct (fetchFunction (log_error env "Cache operation failed:" e s1))
      as [r s4] eqn:Hf2.
    do 3 eexists. split; [reflexivity|]. split; [lia|]. split.
    + split; [lia|]. intros (c & text & d & H & _). discriminate H.
    + intros Hall. destruct (Hall (log_error env "Cache operation failed:" e s1))
        as (d & s5 & Hd).
      rewrite Hd in Hf2. injection Hf2 as <- _. eexists. reflexivity.
Qed.

End CacheHelper.

(** ** The statistics of a billing batch *)

Section Statistics.

Import FWADetectionService Facts.

Lemma or_zero_not_nan (x : float) : is_nan (Js.or_zero x) = false.
Proof.
  unfold Js.or_zero. destruct (is_nan x) eqn:Hn; cbn [orb]; [exact eq_refl|].
  destruct (is_zero x); [exact eq_refl|exact Hn].
Qed.

(** The keys of the two infinities are the least and the greatest. *)
Lemma key_range (x : spec_float) :
  let '(a, b, c) := key x in
  -2 <= a <= 2 /\ (a = -2 -> b = 0 /\ c = 0) /\ (a = 2 -> b = 0 /\ c = 0).
Proof. destruct x as [s|s| |s m e]; try destruct s; cbn; lia. Qed.

Lemma nothing_above_infinity (x : float) :
  is_nan x = false -> (infinity <? x)%float = false.
Proof.
  intros Hx. destruct (infinity <? x)%float eqn:H; [|reflexivity]. exfalso.
  apply (@ltb_lt infinity x eq_refl Hx) in H.
  unfold fkey in H. change (key (Prim2SF infinity)) with (2, 0, 0) in H.
  pose proof (key_range (Prim2SF x)) as Hr.
  destruct (key (Prim2SF x)) as [[a b] c]. unfold lex_lt in H. lia.
Qed.

Lemma nothing_below_neg_infinity (x : float) :
  is_nan x = false -> (x <? neg_infinity)%float = false.
Proof.
  intros Hx. destruct (x <? neg_infinity)%float eqn:H; [|reflexivity]. exfalso.
  apply (@ltb_lt x neg_infinity Hx eq_refl) in H.
  unfold fkey in H. change (key (Prim2SF neg_infinity)) with (-2, 0, 0) in H.
  pose proof (key_range (Prim2SF x)) as Hr.
  destruct (key (Prim2SF x)) as [[a b] c]. unfold lex_lt in H. lia.
Qed.

(** [Math.min(Infinity, x)] and [Math.max(-Infinity, x)] are [x]. *)
Lemma Math_min_infinity (x : float) :
  is_nan x = false -> Js.Math_min infinity x = x.
Proof.
  intros Hx. unfold Js.Math_min. rewrite Hx, (@nothing_above_infinity x Hx).
  change (is_nan infinity) with false. cbn [orb].
  destruct (x <? infinity)%float; [reflexivity|].
  change (get_sign infinity) with false. reflexivity.
Qed.

Lemma Math_max_neg_infinity (x : float) :
  is_nan x = false -> Js.Math_max neg_infinity x = x.
Proof.
  intros Hx. unfold Js.Math_max. rewrite Hx, (@nothing_below_neg_infinity x Hx).
  change (is_nan neg_infinity) with false. cbn [orb].
  destruct (neg_infinity <? x)%float; [reflexivity|].
  change (get_sign neg_infinity) with true. reflexivity.
Qed.

(** [Math.min] of two numbers returns one of them, below both. *)
Lemma Math_min_cases (a b : float) :
  is_nan a = false -> is_nan b = false ->
  Js.Math_min a b = a \/ Js.Math_min a b = b.
Proof.
  intros Ha Hb. unfold Js.Math_min. rewrite Ha, Hb. cbn [orb].
  destruct (a <? b)%float; [left; reflexivity|].
  destruct (b <? a)%float; [right; reflexivity|].
  destruct (get_sign a); [left|right]; reflexivity.
Qed.

Lemma Math_min_lower (a b : float) :
  is_nan a = false -> is_nan b = false ->
  (Js.Math_min a b <=? a)%float = true /\ (Js.Math_min a b <=? b)%float = true.
Proof.
  intros Ha Hb. unfold Js.Math_min. rewrite Ha, Hb. cbn [orb].
  destruct (a <? b)%float eqn:Hab.
  - split; [apply leb_refl; assumption | apply ltb_leb; assumption].
  - destruct (b <? a)%float eqn:Hba.
    + split; [apply ltb_leb; assumption | apply leb_refl; assumption].
    + destruct (get_sign a).
      * split; [apply leb_refl; assumption | apply not_ltb_leb; assumption].
      * split; [apply not_ltb_leb; assumption | apply leb_refl; assumption].
Qed.

(** The running minimum and maximum over a list of numbers. *)
Lemma fold_min_list (l : list float) :
  (forall x, In x l -> is_nan x = false) ->
  forall acc, is_nan acc = false ->
  let r := fold_left Js.Math_min l acc in
  is_nan r = false
  /\ (r <=? acc)%float = true
  /\ (forall x, In x l -> (r <=? x)%float = true)
  /\ (r = acc \/ In r l).
Proof.
  induction l as [|y l IH]; intros Hl acc Hacc; cbn [fold_left].
  - split; [exact Hacc|]. split; [apply leb_refl; exact Hacc|].
    split; [intros x []|left; reflexivity].
  - assert (Hy : is_nan y = false) by (apply Hl; left; reflexivity).
    destruct (@Math_min_lower acc y Hacc Hy) as [Hlo1 Hlo2].
    assert (Hm : is_nan (Js.Math_min acc y) = false)
      by (destruct (@Math_min_cases acc y Hacc Hy) as [-> | ->]; assumption).
    destruct (IH (fun x Hx => Hl x (or_intror Hx)) (Js.Math_min acc y) Hm)
      as (Hr & Hle & Hall & Hwho).
    split; [exact Hr|].
    split; [exact (@leb_trans _ _ _ Hr Hm Hacc Hle Hlo1)|].
    split.
    + intros x [<- | Hx]; [|exact (Hall x Hx)].
      exact (@leb_trans _ _ _ Hr Hm Hy Hle Hlo2).
    + destruct Hwho as [Heq | Hin]; [|right; right; exact Hin].
      destruct (@Math_min_cases acc y Hacc Hy) as [Hc | Hc].
      * left. rewrite Heq. exact Hc.
      * right. left. rewrite Heq. symmetry. exact Hc.
Qed.

Lemma fold_max_list (l : list float) :
  (forall x, In x l -> is_nan x = false) ->
  forall acc, is_nan acc = false ->
  let r := fold_left Js.Math_max l acc in
  is_nan r = false
  /\ (acc <=? r)%float = true
  /\ (forall x, In x l -> (x <=? r)%float = true)
  /\ (r = acc \/ In r l).
Proof.
  induction l as [|y l IH]; intros Hl acc Hacc; cbn [fold_left].
  - split; [exact Hacc|]. split; [apply leb_refl; exact Hacc|].
    split; [intros x []|left; reflexivity].
  - assert (Hy : is_nan y = false) by (apply Hl; left; reflexivity).
    destruct (@Math_max_upper acc y Hacc Hy) as [Hup1 Hup2].
    assert (Hm : is_nan (Js.Math_max acc y) = false)
      by (destruct (@Math_max_cases acc y Hacc Hy) as [-> | ->]; assumption).
    destruct (IH (fun x Hx => Hl x (or_intror Hx)) (Js.Math_max acc y) Hm)
      as (Hr & Hle & Hall & Hwho).
    split; [exact Hr|].
    split; [exact (@leb_trans _ _ _ Hacc Hm Hr Hup1 Hle)|].
    split.
    + intros x [<- | Hx]; [|exact (Hall x Hx)].
      exact (@leb_trans _ _ _ Hy Hm Hr Hup2 Hle).
    + destruct Hwho as [Heq | Hin]; [|right; right; exact Hin].
      destruct (@Math_max_cases acc y Hacc Hy) as [Hc | Hc].
      * left. rewrite Heq. exact Hc.
      * right. left. rewrite Heq. symmetry. exact Hc.
Qed.

(** The sort keeps the elements and their number. *)
Lemma sort_insert_In (x y : float) (l : list float) :
  In y (sort_insert x l) <-> y = x \/ In y l.
Proof.
  induction l as [|z l IH]; cbn [sort_insert].
  - cbn. intuition congruence.
  - destruct (x - z <? 0)%float; cbn [In]; [intuition congruence|].
    rewrite IH. intuition congruence.
Qed.

Lemma sort_insert_length (x : float) (l : list float) :
  List.length (sort_insert x l) = Datatypes.S (List.length l).
Proof.
  induction l as [|z l IH]; cbn [sort_insert]; [reflexivity|].
  destruct (x - z <? 0)%float; cbn [List.length]; [reflexivity|].
  rewrite IH. reflexivity.
Qed.

Lemma sort_numbers_spec (l : list float) :
  (forall y, In y (sort_numbers l) <-> In y l)
  /\ List.length (sort_numbers l) = List.length l.
Proof.
  unfold sort_numbers.
  assert (H : forall acc,
             (forall y, In y (fold_left (fun sorted x => sort_insert x sorted) l acc)
                        <-> In y l \/ In y acc)
             /\ List.length (fold_left (fun sorted x => sort_insert x sorted) l acc)
                = (List.length l + List.length acc)%nat).
  { induction l as [|x l IH]; intros acc; cbn [fold_left].
    - split; [intros y; cbn; tauto|reflexivity].
    - destruct (IH (sort_insert x acc)) as [Hin Hlen]. split.
      + intros y. rewrite Hin, sort_insert_In. cbn [In]. intuition congruence.
      + rewrite Hlen, sort_insert_length. cbn [List.length]. lia. }
  destruct (H []) as [Hin Hlen]. split.
  - intros y. rewrite Hin. cbn. tauto.
  - rewrite Hlen. cbn. lia.
Qed.

(** The statistics of a batch that is not empty: [min] and [max] bound every
    amount (an amount that is missing, 0 or NaN counting as 0), and [min],
    [max] and [median] are amounts of the batch. *)
Theorem billing_statistics_bounds :
  forall (billingData : list Bill) (stats : BillingStatistics),
    calculateBillingStatistics billingData = Some stats ->
    let amounts := map (fun b => Js.or_zero (amount b)) billingData in
    stat_count stats = List.length billingData
    /\ (forall x, In x amounts ->
          (stat_min stats <=? x)%float = true
          /\ (x <=? stat_max stats)%float = true)
    /\ In (stat_min stats) amounts
    /\ In (median stats) amounts
    /\ In (stat_max stats) amounts.
Proof.
  intros billingData stats Hstats amounts.
  destruct billingData as [|b rest]; [discriminate Hstats|].
  unfold calculateBillingStatistics in Hstats. cbv zeta in Hstats.
  fold amounts in Hstats. injection Hstats as <-.
  cbn [stat_count stat_min stat_max median].
  destruct (sort_numbers_spec amounts) as [Hin Hlen].
  assert (Hnan : forall x, In x (sort_numbers amounts) -> is_nan x = false).
  { intros x Hx. apply Hin in Hx. unfold amounts in Hx.
    apply in_map_iff in Hx. destruct Hx as (b0 & <- & _). apply or_zero_not_nan. }
  assert (Hpos : (0 < List.length amounts)%nat) by (unfold amounts; cbn; lia).
  destruct (sort_numbers amounts) as [|y ys] eqn:Hsorted;
    [cbn in Hlen; lia|].
  assert (Hy : is_nan y = false) by (apply Hnan; left; reflexivity).
  cbn [fold_left]. rewrite (@Math_min_infinity y Hy), (@Math_max_neg_infinity y Hy).
  destruct (@fold_min_list ys (fun x Hx => Hnan x (or_intror Hx)) y Hy)
    as (Hrmin & Hmin_y & Hmin_all & Hmin_who).
  destruct (@fold_max_list ys (fun x Hx => Hnan x (or_intror Hx)) y Hy)
    as (Hrmax & Hmax_y & Hmax_all & Hmax_who).
  split; [reflexivity|]. split.
  - intros x Hx. apply Hin in Hx. destruct Hx as [<- | Hx].
    + split; [exact Hmin_y|exact Hmax_y].
    + split; [exact (Hmin_all x Hx)|exact (Hmax_all x Hx)].
  - split.
    + apply Hin. destruct Hmin_who as [-> | H]; [left; reflexivity|right; exact H].
    + split.
      * apply Hin. apply nth_In. rewrite Hlen.
        exact (Nat.div_lt (List.length amounts) 2 Hpos (Nat.lt_1_2)).
      * apply Hin. destruct Hmax_who as [-> | H]; [left; reflexivity|right; exact H].
Qed.

End Statistics.

(** ** Text preprocessing *)

Section Preprocessing.

Import FWADetectionService Facts.

(** What the two replacements of [preprocessText] leave of a character. *)
Lemma replaced_char (a : ascii) :
  let c := (fun c => if is_word c || is_space c then c else " "%char)
             (Js.lower_char a) in
  is_clean_char c || is_space c = true.
Proof.
  destruct a as [[] [] [] [] [] [] [] []]; vm_compute; reflexivity.
Qed.

(** A clean character is left alone by the replacements, and is white
    space only if it is the blank. *)
Lemma clean_char_fixed (c : ascii) :
  is_clean_char c = true ->
  Js.lower_char c = c
  /\ (if is_word c || is_space c then c else " "%char) = c
  /\ is_space c = is_blank c.
Proof.
  destruct c as [[] [] [] [] [] [] [] []]; intros H;
    first [discriminate H | vm_compute; repeat split].
Qed.

Lemma is_blank_space (c : ascii) : is_blank c = true -> is_space c = true.
Proof.
  unfold is_blank. destruct (ascii_dec c " ") as [->|]; [reflexivity|discriminate].
Qed.

Lemma is_blank_eq (c : ascii) : is_blank c = true -> c = " "%char.
Proof.
  unfold is_blank. destruct (ascii_dec c " ") as [->|]; [reflexivity|discriminate].
Qed.

(** Collapsing white space gives single blanks. *)
Lemma collapse_spaces_spaced (s : string) :
  (forall c, In c (list_ascii_of_string s) ->
             is_clean_char c || is_space c = true) ->
  forall in_run, spaced in_run (collapse_spaces in_run s) = true.
Proof.
  induction s as [|c r IH]; intros Hall in_run; [reflexivity|].
  assert (Hr : forall c0, In c0 (list_ascii_of_string r) ->
                          is_clean_char c0 || is_space c0 = true)
    by (intros c0 H0; apply Hall; right; exact H0).
  pose proof (Hall c (or_introl eq_refl)) as Hc.
  cbn [collapse_spaces]. destruct (is_space c) eqn:Hs.
  - destruct in_run; [apply IH; exact Hr|].
    cbn [spaced]. rewrite (IH Hr true). reflexivity.
  - rewrite orb_false_r in Hc. cbn [spaced]. rewrite Hc, (IH Hr false).
    destruct (is_blank c) eqn:Hb; [|reflexivity].
    rewrite (is_blank_space c Hb) in Hs. discriminate Hs.
Qed.

Lemma spaced_weaken (s : string) (b : bool) :
  spaced b s = true -> spaced false s = true.
Proof.
  destruct s as [|c r]; [reflexivity|]. cbn [spaced].
  destruct (is_clean_char c); [|discriminate]. cbn [andb].
  destruct (is_blank c); [|exact (fun H => H)].
  destruct b; cbn [negb andb]; [discriminate|exact (fun H => H)].
Qed.

Lemma spaced_tail (c : ascii) (r : string) (b : bool) :
  spaced b (String c r) = true ->
  is_clean_char c = true
  /\ spaced (is_blank c) r = true
  /\ (is_blank c = true -> b = false).
Proof.
  cbn [spaced]. destruct (is_clean_char c); [|discriminate]. cbn [andb].
  destruct (is_blank c).
  - destruct b; cbn [negb andb]; [discriminate|]. intros H. repeat split; assumption.
  - intros H. repeat split; [exact H|discriminate].
Qed.

Lemma trim_start_spaced (s : string) :
  forall b, spaced b s = true -> spaced true (trim_start s) = true.
Proof.
  induction s as [|c r IH]; intros b H; [reflexivity|].
  destruct (spaced_tail c r b H) as (Hc & Hr & _).
  destruct (clean_char_fixed c Hc) as (_ & _ & Hsp).
  cbn [trim_start]. rewrite Hsp. destruct (is_blank c) eqn:Hb.
  - exact (IH _ Hr).
  - cbn [spaced]. rewrite Hc, Hb, Hr. reflexivity.
Qed.

Lemma trim_end_spaced (s : string) :
  forall b, spaced b s = true ->
    spaced b (trim_end s) = true /\ last_is_blank (trim_end s) = false.
Proof.
  induction s as [|c r IH]; intros b H; [split; reflexivity|].
  destruct (spaced_tail c r b H) as (Hc & Hr & Hb).
  destruct (clean_char_fixed c Hc) as (_ & _ & Hsp).
  destruct (IH _ Hr) as [Ht Hlast].
  cbn [trim_end]. destruct (trim_end r) as [|d t].
  - rewrite Hsp. destruct (is_blank c) eqn:Hblank; [split; reflexivity|].
    cbn [spaced last_is_blank]. rewrite Hc, Hblank. split; reflexivity.
  - split.
    + cbn [spaced] in *. rewrite Hc. cbn [andb].
      destruct (is_blank c) eqn:Hblank.
      * rewrite (Hb eq_refl). cbn [negb andb]. exact Ht.
      * exact Ht.
    + exact Hlast.
Qed.

(** On a normal text each step of [preprocessText] changes nothing. *)
Lemma map_string_fixed (f : ascii -> ascii) (s : string) :
  (forall c, In c (list_ascii_of_string s) -> f c = c) -> Js.map_string f s = s.
Proof.
  induction s as [|c r IH]; intros H; [reflexivity|].
  cbn [Js.map_string]. rewrite (H c (or_introl eq_refl)), IH; [reflexivity|].
  intros c0 H0. apply H. right. exact H0.
Qed.

Lemma spaced_chars (s : string) :
  forall b, spaced b s = true ->
    forall c, In c (list_ascii_of_string s) -> is_clean_char c = true.
Proof.
  induction s as [|d r IH]; intros b H c Hc; [destruct Hc|].
  destruct (spaced_tail d r b H) as (Hd & Hr & _).
  destruct Hc as [<- | Hc]; [exact Hd|exact (IH _ Hr c Hc)].
Qed.

Lemma collapse_spaces_fixed (s : string) :
  forall b, spaced b s = true -> collapse_spaces b s = s.
Proof.
  induction s as [|c r IH]; intros b H; [reflexivity|].
  destruct (spaced_tail c r b H) as (Hc & Hr & Hb).
  destruct (clean_char_fixed c Hc) as (_ & _ & Hsp).
  cbn [collapse_spaces]. rewrite Hsp. destruct (is_blank c) eqn:Hblank.
  - rewrite (Hb eq_refl), (IH _ Hr), (is_blank_eq c Hblank). reflexivity.
  - rewrite (IH _ Hr). reflexivity.
Qed.

Lemma trim_start_fixed (s : string) :
  spaced true s = true -> trim_start s = s.
Proof.
  destruct s as [|c r]; intros H; [reflexivity|].
  destruct (spaced_tail c r true H) as (Hc & _ & Hb).
  destruct (clean_char_fixed c Hc) as (_ & _ & Hsp).
  cbn [trim_start]. rewrite Hsp.
  destruct (is_blank c); [specialize (Hb eq_refl); discriminate Hb|reflexivity].
Qed.

Lemma trim_end_fixed (s : string) :
  forall b, spaced b s = true -> last_is_blank s = false -> trim_end s = s.
Proof.
  induction s as [|c r IH]; intros b H Hlast; [reflexivity|].
  destruct (spaced_tail c r b H) as (Hc & Hr & _).
  destruct (clean_char_fixed c Hc) as (_ & _ & Hsp).
  cbn [trim_end]. destruct r as [|d t].
  - cbn [trim_end]. rewrite Hsp. cbn [last_is_blank] in Hlast. rewrite Hlast.
    reflexivity.
  - rewrite (IH _ Hr Hlast). reflexivity.
Qed.

(** [preprocessText] yields words of lower-case letters, digits and
    underscores separated by single blanks, with no blank at either end; and
    preprocessing a preprocessed text changes nothing. *)
Theorem preprocessText_normalizes :
  forall text : string,
    normal_text (preprocessText text) = true
    /\ (forall c, In c (list_ascii_of_string (preprocessText text)) ->
                  is_clean_char c = true)
    /\ preprocessText (preprocessText text) = preprocessText text.
Proof.
  intros text.
  assert (Hnormal : spaced true (preprocessText text) = true
                    /\ last_is_blank (preprocessText text) = false).
  { unfold preprocessText. apply trim_end_spaced.
    apply (trim_start_spaced _ false). apply collapse_spaces_spaced.
    intros c Hc. clear -Hc. revert Hc.
    generalize text. clear text. intros s.
    unfold Js.toLowerCase. induction s as [|a r IH]; intros Hc; [destruct Hc|].
    cbn [Js.map_string list_ascii_of_string In] in Hc.
    destruct Hc as [<- | Hc]; [exact (replaced_char a)|exact (IH Hc)]. }
  destruct Hnormal as [Hsp Hlast].
  pose proof (spaced_chars _ _ Hsp) as Hclean.
  split; [unfold normal_text; rewrite Hsp, Hlast; reflexivity|].
  split; [exact Hclean|].
  set (out := preprocessText text) in *.
  unfold preprocessText at 1. unfold Js.toLowerCase.
  rewrite (map_string_fixed Js.lower_char out)
    by (intros c Hc; apply (clean_char_fixed c (Hclean c Hc))).
  rewrite (map_string_fixed _ out)
    by (intros c Hc; apply (clean_char_fixed c (Hclean c Hc))).
  rewrite (collapse_spaces_fixed out false (spaced_weaken out true Hsp)).
  rewrite (trim_start_fixed out Hsp).
  exact (trim_end_fixed out true Hsp Hlast).
Qed.

End Preprocessing.

(** ** The scheduler's tasks *)

Section SchedulerTasks.

Import Scheduler.

Variable cron_validate : string -> Result unit.

Lemma set_running_length (i : nat) (b : bool) (l : list bool) :
  List.length (set_running i b l) = List.length l.
Proof.
  revert i. induction l as [|x l IH]; intros [|i]; cbn; try reflexivity.
  rewrite IH. reflexivity.
Qed.

Lemma nth_set_running_other (i t : nat) (b d : bool) (l : list bool) :
  t <> i -> nth t (set_running i b l) d = nth t l d.
Proof.
  revert i t. induction l as [|x l IH]; intros [|i] [|t] H; cbn; try reflexivity.
  - contradiction H. reflexivity.
  - apply IH. intros ->. apply H. reflexivity.
Qed.

Lemma nth_set_running_same (i : nat) (b d : bool) (l : list bool) :
  (i < List.length l)%nat -> nth i (set_running i b l) d = b.
Proof.
  revert i. induction l as [|x l IH]; intros [|i] H; cbn in *; try lia.
  - reflexivity.
  - apply IH. lia.
Qed.

Lemma map_get_In (m : list (string * Job)) (key : string) (v : Job) :
  map_get m key = Some v -> In (key, v) m.
Proof.
  induction m as [|[k w] r IH]; cbn; [discriminate|].
  destruct (String.eqb k key) eqn:Hk.
  - apply String.eqb_eq in Hk. intros H. injection H as <-. left. rewrite Hk.
    reflexivity.
  - intros H. right. exact (IH H).
Qed.

Lemma map_get_set_same (m : list (string * Job)) (key : string) (v : Job) :
  map_get (map_set m key v) key = Some v.
Proof.
  induction m as [|[k w] r IH]; cbn.
  - rewrite String.eqb_refl. reflexivity.
  - destruct (String.eqb k key) eqn:Hk; cbn.
    + rewrite String.eqb_refl. reflexivity.
    + rewrite Hk. exact IH.
Qed.

Lemma map_get_set_other (m : list (string * Job)) (key n : string) (v : Job) :
  n <> key -> map_get (map_set m key v) n = map_get m n.
Proof.
  intros Hne. induction m as [|[k w] r IH]; cbn.
  - destruct (String.eqb key n) eqn:Hk; [|reflexivity].
    apply String.eqb_eq in Hk. congruence.
  - destruct (String.eqb k key) eqn:Hk; cbn.
    + apply String.eqb_eq in Hk. subst k.
      destruct (String.eqb key n) eqn:Hn; [|reflexivity].
      apply String.eqb_eq in Hn. congruence.
    + rewrite IH. reflexivity.
Qed.

(** An entry of the map after [set] is the new one or an old one under
    another name. *)
Lemma map_set_In (m : list (string * Job)) (key : string) (v : Job) :
  NoDup (map fst m) ->
  forall n j, In (n, j) (map_set m key v) ->
              (n = key /\ j = v) \/ (In (n, j) m /\ n <> key).
Proof.
  induction m as [|[k w] r IH]; intros Hnd n j Hin; cbn in *.
  - destruct Hin as [H | []]. injection H as <- <-. left. split; reflexivity.
  - inversion Hnd as [|? ? Hk Hr]; subst.
    destruct (String.eqb k key) eqn:Hkey.
    + apply String.eqb_eq in Hkey. subst k. destruct Hin as [H | H].
      * injection H as <- <-. left. split; reflexivity.
      * right. split; [right; exact H|]. intros ->. apply Hk.
        apply (in_map fst) in H. exact H.
    + apply String.eqb_neq in Hkey. destruct Hin as [H | H].
      * injection H as <- <-. right. split; [left; reflexivity|exact Hkey].
      * destruct (IH Hr n j H) as [Hnew | [Hold Hne]]; [left; exact Hnew|].
        right. split; [right; exact Hold|exact Hne].
Qed.

Lemma map_set_keys (m : list (string * Job)) (key : string) (v : Job) :
  NoDup (map fst m) -> NoDup (map fst (map_set m key v)).
Proof.
  induction m as [|[k w] r IH]; intros Hnd; cbn in *.
  - constructor; [intros []|constructor].
  - inversion Hnd as [|? ? Hk Hr]; subst.
    destruct (String.eqb k key) eqn:Hkey; cbn.
    + apply String.eqb_eq in Hkey. subst k. constructor; assumption.
    + apply String.eqb_neq in Hkey. constructor; [|exact (IH Hr)].
      intros Hin. apply in_map_iff in Hin. destruct Hin as ([n j] & Hn & Hin).
      cbn in Hn. subst n.
      destruct (map_set_In r key v Hr _ _ Hin) as [[Heq _] | [Hold _]];
        [congruence|].
      apply Hk. apply (in_map fst) in Hold. exact Hold.
Qed.

Lemma map_set_tasks (m : list (string * Job)) (key : string) (v : Job) :
  NoDup (map fst m) ->
  NoDup (map (fun entry => task (snd entry)) m) ->
  ~ In (task v) (map (fun entry => task (snd entry)) m) ->
  NoDup (map (fun entry => task (snd entry)) (map_set m key v)).
Proof.
  induction m as [|[k w] r IH]; intros Hkeys Hnd Hfresh; cbn in *.
  - constructor; [intros []|constructor].
  - inversion Hnd as [|? ? Hw Hr]; subst.
    inversion Hkeys as [|? ? Hk Hkr]; subst.
    destruct (String.eqb k key) eqn:Hkey; cbn.
    + constructor; [|exact Hr]. intros Hin. apply Hfresh. right. exact Hin.
    + constructor.
      * intros Hin. apply in_map_iff in Hin. destruct Hin as ([n j] & Hn & Hin).
        cbn in Hn.
        destruct (map_set_In r key v Hkr _ _ Hin) as [[_ Heq] | [Hold _]].
        -- subst j. apply Hfresh. left. symmetry. exact Hn.
        -- apply Hw. rewrite <- Hn.
           exact (in_map (fun entry => task (snd entry)) r (n, j) Hold).
      * apply IH; [exact Hkr|exact Hr|]. intros Hin. apply Hfresh. right. exact Hin.
Qed.

Lemma same_task_same_entry (m : list (string * Job)) (a b : string * Job) :
  NoDup (map (fun entry => task (snd entry)) m) ->
  In a m -> In b m -> task (snd a) = task (snd b) -> a = b.
Proof.
  induction m as [|x r IH]; intros Hnd Ha Hb Heq; [destruct Ha|].
  cbn in Hnd. inversion Hnd as [|? ? Hx Hr]; subst.
  destruct Ha as [<- | Ha], Hb as [<- | Hb].
  - reflexivity.
  - exfalso. apply Hx. rewrite Heq.
    exact (in_map (fun entry => task (snd entry)) r b Hb).
  - exfalso. apply Hx. rewrite <- Heq.
    exact (in_map (fun entry => task (snd entry)) r a Ha).
  - exact (IH Hr Ha Hb Heq).
Qed.

(** The invariant holds at the start and is kept by [scheduleJob]. *)
Lemma well_formed_initial : well_formed initial.
Proof.
  split; [constructor|]. split; [constructor|]. intros name job [].
Qed.

Lemma well_formed_scheduleJob (name cronExpression : string) (st : State) :
  well_formed st -> well_formed (scheduleJob cron_validate name cronExpression st).
Proof.
  intros (Hkeys & Htasks & Hbound). unfold scheduleJob.
  destruct (cron_validate cronExpression) as [u|e]; [|split; [|split]; assumption].
  unfold well_formed. cbn [jobs tasks say with_tasks with_jobs].
  split; [apply map_set_keys; exact Hkeys|]. split.
  - apply map_set_tasks; [exact Hkeys|exact Htasks|]. cbn [task].
    intros Hin. apply in_map_iff in Hin. destruct Hin as ([n j] & Hn & Hin).
    cbn in Hn. pose proof (Hbound n j Hin). lia.
  - intros n j Hin. rewrite set_running_length, length_app. cbn [List.length].
    destruct (map_set_In _ _ _ Hkeys _ _ Hin) as [[_ ->] | [Hold _]].
    + cbn [task]. lia.
    + pose proof (Hbound n j Hold). lia.
Qed.

Lemma well_formed_startScheduledTasks (st : State) :
  well_formed st -> well_formed (startScheduledTasks cron_validate st).
Proof.
  intros Hwf. unfold startScheduledTasks.
  destruct (isInitialized st); [exact Hwf|]. cbv zeta.
  assert (Hsay : forall l msg e s, well_formed s -> well_formed (say l msg e s))
    by (intros l msg e s H; exact H).
  assert (Hinit : forall b s, well_formed s -> well_formed (with_isInitialized b s))
    by (intros b s H; exact H).
  apply Hsay, Hinit.
  do 7 apply well_formed_scheduleJob. apply Hsay. exact Hwf.
Qed.

(** [stopAllJobs] stops the tasks of the map and no other task. *)
Lemma stop_all_other (entries : list (string * Job)) :
  forall (running : list bool) (t : nat),
    (forall entry, In entry entries -> task (snd entry) <> t) ->
    nth t (fold_left (fun running entry => set_running (task (snd entry)) false running)
             entries running) false
    = nth t running false.
Proof.
  induction entries as [|x r IH]; intros running t H; cbn [fold_left]; [reflexivity|].
  rewrite IH by (intros entry Hin; apply H; right; exact Hin).
  apply nth_set_running_other. intros ->. exact (H x (or_introl eq_refl) eq_refl).
Qed.

Lemma stop_all_stays_stopped (entries : list (string * Job)) :
  forall (running : list bool) (t : nat),
    nth t running true = false ->
    nth t (fold_left (fun running entry => set_running (task (snd entry)) false running)
             entries running) true
    = false.
Proof.
  induction entries as [|x r IH]; intros running t H; cbn [fold_left]; [exact H|].
  apply IH. destruct (Nat.eq_dec t (task (snd x))) as [->|Hne].
  - apply nth_set_running_same.
    destruct (Nat.lt_ge_cases (task (snd x)) (List.length running)) as [Hlt|Hge];
      [exact Hlt|].
    rewrite (nth_overflow running true Hge) in H. discriminate H.
  - rewrite nth_set_running_other by exact Hne. exact H.
Qed.

Lemma stop_all_stops (entries : list (string * Job)) :
  forall (running : list bool) (entry : string * Job),
    In entry entries ->
    (task (snd entry) < List.length running)%nat ->
    nth (task (snd entry))
      (fold_left (fun running entry => set_running (task (snd entry)) false running)
         entries running) true
    = false.
Proof.
  induction entries as [|x r IH]; intros running entry Hin Hlt; [destruct Hin|].
  cbn [fold_left]. destruct Hin as [-> | Hin].
  - apply stop_all_stays_stopped. apply nth_set_running_same. exact Hlt.
  - apply IH; [exact Hin|]. rewrite set_running_length. exact Hlt.
Qed.

(** Scheduling a job under a name that is taken replaces the entry and
    leaves the task of the old entry started: no entry refers to it any
    more, so [stopAllJobs], which stops every task of the map, does not stop
    it. *)
Theorem replaced_job_keeps_running :
  forall (st : State) (name cronExpression : string) (old : Job),
    well_formed st ->
    map_get (jobs st) name = Some old ->
    nth (task old) (tasks st) false = true ->
    cron_validate cronExpression = Ok tt ->
    let st' := stopAllJobs (scheduleJob cron_validate name cronExpression st) in
    nth (task old) (tasks st') false = true
    /\ (forall n job, In (n, job) (jobs st') ->
          task job <> task old /\ nth (task job) (tasks st') true = false).
Proof.
  intros st name cronExpression old Hwf Hget Hrun Hvalid.
  pose proof (well_formed_scheduleJob name cronExpression Hwf) as Hwf1.
  destruct Hwf as (Hkeys & Htasks & Hbound).
  pose proof (map_get_In _ _ Hget) as Hold.
  pose proof (Hbound _ _ Hold) as Holdlt.
  assert (Hother : forall n job,
             In (n, job) (jobs (scheduleJob cron_validate name cronExpression st)) ->
             task job <> task old).
  { unfold scheduleJob. rewrite Hvalid. cbn [jobs say with_tasks with_jobs].
    intros n job Hin.
    destruct (map_set_In _ _ _ Hkeys _ _ Hin) as [[_ ->] | [Hin0 Hne]].
    - cbn [task]. lia.
    - intros Heq. apply Hne.
      pose proof (same_task_same_entry _ (n, job) (name, old) Htasks Hin0 Hold Heq)
        as H.
      injection H as -> _. reflexivity. }
  assert (Hrun1 : nth (task old)
                    (tasks (scheduleJob cron_validate name cronExpression st)) false
                  = true).
  { unfold scheduleJob. rewrite Hvalid. cbn [tasks say with_tasks with_jobs].
    rewrite nth_set_running_other by lia.
    rewrite app_nth1 by exact Holdlt. exact Hrun. }
  destruct Hwf1 as (_ & _ & Hbound1).
  cbv zeta. unfold stopAllJobs.
  cbn [tasks jobs say with_tasks with_isInitialized].
  split.
  - rewrite stop_all_other; [exact Hrun1|].
    intros [n job] Hin. exact (Hother n job Hin).
  - intros n job Hin. split; [exact (Hother n job Hin)|].
    exact (stop_all_stops _ _ (n, job) Hin (Hbound1 n job Hin)).
Qed.

(** A job that is scheduled is running, and stays so when another name is
    scheduled. *)
Lemma scheduleJob_runs (name cronExpression : string) (st : State) :
  cron_validate cronExpression = Ok tt ->
  running (scheduleJob cron_validate name cronExpression st) name.
Proof.
  intros Hvalid. unfold running, scheduleJob. rewrite Hvalid.
  cbn [jobs tasks say with_tasks with_jobs].
  eexists. split; [apply map_get_set_same|]. cbn [task].
  apply nth_set_running_same. rewrite length_app. cbn. lia.
Qed.

Lemma scheduleJob_keeps_running (name cronExpression n : string) (st : State) :
  well_formed st -> n <> name -> running st n ->
  running (scheduleJob cron_validate name cronExpression st) n.
Proof.
  intros (_ & _ & Hbound) Hne (job & Hget & Hrun). unfold running, scheduleJob.
  destruct (cron_validate cronExpression) as [u|e];
    [|exists job; split; assumption].
  cbn [jobs tasks say with_tasks with_jobs].
  exists job. split; [rewrite map_get_set_other by exact Hne; exact Hget|].
  pose proof (Hbound _ _ (map_get_In _ _ Hget)) as Hlt.
  rewrite nth_set_running_other by lia.
  rewrite app_nth1 by exact Hlt. exact Hrun.
Qed.

(** When cron accepts the seven expressions of the service,
    [startScheduledTasks] on a service that is not initialized leaves the
    seven jobs running and marks the service initialized; a second call
    changes nothing but the log. *)
Theorem startScheduledTasks_starts_seven_jobs :
  forall st : State,
    well_formed st ->
    isInitialized st = false ->
    (forall cronExpression,
        In cronExpression
          ["0 6 * * *"; "0 2 * * *"; "0 8 * * 0"; "0 4 1 * *"; "0 */4 * * *";
           "*/15 * * * *"; "0 3 * * *"] ->
        cron_validate cronExpression = Ok tt) ->
    let st1 := startScheduledTasks cron_validate st in
    let st2 := startScheduledTasks cron_validate st1 in
    isInitialized st1 = true
    /\ (forall name, In name scheduled_names -> running st1 name)
    /\ jobs st2 = jobs st1
    /\ tasks st2 = tasks st1
    /\ isInitialized st2 = true.
Proof.
  intros st Hwf Hinit Hvalid. cbv zeta.
  assert (Hfirst : isInitialized (startScheduledTasks cron_validate st) = true).
  { unfold startScheduledTasks. rewrite Hinit. reflexivity. }
  split; [exact Hfirst|]. split.
  - intros name Hin. unfold startScheduledTasks. rewrite Hinit. cbv zeta.
    assert (Hsay : forall l msg e s n, running s n -> running (say l msg e s) n)
      by (intros l msg e s n H; exact H).
    assert (Hmark : forall b s n, running s n -> running (with_isInitialized b s) n)
      by (intros b s n H; exact H).
    assert (Hwfsay : well_formed
                       (say INFO "Starting scheduled compliance tasks" None st))
      by exact Hwf.
    apply Hsay, Hmark.
    unfold scheduled_names in Hin. cbn [In] in Hin.
    repeat (destruct Hin as [<- | Hin];
            [ repeat first
                [ apply scheduleJob_runs; apply Hvalid; cbn [In]; tauto
                | apply scheduleJob_keeps_running;
                  [ repeat apply well_formed_scheduleJob; exact Hwfsay
                  | discriminate
                  | ] ]
            | ]).
    destruct Hin.
  - revert Hfirst. generalize (startScheduledTasks cron_validate st).
    intros st1 Hfirst. unfold startScheduledTasks. rewrite Hfirst.
    split; [reflexivity|]. split; [reflexivity|exact Hfirst].
Qed.

End SchedulerTasks.

(** ** The statements above on concrete inputs *)

Section HelperChecks.

Import FWAIncident FWADetectionService Facts.

Lemma classifier_never_detects_witness :
  exists features,
    extractTextFeatures Sample.lib (preprocessText Sample.transcript) = Ok features
    /\ classifyText features = {| cls_confidence := 0; cls_class := "NORMAL" |}.
Proof.
  eexists. split.
  - vm_compute. exact eq_refl.
  - apply (@classifier_never_detects unit Sample.lib
             (preprocessText Sample.transcript)).
    vm_compute. exact eq_refl.
Defined.

Lemma call_analysis_stays_below_high_witness :
  exists analysis w',
    analyzeCallTranscript Sample.lib Sample.transcript Sample.call_info
      Sample.ticking_world = (Ok analysis, w')
    /\ (call_confidence analysis <=? 0.65)%float = true
    /\ (call_riskLevel analysis = LOW \/ call_riskLevel analysis = MEDIUM)
    /\ (forall c d, ~ In (AI_CLASSIFICATION c d) (call_indicators analysis))
    /\ call_recommendations analysis
       = if existsb (category_is "billing") (call_patterns analysis)
         then [{| priority := "HIGH";
                  action := "Review billing records";
                  rec_description :=
                    "Billing irregularities detected - conduct detailed audit" |}]
         else [].
Proof.
  do 2 eexists. split.
  - vm_compute. exact eq_refl.
  - eapply (@call_analysis_stays_below_high unit Sample.lib Sample.transcript
              Sample.call_info Sample.ticking_world).
    vm_compute. exact eq_refl.
Defined.

Lemma enrollment_report_throws_witness :
  exists e w',
    reportFWAIncident Sample.lib (OfEnrollment Examples.enrollment_analysis)
      "enrollment" None Sample.ticking_world
    = (Throw (TypeError e), w')
    /\ fwa_incidents w' = fwa_incidents Sample.ticking_world.
Proof.
  destruct (@enrollment_report_throws unit Sample.lib Examples.enrollment_analysis
              "enrollment" None Sample.ticking_world)
    as (e & w' & Hrun & Hrows & _).
  - vm_compute. exact eq_refl.
  - exists e, w'. split; [exact Hrun|exact Hrows].
Defined.

Lemma duplicate_finding_iff_repeated_amount_witness :
  exists n, (0 < n)%nat
            /\ detectBillingPatterns Sample.billing_batch
               = [DuplicateAmounts n 0.8
                    "Multiple bills with identical amounts detected"].
Proof.
  apply (proj1 (duplicate_finding_iff_repeated_amount Sample.billing_batch)
           0%nat 1%nat).
  - cbn. lia.
  - vm_compute. exact eq_refl.
Defined.

Lemma extractToken_prefers_bearer_header_witness :
  Auth.extractToken Examples.bearer_request = Some "abc.def.ghi".
Proof.
  apply (proj1 (extractToken_prefers_bearer_header Examples.bearer_request)).
  exact eq_refl.
Defined.

Lemma wider_role_gate_admits_more_witness :
  Auth.requireManagerRole (Examples.request_of "ADMIN" (Some "INTERNAL"))
  = ([], Auth.Next).
Proof.
  apply (@wider_role_gate_admits_more ["ADMIN"]
           ["MANAGER"; "COMPLIANCE_OFFICER"; "ADMIN"]).
  - intros r [<- | []]. cbn. tauto.
  - vm_compute. exact eq_refl.
Defined.

Lemma clearance_gate_witness :
  Auth.authorizeDataAccess "audit_data"
    (Examples.request_of "AUDITOR" (Some "RESTRICTED")) = ([], Auth.Next)
  /\ snd (Auth.authorizeDataAccess "employee_data"
            (Examples.request_of "AGENT" (Some "PUBLIC")))
     = Auth.Json 403 "Insufficient clearance level".
Proof.
  split.
  - apply (proj1 (@clearance_gate "audit_data"
                    (Examples.request_of "AUDITOR" (Some "RESTRICTED")) _ eq_refl)).
    exact eq_refl.
  - apply (proj2 (@clearance_gate "employee_data"
                    (Examples.request_of "AGENT" (Some "PUBLIC")) _ eq_refl)).
    + vm_compute. exact eq_refl.
    + vm_compute. exact eq_refl.
Defined.

Lemma inherited_name_opens_clearance_gate_witness :
  Auth.authorizeDataAccess "toString" (Examples.request_of "AGENT" None)
  = ([], Auth.Next).
Proof.
  apply (@inherited_name_opens_clearance_gate "toString"
           (Examples.request_of "AGENT" None) _ eq_refl).
  cbn. tauto.
Defined.

Lemma billing_statistics_bounds_witness :
  exists stats,
    calculateBillingStatistics Sample.billing_batch = Some stats
    /\ stat_count stats = 6%nat
    /\ (forall x, In x (map (fun b => Js.or_zero (amount b)) Sample.billing_batch) ->
          (stat_min stats <=? x)%float = true
          /\ (x <=? stat_max stats)%float = true).
Proof.
  eexists. split.
  - vm_compute. exact eq_refl.
  - match goal with
    | |- stat_count ?st = _ /\ _ =>
        destruct (@billing_statistics_bounds Sample.billing_batch st)
          as (Hcount & Hbounds & _)
    end.
    + vm_compute. exact eq_refl.
    + split; [exact Hcount|exact Hbounds].
Defined.

Lemma startScheduledTasks_starts_seven_jobs_witness :
  Examples.cron_five_fields "every day" = Throw (ExternalError "invalid cron expression")
  /\ Scheduler.isInitialized
       (Scheduler.startScheduledTasks Examples.cron_five_fields Scheduler.initial)
     = true
  /\ Scheduler.running
       (Scheduler.startScheduledTasks Examples.cron_five_fields Scheduler.initial)
       "health-check".
Proof.
  split; [exact eq_refl|].
  destruct (@startScheduledTasks_starts_seven_jobs Examples.cron_five_fields
              Scheduler.initial well_formed_initial eq_refl)
    as (Hinit & Hrun & _).
  - intros cronExpression Hin. cbn [In] in Hin.
    repeat (destruct Hin as [<- | Hin]; [exact eq_refl|]). destruct Hin.
  - split; [exact Hinit|]. apply Hrun. vm_compute. tauto.
Defined.

Lemma replaced_job_keeps_running_witness :
  let st := Scheduler.startScheduledTasks Examples.cron_accepts Scheduler.initial in
  let st' :=
    Scheduler.stopAllJobs
      (Scheduler.scheduleJob Examples.cron_accepts "health-check" "*/5 * * * *" st) in
  Scheduler.map_get (Scheduler.jobs st) "health-check"
  = Some {| Scheduler.task := 5; Scheduler.cronExpression := "*/15 * * * *";
            Scheduler.isRunning := false; Scheduler.lastRun := None;
            Scheduler.nextRun := None |}
  /\ nth 5 (Scheduler.tasks st') false = true
  /\ List.length (Scheduler.jobs st') = 7%nat.
Proof.
  cbv zeta. split; [vm_compute; exact eq_refl|].
  split; [|vm_compute; exact eq_refl].
  apply (@replaced_job_keeps_running Examples.cron_accepts
           (Scheduler.startScheduledTasks Examples.cron_accepts Scheduler.initial)
           "health-check" "*/5 * * * *"
           {| Scheduler.task := 5; Scheduler.cronExpression := "*/15 * * * *";
              Scheduler.isRunning := false; Scheduler.lastRun := None;
              Scheduler.nextRun := None |}).
  - apply well_formed_startScheduledTasks. exact well_formed_initial.
  - vm_compute. exact eq_refl.
  - vm_compute. exact eq_refl.
  - exact eq_refl.
Defined.

End HelperChecks.
